(** * Build-environment resolution of the client configure scripts

    A shallow embedding of [client/scripts/configure.py] and of the parts of
    [client/scripts/install_deps.py] that produce the MSVC environment and
    the Conan install command and that check the prerequisites.

    The scripts talk to the operating system all the time: they read and
    write [os.environ], probe the executable search path, look at the file
    system, read the keyboard and spawn processes.  The embedding makes
    each of these explicit:

    - what the machine answers is a [Host] (platform name, [shutil.which],
      the outcome of every spawned process);
    - what the script can change is a [Machine] ([os.environ], the pending
      keyboard input, the file system);
    - what the script does to the outside is a log of [event]s (lines
      printed, prompts shown, processes spawned with their [env=]).

    Python exceptions are results of their own ([Raise]), with [try_except]
    for the handlers that the source installs.

    What the embedding idealises:

    - the exceptions are the ones the scripts handle or that a missing
      executable or variable gives ([FileNotFoundError],
      [CalledProcessError], [KeyError]).  An [OSError] of the file system
      or of a spawn and a [UnicodeDecodeError] of captured output are not
      produced; what the checks of the installer and the reader of the
      cache give is therefore stated of the runs that return;
    - the pending keyboard input is a finite list that ends in
      end-of-input, and a child process leaves it alone; a prompt that is
      fed wrong answers for ever has no run here;
    - text is ASCII: [strip], [split], [lower] and [int] know the ASCII
      white space, letters and digits;
    - a path is the list of its components, and [//] appends one: a text
      with a separator in it, which pathlib would split again, is not
      appended by [main], whose build types and platforms are fixed
      names;
    - a run starts from the namespace that [parse_arguments] returns: a
      command line that argparse answers by itself ([--help], a bad
      option) is not a run of [main]. *)

From Stdlib Require Import ZArith Ascii String List Bool Lia.
From stdpp Require Import base option list strings pretty gmap fin_maps.

Open Scope string_scope.
Open Scope list_scope.
Open Scope Z_scope.

(** ** Text helpers: the [str] methods the scripts call *)

Module Text.

Definition chr (n : nat) : ascii := ascii_of_nat n.
Definition code (c : ascii) : nat := nat_of_ascii c.

(** The double quote, used by the [f'"{vcvars}" amd64 && set'] command. *)
Definition dquote : string := String (chr 34) EmptyString.

(** [str.isspace] on the ASCII range: TAB..CR, FS..US and the space. *)
Definition is_space (c : ascii) : bool :=
  let n := code c in
  ((9 <=? n) && (n <=? 13) || (28 <=? n) && (n <=? 32))%nat.

Fixpoint lstrip (s : string) : string :=
  match s with
  | String c r => if is_space c then lstrip r else s
  | EmptyString => EmptyString
  end.

Fixpoint rstrip (s : string) : string :=
  match s with
  | String c r =>
      match rstrip r with
      | EmptyString => if is_space c then EmptyString else String c EmptyString
      | r' => String c r'
      end
  | EmptyString => EmptyString
  end.

(** [s.strip()] *)
Definition strip (s : string) : string := rstrip (lstrip s).

Definition lower_char (c : ascii) : ascii :=
  let n := code c in
  if ((65 <=? n) && (n <=? 90))%nat then chr (n + 32) else c.

(** [s.lower()] *)
Fixpoint lower (s : string) : string :=
  match s with
  | String c r => String (lower_char c) (lower r)
  | EmptyString => EmptyString
  end.

(** [s.split()]: maximal runs of characters that are not white space. *)
Fixpoint split_ws_from (cur : string) (s : string) : list string :=
  match s with
  | EmptyString => match cur with EmptyString => [] | _ => [cur] end
  | String c r =>
      if is_space c
      then match cur with
           | EmptyString => split_ws_from EmptyString r
           | _ => cur :: split_ws_from EmptyString r
           end
      else split_ws_from (cur +:+ String c EmptyString) r
  end.

Definition split (s : string) : list string := split_ws_from EmptyString s.

(** [sep.join(parts)] *)
Fixpoint join (sep : string) (parts : list string) : string :=
  match parts with
  | [] => EmptyString
  | [p] => p
  | p :: rest => p +:+ sep +:+ join sep rest
  end.

(** [sub in s] *)
Fixpoint contains (sub s : string) : bool :=
  String.prefix sub s ||
  match s with
  | EmptyString => false
  | String _ r => contains sub r
  end.

(** [sep in s] for a one-character [sep] *)
Fixpoint contains_char (c : ascii) (s : string) : bool :=
  match s with
  | EmptyString => false
  | String d r => if Ascii.eqb c d then true else contains_char c r
  end.

(** [s.partition(sep)] for a one-character [sep] that occurs in [s]:
    the text before the first occurrence and the text after it. *)
Fixpoint partition (c : ascii) (s : string) : string * string :=
  match s with
  | EmptyString => (EmptyString, EmptyString)
  | String d r =>
      if Ascii.eqb c d then (EmptyString, r)
      else let '(k, v) := partition c r in (String d k, v)
  end.

(** Line boundaries of [str.splitlines] in the ASCII range:
    LF, VT, FF, CR (and CR LF as one), FS, GS, RS. *)
Definition is_linebreak (c : ascii) : bool :=
  let n := code c in
  ((10 <=? n) && (n <=? 13) || (28 <=? n) && (n <=? 30))%nat.

Fixpoint splitlines_from (cur : string) (s : string) : list string :=
  match s with
  | EmptyString => match cur with EmptyString => [] | _ => [cur] end
  | String c r =>
      if is_linebreak c then
        match r with
        | String d r' =>
            if ((code c =? 13) && (code d =? 10))%nat
            then cur :: splitlines_from EmptyString r'
            else cur :: splitlines_from EmptyString r
        | EmptyString => [cur]
        end
      else splitlines_from (cur +:+ String c EmptyString) r
  end.

(** [s.splitlines()] *)
Definition splitlines (s : string) : list string :=
  splitlines_from EmptyString s.

Definition is_digit (c : ascii) : bool :=
  let n := code c in ((48 <=? n) && (n <=? 57))%nat.

(** Digits of a decimal literal; Python allows one underscore between
    two digits.  [seen] tells whether the previous character was a digit. *)
Fixpoint digits (acc : Z) (seen : bool) (s : string) : option Z :=
  match s with
  | EmptyString => if seen then Some acc else None
  | String c r =>
      if is_digit c then digits (10 * acc + Z.of_nat (code c - 48)) true r
      else if (code c =? 95)%nat && seen
           then match r with
                | String d _ => if is_digit d then digits acc false r else None
                | EmptyString => None
                end
           else None
  end.

(** [int(s)]: [None] stands for [ValueError].  White space around the
    literal and one sign are accepted. *)
Definition int (s : string) : option Z :=
  match strip s with
  | String c r =>
      if (code c =? 45)%nat then Z.opp <$> digits 0 false r
      else if (code c =? 43)%nat then digits 0 false r
      else digits 0 false (String c r)
  | EmptyString => None
  end.

End Text.

(** ** Paths

    A [pathlib.Path] is kept as its list of components; [p / "name"]
    appends one.  [str(p)] joins them with the separator of the platform. *)

Abbreviation Path := (list string).

Definition subpath (p : Path) (name : string) : Path := p ++ [name].
Infix "//" := subpath (at level 40, left associativity).

(** [p] is [q] or one of its parents. *)
Fixpoint is_prefix (p q : Path) : bool :=
  match p, q with
  | [], _ => true
  | a :: p', b :: q' => String.eqb a b && is_prefix p' q'
  | _ :: _, [] => false
  end.

(** ** The machine a script runs on *)

(** One entry of the pending keyboard input: a line followed by Enter, or
    an interrupt.  When nothing is pending, [input] meets end-of-input. *)
Inductive key := Typed (line : string) | CtrlC.

Inductive command :=
| Argv (args : list string)         (* subprocess.run([...]) *)
| Shell (line : string).            (* subprocess.run("...", shell=True) *)

Record completed := { returncode : Z; stdout : string }.

(** What a spawned process gets to see. *)
Record request := {
  rq_cmd : command;
  rq_cwd : option Path;
  rq_env : gmap string string;
}.

Record Machine := {
  environ : gmap string string;     (* os.environ *)
  stdin : list key;
  files : Path -> bool;             (* Path.exists *)
}.

Record Host := {
  system : string;                  (* platform.system() *)
  script_root : Path;               (* the resolved parent of the scripts directory *)
  which : option string -> string -> bool;
      (* shutil.which(cmd) is not None, for a value of PATH *)
  spawn : request -> (Path -> bool) -> option (completed * (Path -> bool));
      (* outcome of a child process and the file system it leaves;
         None when the executable cannot be started (FileNotFoundError) *)
  parse_path : string -> Path;
      (* Path(text): the components that pathlib makes of a text on this
         platform, the anchor (drive, UNC share, root) in front *)
  signal_repr : Z -> string;
      (* what str(CalledProcessError) shows after "died with" for a child
         killed by signal n: repr(signal.Signals(n)), or "unknown signal n" *)
}.

Inductive level := Info | Success | Warning | Error | Header.

Inductive event :=
| Say (lvl : level) (msg : string)
| Ask (prompt : string)
| Run (cmd : command) (cwd : option Path) (env : option (gmap string string)).

Inductive exn :=
| FileNotFoundError
| CalledProcessError (code : Z)
| KeyError (name : string).

Inductive result (A : Type) :=
| Ok (a : A)
| Raise (e : exn).
Arguments Ok {A} a.
Arguments Raise {A} e.

Record Out (A : Type) := mkOut { res : result A; st : Machine; log : list event }.
Arguments mkOut {A} res st log.
Arguments res {A} o.
Arguments st {A} o.
Arguments log {A} o.

(** A computation of the script. *)
Definition M (A : Type) : Type := Machine -> Out A.

Definition ret {A} (a : A) : M A := fun s => mkOut (Ok a) s [].

Definition bind {A B} (m : M A) (f : A -> M B) : M B :=
  fun s =>
    let o := m s in
    match res o with
    | Ok a => let o' := f a (st o) in mkOut (res o') (st o') (log o ++ log o')
    | Raise e => mkOut (Raise e) (st o) (log o)
    end.

Definition raise {A} (e : exn) : M A := fun s => mkOut (Raise e) s [].

(** [try: m except <caught>: handler] *)
Definition try_except {A} (m : M A) (caught : exn -> bool) (handler : exn -> M A) : M A :=
  fun s =>
    let o := m s in
    match res o with
    | Ok a => o
    | Raise e =>
        if caught e
        then let o' := handler e (st o) in mkOut (res o') (st o') (log o ++ log o')
        else o
    end.

Declare Scope io_scope.
Delimit Scope io_scope with io.
Notation "x <- m ;; k" := (bind m (fun x => k))
  (at level 100, m at next level, right associativity) : io_scope.
Notation "m ;; k" := (bind m (fun _ => k))
  (at level 100, right associativity) : io_scope.
Open Scope io_scope.

Definition emit (e : event) : M unit := fun s => mkOut (Ok tt) s [e].
Definition say (lvl : level) (msg : string) : M unit := emit (Say lvl msg).

Definition get_environ : M (gmap string string) :=
  fun s => mkOut (Ok (environ s)) s [].

(** [os.environ[name]] *)
Definition environ_item (name : string) : M string :=
  env <- get_environ ;;
  match env !! name with
  | Some v => ret v
  | None => raise (KeyError name)
  end.

(** [os.environ.get(name, default)] *)
Definition environ_get (name default : string) : M string :=
  env <- get_environ ;; ret (match env !! name with Some v => v | None => default end).

(** [os.environ[name] = value] *)
Definition environ_set (name value : string) : M unit :=
  fun s => mkOut (Ok tt)
             {| environ := <[name := value]> (environ s); stdin := stdin s; files := files s |} [].

(** [p.exists()] *)
Definition exists_ (p : Path) : M bool := fun s => mkOut (Ok (files s p)) s [].

(** [p.mkdir(parents=True, exist_ok=True)] *)
Definition mkdir (p : Path) : M unit :=
  fun s => mkOut (Ok tt)
             {| environ := environ s; stdin := stdin s;
                files := fun q => is_prefix q p || files s q |} [].

(** [shutil.rmtree(p)] *)
Definition rmtree (p : Path) : M unit :=
  fun s => mkOut (Ok tt)
             {| environ := environ s; stdin := stdin s;
                files := fun q => negb (is_prefix p q) && files s q |} [].

(** The keyboard entry that [input] has just consumed is gone. *)
Definition set_stdin (pending : list key) : M unit :=
  fun s => mkOut (Ok tt)
             {| environ := environ s; stdin := pending; files := files s |} [].

(** The shape of every prompt of configure.py:

    while True:
        try: answer = input(prompt)
        except (KeyboardInterrupt, EOFError): print(); return cancelled
        ... return something, or fall through to the next round

    [body] gives [Some r] to return [r] and [None] to go round again.
    [input] is read off the pending keyboard input: a typed line is
    handed to [body], an interrupt or the end of the input enters the
    handler.  Each round takes one entry, so the pending input is the
    recursion argument. *)
Fixpoint prompt_rounds {A} (prompt : string) (cancelled : A)
    (body : string -> M (option A)) (pending : list key) : M A :=
  emit (Ask prompt) ;;
  match pending with
  | Typed line :: rest =>
      set_stdin rest ;;
      r <- body line ;;
      match r with
      | Some a => ret a
      | None => prompt_rounds prompt cancelled body rest
      end
  | CtrlC :: rest => set_stdin rest ;; say Info "" ;; ret cancelled
  | [] => say Info "" ;; ret cancelled
  end.

Definition prompt_loop {A} (prompt : string) (cancelled : A)
    (body : string -> M (option A)) : M A :=
  fun s => prompt_rounds prompt cancelled body (stdin s) s.

Section Primitives.
Context (h : Host).

Definition is_windows : bool := String.eqb (system h) "Windows".

(** [os.sep] and [os.pathsep] *)
Definition sep : string := if is_windows then "\" else "/".
Definition pathsep : string := if is_windows then ";" else ":".

(** [str(p)] *)
Definition path_str (p : Path) : string := Text.join sep p.

(** [shutil.which(cmd) is not None] *)
Definition check_command (cmd : string) : M bool :=
  env <- get_environ ;; ret (which h (env !! "PATH") cmd).

(** [subprocess.run(cmd, cwd=cwd, env=env, check=check)].  A child
    without [env=] inherits [os.environ]. *)
Definition subprocess_run (cmd : command) (cwd : option Path)
    (env : option (gmap string string)) (check : bool) : M completed :=
  fun s =>
    let rq := {| rq_cmd := cmd; rq_cwd := cwd;
                 rq_env := match env with Some e => e | None => environ s end |} in
    match spawn h rq (files s) with
    | None => mkOut (Raise FileNotFoundError) s [Run cmd cwd env]
    | Some (c, fs) =>
        let s' := {| environ := environ s; stdin := stdin s; files := fs |} in
        if check && negb (returncode c =? 0)
        then mkOut (Raise (CalledProcessError (returncode c))) s' [Run cmd cwd env]
        else mkOut (Ok c) s' [Run cmd cwd env]
    end.

(** [str(e)] for the [CalledProcessError] of a [shell=True] command
    line: [cmd] is the line itself. *)
Definition shell_error_text (line : string) (code : Z) : string :=
  if code <? 0
  then "Command '" +:+ line +:+ "' died with " +:+ signal_repr h (- code) +:+ "."
  else "Command '" +:+ line +:+ "' returned non-zero exit status " +:+ pretty code +:+ ".".

End Primitives.

(** ** client/scripts/configure.py *)

Module Configure.

Record BuildConfig := {
  project_root : Path;
  build_type : string;
  compiler : option string;
  build_system : option string;
  platform : string;
  build_tests : bool;
  use_conan : bool;
  clean : bool;
  interactive : bool;
  cmake_args : list string;
}.

Definition set_build_type (v : string) (c : BuildConfig) : BuildConfig :=
  {| project_root := project_root c; build_type := v; compiler := compiler c;
     build_system := build_system c; platform := platform c;
     build_tests := build_tests c; use_conan := use_conan c; clean := clean c;
     interactive := interactive c; cmake_args := cmake_args c |}.

Definition set_compiler (v : option string) (c : BuildConfig) : BuildConfig :=
  {| project_root := project_root c; build_type := build_type c; compiler := v;
     build_system := build_system c; platform := platform c;
     build_tests := build_tests c; use_conan := use_conan c; clean := clean c;
     interactive := interactive c; cmake_args := cmake_args c |}.

Definition set_build_system (v : option string) (c : BuildConfig) : BuildConfig :=
  {| project_root := project_root c; build_type := build_type c; compiler := compiler c;
     build_system := v; platform := platform c;
     build_tests := build_tests c; use_conan := use_conan c; clean := clean c;
     interactive := interactive c; cmake_args := cmake_args c |}.

Definition set_build_tests (v : bool) (c : BuildConfig) : BuildConfig :=
  {| project_root := project_root c; build_type := build_type c; compiler := compiler c;
     build_system := build_system c; platform := platform c;
     build_tests := v; use_conan := use_conan c; clean := clean c;
     interactive := interactive c; cmake_args := cmake_args c |}.

Definition set_use_conan (v : bool) (c : BuildConfig) : BuildConfig :=
  {| project_root := project_root c; build_type := build_type c; compiler := compiler c;
     build_system := build_system c; platform := platform c;
     build_tests := build_tests c; use_conan := v; clean := clean c;
     interactive := interactive c; cmake_args := cmake_args c |}.

(** [BuildConfig.get_build_dir] *)
Definition get_build_dir (c : BuildConfig) : Path :=
  let build_type_lower := Text.lower (build_type c) in
  project_root c // "build" // build_type_lower // platform c.

(** [BuildConfig.get_conan_dir] *)
Definition get_conan_dir (c : BuildConfig) : Path := get_build_dir c.

(** [x in (a, b, ...)] *)
Definition among (x : string) (l : list string) : bool :=
  existsb (String.eqb x) l.

(** [x in (a, b, ...)] for a field that may hold [None] *)
Definition among_opt (x : option string) (l : list string) : bool :=
  match x with Some v => among v l | None => false end.

(** [x in (a, b, ..., None)] *)
Definition among_or_none (x : option string) (l : list string) : bool :=
  match x with Some v => among v l | None => true end.

(** The prompts, as [input] shows them (colour codes left out). *)
Definition build_type_prompt : string := "Select build type [3]: ".
Definition compiler_prompt : string := "Select compiler [1]: ".
Definition build_system_prompt : string := "Select build system [1]: ".
Definition yes_no_prompt (question : string) (default : bool) : string :=
  question +:+ " " +:+ (if default then "[Y/n]" else "[y/N]") +:+ " ".

(** [ask_yes_no] *)
Definition ask_yes_no (prompt : string) (default : bool) : M bool :=
  prompt_loop (yes_no_prompt prompt default) false
    (fun line =>
       let response := Text.lower (Text.strip line) in
       if String.eqb response "" then ret (Some default)
       else if among response ["y"; "yes"] then ret (Some true)
       else if among response ["n"; "no"] then ret (Some false)
       else say Info "Please answer yes or no." ;; ret None).

(** The numbered menu of [select_compiler_interactive] and
    [select_build_system_interactive]: the same loop in both.  The menu
    is only shown for a list that is not empty, so [entries[0]] is there
    when the answer is empty. *)
Definition menu_choice (entries : list (string * string)) (line : string)
  : M (option (option string)) :=
  let choice := Text.strip line in
  if String.eqb choice "" then ret (Some (fst <$> head entries))
  else
    match Text.int choice with
    | Some n =>
        let idx := n - 1 in
        if (0 <=? idx) && (idx <? Z.of_nat (length entries))
        then ret (Some (fst <$> entries !! Z.to_nat idx))
        else say Error "Invalid choice" ;; ret None
    | None => say Error "Invalid choice" ;; ret None
    end.

Fixpoint print_menu (i : nat) (entries : list (string * string)) : M unit :=
  match entries with
  | [] => ret tt
  | (_, name) :: rest =>
      say Info ("  " +:+ pretty i +:+ ". " +:+ name) ;; print_menu (S i) rest
  end.

Section WithHost.
Context (h : Host).

Definition vs_paths : list Path := [
  ["C:"; "Program Files"; "Microsoft Visual Studio"; "2022"; "Community"];
  ["C:"; "Program Files"; "Microsoft Visual Studio"; "2022"; "Professional"];
  ["C:"; "Program Files"; "Microsoft Visual Studio"; "2022"; "Enterprise"];
  ["C:"; "Program Files (x86)"; "Microsoft Visual Studio"; "2019"; "Community"];
  ["C:"; "Program Files (x86)"; "Microsoft Visual Studio"; "2019"; "Professional"];
  ["C:"; "Program Files (x86)"; "Microsoft Visual Studio"; "2019"; "Enterprise"]
].

Definition llvm_paths : list Path := [
  ["C:"; "Program Files"; "LLVM"; "bin"];
  ["C:"; "Program Files (x86)"; "LLVM"; "bin"]
].

(** The body shared by the two inner loops of [_setup_clang_cl_path]:
    for each directory holding [clang-cl.exe], prepend it to PATH and
    stop as soon as [clang-cl] is found on PATH.  [true]: the function
    has returned True. *)
Fixpoint try_clang_dirs (dirs : list Path) : M bool :=
  match dirs with
  | [] => ret false
  | clang_path :: rest =>
      let clang_cl := clang_path // "clang-cl.exe" in
      e <- exists_ clang_cl ;;
      if e then
        say Success ("Found clang-cl at: " +:+ path_str h clang_cl) ;;
        old <- environ_item "PATH" ;;
        environ_set "PATH" (path_str h clang_path +:+ pathsep h +:+ old) ;;
        ok <- check_command h "clang-cl" ;;
        if ok then say Success "clang-cl added to PATH successfully" ;; ret true
        else try_clang_dirs rest
      else try_clang_dirs rest
  end.

Fixpoint scan_vs_paths (paths : list Path) : M bool :=
  match paths with
  | [] => ret false
  | vs_path :: rest =>
      e <- exists_ vs_path ;;
      if e then
        found <- try_clang_dirs [
            vs_path // "VC" // "Tools" // "Llvm" // "x64" // "bin";
            vs_path // "VC" // "Tools" // "Llvm" // "bin" ] ;;
        if found then ret true else scan_vs_paths rest
      else scan_vs_paths rest
  end.

(** [CompilerDetector._setup_clang_cl_path] *)
Definition _setup_clang_cl_path : M bool :=
  if negb (is_windows h) then ret true
  else
    on_path <- check_command h "clang-cl" ;;
    if on_path then ret true
    else
      say Info "clang-cl not in PATH, searching common locations..." ;;
      found <- scan_vs_paths vs_paths ;;
      if found then ret true
      else
        found <- try_clang_dirs llvm_paths ;;
        if found then ret true
        else say Warning "clang-cl not found in common locations" ;; ret false.

(** A [parse_path] for machines to run the scripts on: what [Path(text)]
    gives on Windows for a text that starts with a drive letter and a
    slash and has no empty or dot component.  Both slashes separate
    components. *)
Fixpoint path_parts (cur : string) (s : string) : Path :=
  match s with
  | EmptyString => match cur with EmptyString => [] | _ => [cur] end
  | String c r =>
      if (Text.code c =? 47)%nat || (Text.code c =? 92)%nat
      then match cur with
           | EmptyString => path_parts EmptyString r
           | _ => cur :: path_parts EmptyString r
           end
      else path_parts (cur +:+ String c EmptyString) r
  end.

Definition path_of (text : string) : Path := path_parts EmptyString text.

Definition vswhere_query (vswhere_path : Path) : command :=
  Argv [ path_str h vswhere_path; "-latest"; "-products"; "*"; "-requires";
         "Microsoft.VisualStudio.Component.VC.Tools.x86.x64";
         "-property"; "installationPath" ].

Definition is_called_process_error (e : exn) : bool :=
  match e with CalledProcessError _ => true | _ => false end.

(** [CompilerDetector.detect_msvc] *)
Definition detect_msvc : M (option string) :=
  if negb (is_windows h) then ret None
  else
    pf <- environ_get "ProgramFiles(x86)" "C:\Program Files (x86)" ;;
    let vswhere_path :=
      parse_path h pf // "Microsoft Visual Studio" // "Installer" // "vswhere.exe" in
    e <- exists_ vswhere_path ;;
    if e then
      try_except
        (result <- subprocess_run h (vswhere_query vswhere_path) None None true ;;
         if negb (String.eqb (Text.strip (stdout result)) "")
         then ret (Some "msvc") else ret None)
        is_called_process_error
        (fun _ => ret None)
    else ret None.

(** The [for line in proc.stdout.splitlines()] loop of
    [setup_msvc_environment]: every [NAME=VALUE] line is written into
    [env]. *)
Fixpoint store_lines (lines : list string) (env : gmap string string)
  : gmap string string :=
  match lines with
  | [] => env
  | line :: rest =>
      if Text.contains_char "=" line
      then let '(key, value) := Text.partition "=" line in
           store_lines rest (<[key := value]> env)
      else store_lines rest env
  end.

(** [for p in common_paths: if p.exists(): vs_path = str(p); break] *)
Fixpoint first_existing (paths : list Path) : M string :=
  match paths with
  | [] => ret ""
  | p :: rest =>
      e <- exists_ p ;;
      if e then ret (path_str h p) else first_existing rest
  end.

(** [f'"{vcvars}" amd64 && set'] *)
Definition vcvars_line (vcvars : Path) : string :=
  Text.dquote +:+ path_str h vcvars +:+ Text.dquote +:+ " amd64 && set".

Definition vcvars_command (vcvars : Path) : command := Shell (vcvars_line vcvars).

(** [f"Failed to setup MSVC environment: {e}"] for the exception that
    the handler of [run_vcvarsall] catches. *)
Definition vcvars_failure (vcvars : Path) (e : exn) : string :=
  "Failed to setup MSVC environment: " +:+
  match e with
  | CalledProcessError code => shell_error_text h (vcvars_line vcvars) code
  | _ => ""
  end.

(** Lines 337-388 of [setup_msvc_environment]: ask vswhere for the
    installation path, then try the common paths.  The empty string
    stands for an installation that was not found. *)
Definition locate_visual_studio : M string :=
  pf86 <- environ_get "ProgramFiles(x86)" "C:\Program Files (x86)" ;;
  let vswhere_path :=
    parse_path h pf86 // "Microsoft Visual Studio" // "Installer" // "vswhere.exe" in
  pf <- environ_get "ProgramFiles" "C:\Program Files" ;;
  let fallback_vswhere :=
    parse_path h pf // "Microsoft Visual Studio" // "Installer" // "vswhere.exe" in
  e1 <- exists_ vswhere_path ;;
  e2 <- (if negb e1 then exists_ fallback_vswhere else ret false) ;;
  let vswhere_path := if negb e1 && e2 then fallback_vswhere else vswhere_path in
  e <- exists_ vswhere_path ;;
  vs_path <-
    (if e then
       try_except
         (result <- subprocess_run h (vswhere_query vswhere_path) None None true ;;
          ret (Text.strip (stdout result)))
         is_called_process_error
         (fun _ => ret "")
     else ret "") ;;
  if String.eqb vs_path "" then first_existing vs_paths else ret vs_path.

(** Lines 390-414 of [setup_msvc_environment]: run [vcvarsall.bat]
    followed by [set] and write the dump into [env].  [configured] is
    the message of the success path. *)
Definition run_vcvarsall (configured : string) (env : gmap string string)
    (vs_path : string) : M (gmap string string) :=
  if String.eqb vs_path "" then
    say Warning "Visual Studio installation not found" ;; ret env
  else
    let vcvars := parse_path h vs_path // "VC" // "Auxiliary" // "Build" // "vcvarsall.bat" in
    e <- exists_ vcvars ;;
    if negb e then
      say Warning ("vcvarsall.bat not found at " +:+ path_str h vcvars) ;; ret env
    else
      try_except
        (proc <- subprocess_run h (vcvars_command vcvars) None None true ;;
         let env := store_lines (Text.splitlines (stdout proc)) env in
         say Success configured ;;
         ret env)
        is_called_process_error
        (fun e => say Warning (vcvars_failure vcvars e) ;; ret env).

(** The part of [setup_msvc_environment] after the early returns. *)
Definition extract_msvc_environment (configured : string)
    (env : gmap string string) : M (gmap string string) :=
  vs_path <- locate_visual_studio ;;
  run_vcvarsall configured env vs_path.

(** [CompilerDetector.setup_msvc_environment] *)
Definition setup_msvc_environment : M (gmap string string) :=
  env <- get_environ ;;
  if negb (is_windows h) then ret env
  else
    cl <- check_command h "cl" ;;
    if cl && bool_decide (is_Some (env !! "INCLUDE")) then
      say Info "MSVC environment already configured" ;; ret env
    else extract_msvc_environment "MSVC environment configured" env.

(** [CompilerDetector.detect_gcc] *)
Definition detect_gcc : M bool := check_command h "g++".

(** [CompilerDetector.detect_clang] *)
Definition detect_clang : M bool :=
  if is_windows h then
    on_path <- check_command h "clang-cl" ;;
    if on_path then ret true else _setup_clang_cl_path
  else check_command h "clang++".

(** Lines 428-439 of [select_compiler_interactive]: the candidates, in
    the order in which they are appended. *)
Definition compiler_candidates : M (list (string * string)) :=
  msvc <- (if is_windows h then detect_msvc else ret None) ;;
  clang <- detect_clang ;;
  gcc <- detect_gcc ;;
  ret ((if msvc is Some _ then [("msvc", "MSVC")] else [])
       ++ (if clang
           then if is_windows h then [("clang-cl", "Clang-CL (Windows)")]
                else [("clang", "Clang")]
           else [])
       ++ (if gcc then [("gcc", "GCC")] else [])).

(** [CompilerDetector.select_compiler_interactive] *)
Definition select_compiler_interactive : M (option string) :=
  compilers <- compiler_candidates ;;
  match compilers with
  | [] => say Error "No compilers found!" ;; ret None
  | _ =>
      say Info "Available compilers:" ;;
      print_menu 1 compilers ;;
      prompt_loop compiler_prompt None (menu_choice compilers)
  end.

(** [CompilerDetector.setup_compiler]: the dict, in insertion order. *)
Definition setup_compiler (compiler : option string) : M (list (string * string)) :=
  match compiler with
  | Some c =>
      if among c ["gcc"; "g++"] then
        ret [("CMAKE_C_COMPILER", "gcc"); ("CMAKE_CXX_COMPILER", "g++")]
      else if among c ["clang"; "clang++"] then
        ret [("CMAKE_C_COMPILER", "clang"); ("CMAKE_CXX_COMPILER", "clang++")]
      else if String.eqb c "clang-cl" then
        _setup_clang_cl_path ;;
        ret [("CMAKE_C_COMPILER", "clang-cl"); ("CMAKE_CXX_COMPILER", "clang-cl")]
      else ret []
  | None => ret []
  end.

(** [BuildSystemSelector.detect_ninja] *)
Definition detect_ninja : M bool := check_command h "ninja".

(** [BuildSystemSelector.detect_make] *)
Definition detect_make : M bool := check_command h "make".

(** [BuildSystemSelector.detect_msbuild] *)
Definition detect_msbuild : M bool :=
  if negb (is_windows h) then ret false
  else
    pf <- environ_get "ProgramFiles(x86)" "C:\Program Files (x86)" ;;
    let vswhere_path :=
      parse_path h pf // "Microsoft Visual Studio" // "Installer" // "vswhere.exe" in
    e <- exists_ vswhere_path ;;
    if e then
      try_except
        (result <- subprocess_run h (vswhere_query vswhere_path) None None true ;;
         ret (negb (String.eqb (Text.strip (stdout result)) "")))
        is_called_process_error
        (fun _ => ret false)
    else ret false.

(** Lines 543-551 of [select_build_system_interactive]: the generators
    offered for [compiler], in the order in which they are appended. *)
Definition build_system_candidates (compiler : option string)
  : M (list (string * string)) :=
  ninja <- detect_ninja ;;
  make <- (if negb (is_windows h) then detect_make else ret false) ;;
  msbuild <- (if is_windows h then detect_msbuild else ret false) ;;
  ret ((if ninja then [("Ninja", "Ninja (fast)")] else [])
       ++ (if make then [("Unix Makefiles", "Unix Makefiles")] else [])
       ++ (if msbuild && among_opt compiler ["msvc"; "cl"]
           then [("Visual Studio 17 2022", "Visual Studio 2022")] else [])).

(** [BuildSystemSelector.select_build_system_interactive] *)
Definition select_build_system_interactive (compiler : option string)
  : M (option string) :=
  systems <- build_system_candidates compiler ;;
  match systems with
  | [] => say Warning "No build systems found, using CMake default" ;; ret None
  | [(id, name)] => say Info ("Using build system: " +:+ name) ;; ret (Some id)
  | _ =>
      say Info "Available build systems:" ;;
      print_menu 1 systems ;;
      prompt_loop build_system_prompt None (menu_choice systems)
  end.

(** [BuildSystemSelector.setup_build_system] *)
Definition setup_build_system (build_system : option string) : list string :=
  match build_system with
  | Some g => if String.eqb g "" then [] else ["-G"; g]
  | None => []
  end.

(** [ConanManager.find_conan_toolchain] *)
Definition find_conan_toolchain (config : BuildConfig) : M (option Path) :=
  let build_dir := get_build_dir config in
  let toolchain := build_dir // "conan_toolchain.cmake" in
  e <- exists_ toolchain ;;
  if e then ret (Some toolchain) else ret None.

(** [ConanManager.ask_use_conan] *)
Definition ask_use_conan (interactive : bool) : M bool :=
  if negb interactive then ret false
  else
    conan <- check_command h "conan" ;;
    if negb conan then
      say Info "Conan not found. Will use system packages or CPM." ;; ret false
    else ask_yes_no "Use Conan for dependencies?" false.

Definition is_called_or_not_found (e : exn) : bool :=
  match e with
  | CalledProcessError _ | FileNotFoundError => true
  | _ => false
  end.

(** Lines 669-679 of [setup_conan] *)
Definition conan_install_cmd (config : BuildConfig) (profile conan_build_type : string)
  : list string :=
  [ "conan"; "install"; path_str h (project_root config);
    "--output-folder"; path_str h (get_build_dir config);
    "--build=missing"; "--build=!qt/*";
    "--profile=" +:+ profile;
    "-s:h=build_type=" +:+ conan_build_type ].

(** [ConanManager.setup_conan] *)
Definition setup_conan (config : BuildConfig) : M bool :=
  say Header "Installing Conan Dependencies" ;;
  conan <- check_command h "conan" ;;
  if negb conan then
    say Error "Conan not found. Please install Conan first:" ;;
    say Info "  pip install conan" ;;
    ret false
  else
    let build_dir := get_build_dir config in
    mkdir build_dir ;;
    let custom_profile := project_root config // "conan_profiles" // "gcc15" in
    e <- exists_ custom_profile ;;
    profile <-
      (if e && among_or_none (compiler config) ["gcc"; "g++"] then
         try_except
           (result <- subprocess_run h (Argv ["gcc"; "--version"]) None None true ;;
            if Text.contains "gcc (GCC) 15" (stdout result)
               || Text.contains "gcc (GCC) 16" (stdout result)
            then
              let profile := path_str h custom_profile in
              say Info ("Using custom GCC 15+ profile: " +:+ profile) ;;
              ret profile
            else ret "default")
           is_called_or_not_found
           (fun _ => ret "default")
       else ret "default") ;;
    let build_type := build_type config in
    conan_build_type <-
      (if String.eqb (Text.lower build_type) "relwithdebinfo" then
         say Info "Using Release dependencies for RelWithDebInfo build (saves compilation time)" ;;
         ret "Release"
       else ret build_type) ;;
    let cmd := conan_install_cmd config profile conan_build_type in
    say Info ("Running: " +:+ Text.join " " cmd) ;;
    result <- subprocess_run h (Argv cmd) (Some (project_root config)) None false ;;
    if negb (returncode result =? 0) then
      say Error "Conan dependency installation failed" ;; ret false
    else
      say Success "Conan dependencies installed successfully" ;; ret true.

(** [CMakeBuilder.select_build_type_interactive] *)
Definition select_build_type_interactive : M string :=
  say Info "Select build type:" ;;
  say Info "  1. Debug" ;;
  say Info "  2. RelWithDebInfo" ;;
  say Info "  3. Release" ;;
  prompt_loop build_type_prompt "Release"
    (fun line =>
       let choice := Text.strip line in
       if String.eqb choice "" || String.eqb choice "3" then ret (Some "Release")
       else if String.eqb choice "1" then ret (Some "Debug")
       else if String.eqb choice "2" then ret (Some "RelWithDebInfo")
       else say Error "Invalid choice" ;; ret None).

(** [CMakeBuilder.select_tests_interactive] *)
Definition select_tests_interactive : M bool := ask_yes_no "Build tests?" false.

Definition define (kv : string * string) : string :=
  "-D" +:+ fst kv +:+ "=" +:+ snd kv.

(** The Conan part of the command, lines 755-764 of [configure]. *)
Definition conan_defines (config : BuildConfig) : M (list string) :=
  if use_conan config then
    toolchain <- find_conan_toolchain config ;;
    match toolchain with
    | Some t =>
        ret ["-DCMAKE_TOOLCHAIN_FILE=" +:+ path_str h t; "-DCLIENT_USE_CONAN=ON"]
    | None =>
        say Warning "Conan toolchain not found. Run install_deps.py first." ;;
        ret []
    end
  else ret ["-DCLIENT_USE_CONAN=OFF"].

(** [CMakeBuilder.configure] *)
Definition configure (config : BuildConfig) : M bool :=
  say Header "Configuring CMake" ;;
  let build_dir := get_build_dir config in
  mkdir build_dir ;;
  let cmd := ["cmake"] in
  let cmd := cmd ++ setup_build_system (build_system config) in
  compiler_args <- setup_compiler (compiler config) ;;
  let cmd := cmd ++ (define <$> compiler_args) in
  let cmd := cmd ++ ["-DCMAKE_BUILD_TYPE=" +:+ build_type config] in
  let cmd := cmd ++ ["-DCLIENT_BUILD_TESTS=" +:+ (if build_tests config then "ON" else "OFF")] in
  conan <- conan_defines config ;;
  let cmd := cmd ++ conan in
  let cmd := cmd ++ cmake_args config in
  let cmd := cmd ++ ["-S"; path_str h (project_root config); "-B"; path_str h build_dir] in
  say Info ("Running: " +:+ Text.join " " cmd) ;;
  env <- get_environ ;;
  env <- (if is_windows h && among_or_none (compiler config) ["msvc"; "cl"]
          then setup_msvc_environment else ret env) ;;
  result <- subprocess_run h (Argv cmd) (Some (project_root config)) (Some env) false ;;
  if negb (returncode result =? 0) then
    say Error "CMake configuration failed" ;; ret false
  else
    say Success "CMake configuration successful" ;; ret true.

(** [BuildConfig.get_platform_name] *)
Definition get_platform_name : string :=
  if String.eqb (system h) "Windows" then "windows"
  else if String.eqb (system h) "Linux" then "linux"
  else if String.eqb (system h) "Darwin" then "macos"
  else "unknown".

(** [BuildConfig.__init__] *)
Definition BuildConfig_init : BuildConfig :=
  {| project_root := script_root h; build_type := "Release"; compiler := None;
     build_system := None; platform := get_platform_name;
     build_tests := false; use_conan := false; clean := false;
     interactive := true; cmake_args := [] |}.

End WithHost.

(** *** The command line

    [argparse] rejects a value outside [choices=] before [main] sees it,
    so each of these options is an enumeration. *)

Inductive type_choice := Debug | Release | RelWithDebInfo.
Inductive compiler_choice := gcc | clang | clang_cl | msvc | cl.
Inductive build_system_choice := Ninja | Unix_Makefiles | Visual_Studio_17_2022.
Inductive platform_choice := linux | windows | macos.

Definition type_name (t : type_choice) : string :=
  match t with
  | Debug => "Debug" | Release => "Release" | RelWithDebInfo => "RelWithDebInfo"
  end.

Definition compiler_name (c : compiler_choice) : string :=
  match c with
  | gcc => "gcc" | clang => "clang" | clang_cl => "clang-cl"
  | msvc => "msvc" | cl => "cl"
  end.

Definition build_system_name (b : build_system_choice) : string :=
  match b with
  | Ninja => "Ninja" | Unix_Makefiles => "Unix Makefiles"
  | Visual_Studio_17_2022 => "Visual Studio 17 2022"
  end.

Definition platform_name (p : platform_choice) : string :=
  match p with linux => "linux" | windows => "windows" | macos => "macos" end.

(** The namespace that [parse_arguments] returns. *)
Record Args := {
  arg_type : option type_choice;                  (* -t, --type *)
  arg_compiler : option compiler_choice;          (* -c, --compiler *)
  arg_build_system : option build_system_choice;  (* -b, --build-system *)
  arg_platform : option platform_choice;          (* --platform *)
  arg_build_tests : option bool;                  (* --tests / --no-tests *)
  arg_use_conan : option bool;                    (* --use-conan / --no-conan *)
  arg_clean : bool;                               (* --clean *)
  arg_no_interactive : bool;                      (* --no-interactive *)
  arg_cmake_args : string;                        (* --cmake-args *)
}.

Section Main.
Context (h : Host).

(** Lines 898-906 of [main] *)
Definition initial_config (args : Args) : BuildConfig :=
  let c := BuildConfig_init h in
  {| project_root := project_root c; build_type := build_type c;
     compiler := compiler c; build_system := build_system c;
     platform := match arg_platform args with
                 | Some p => platform_name p
                 | None => platform c
                 end;
     build_tests := build_tests c; use_conan := use_conan c;
     clean := arg_clean args;
     interactive := negb (arg_no_interactive args);
     cmake_args := if String.eqb (arg_cmake_args args) "" then cmake_args c
                   else Text.split (arg_cmake_args args) |}.

(** Lines 914-920: build type *)
Definition resolve_build_type (args : Args) (config : BuildConfig) : M string :=
  match arg_type args with
  | Some t => ret (type_name t)
  | None =>
      if interactive config then select_build_type_interactive
      else ret "Release"
  end.

(** Lines 930-939: the non-interactive choice of a compiler.  [None]
    stands for the [return 1] of the last branch. *)
Definition auto_detect_compiler : M (option string) :=
  gcc <- detect_gcc h ;;
  if gcc then ret (Some "gcc")
  else
    clang <- detect_clang h ;;
    if clang then ret (Some (if negb (is_windows h) then "clang" else "clang-cl"))
    else
      msvc <- (if is_windows h then detect_msvc h else ret None) ;;
      if msvc is Some _ then ret (Some "msvc")
      else say Error "No compiler found" ;; ret None.

(** Lines 922-939: compiler.  [None]: [main] returns 1. *)
Definition resolve_compiler (args : Args) (config : BuildConfig) : M (option string) :=
  match arg_compiler args with
  | Some c => ret (Some (compiler_name c))
  | None =>
      if interactive config then select_compiler_interactive h
      else auto_detect_compiler
  end.

(** Lines 949-957: the non-interactive choice of a generator *)
Definition auto_select_build_system (compiler : option string) : M (option string) :=
  ninja <- detect_ninja h ;;
  if ninja then ret (Some "Ninja")
  else if negb (is_windows h) then ret (Some "Unix Makefiles")
  else if among_opt compiler ["msvc"; "cl"] then ret (Some "Visual Studio 17 2022")
  else ret (Some "Ninja").

(** Lines 941-957: build system *)
Definition resolve_build_system (args : Args) (config : BuildConfig)
  : M (option string) :=
  match arg_build_system args with
  | Some b => ret (Some (build_system_name b))
  | None =>
      if interactive config then select_build_system_interactive h (compiler config)
      else auto_select_build_system (compiler config)
  end.

(** Lines 959-965: tests *)
Definition resolve_build_tests (args : Args) (config : BuildConfig) : M bool :=
  match arg_build_tests args with
  | Some b => ret b
  | None =>
      if interactive config then select_tests_interactive
      else ret false
  end.

(** Lines 967-973: Conan *)
Definition resolve_use_conan (args : Args) (config : BuildConfig) : M bool :=
  match arg_use_conan args with
  | Some b => ret b
  | None =>
      if interactive config then ask_use_conan h (interactive config)
      else ret false
  end.

Definition show_option (o : option string) : string :=
  match o with Some v => v | None => "None" end.

Definition show_bool (b : bool) : string := if b then "True" else "False".

(** Lines 975-985 *)
Definition print_summary (config : BuildConfig) : M unit :=
  say Info "" ;;
  say Header "Configuration Summary" ;;
  say Info ("  Build Type:    " +:+ build_type config) ;;
  say Info ("  Compiler:      " +:+ show_option (compiler config)) ;;
  say Info ("  Build System:  " +:+ show_option (build_system config)) ;;
  say Info ("  Platform:      " +:+ platform config) ;;
  say Info ("  Build Tests:   " +:+ show_bool (build_tests config)) ;;
  say Info ("  Use Conan:     " +:+ show_bool (use_conan config)) ;;
  say Info ("  Build Dir:     " +:+ path_str h (get_build_dir config)) ;;
  say Info "".

(** Lines 987-1009: clean, install, configure *)
Definition build (config : BuildConfig) : M Z :=
  (if clean config then
     let build_dir := get_build_dir config in
     e <- exists_ build_dir ;;
     if e then
       say Info ("Cleaning build directory: " +:+ path_str h build_dir) ;;
       rmtree build_dir
     else ret tt
   else ret tt) ;;
  installed <- (if use_conan config then setup_conan h config else ret true) ;;
  if negb installed then ret 1
  else
    configured <- configure h config ;;
    if negb configured then ret 1
    else
      say Success "Configuration complete!" ;;
      say Info "" ;;
      say Info "To build the project, run:" ;;
      say Info "  python scripts/build.py" ;;
      say Info "" ;;
      ret 0.

(** [main] *)
Definition main (args : Args) : M Z :=
  say Header "Client Configuration" ;;
  let config := initial_config args in
  build_type <- resolve_build_type args config ;;
  let config := set_build_type build_type config in
  compiler <- resolve_compiler args config ;;
  match compiler with
  | None => ret 1
  | Some _ =>
      let config := set_compiler compiler config in
      build_system <- resolve_build_system args config ;;
      let config := set_build_system build_system config in
      build_tests <- resolve_build_tests args config ;;
      let config := set_build_tests build_tests config in
      use_conan <- resolve_use_conan args config ;;
      let config := set_use_conan use_conan config in
      print_summary config ;;
      build config
  end.

(** The status the process exits with once its command line is parsed:
    [sys.exit(main())], and 1 when an exception reaches the top. *)
Definition exit_status (o : Out Z) : Z :=
  match res o with
  | Ok code => code
  | Raise _ => 1
  end.

End Main.

(** *** The CMake cache *)

(** The loop of [read_cmake_cache] over the lines of [CMakeCache.txt]:
    comments and blank lines are skipped, and a line with an [=] and a
    [:] gives [cache[NAME] = VALUE], where the text before the first [=]
    is cut at its first [:].  ([fst (Text.partition ":" t)] is all of [t]
    when [t] has no colon, like [t.split(":")[0]].) *)
Fixpoint cache_entries (lines : list string) (cache : gmap string string)
  : gmap string string :=
  match lines with
  | [] => cache
  | raw :: rest =>
      let line := Text.strip raw in
      if String.eqb line "" || String.prefix "#" line || String.prefix "//" line
      then cache_entries rest cache
      else if Text.contains_char "=" line && Text.contains_char ":" line
      then let '(key_type, value) := Text.partition "=" line in
           let key := fst (Text.partition ":" key_type) in
           cache_entries rest (<[key := value]> cache)
      else cache_entries rest cache
  end.

Section Cache.
Context (read_lines : Path -> list string + string).
    (* the lines that iterating the open file yields, or the text of the
       exception that opening or reading it raises *)

(** [read_cmake_cache] *)
Definition read_cmake_cache (build_dir : Path) : M (gmap string string) :=
  let cache_file := build_dir // "CMakeCache.txt" in
  e <- exists_ cache_file ;;
  if negb e then ret ∅
  else
    match read_lines cache_file with
    | inl lines => ret (cache_entries lines ∅)
    | inr e => say Warning ("Failed to read CMakeCache.txt: " +:+ e) ;; ret ∅
    end.

End Cache.
End Configure.

(** ** client/scripts/install_deps.py *)

Module InstallDeps.
Section WithHost.
Context (h : Host).

(** [DependencyInstaller.get_platform_name] *)
Definition get_platform_name : string :=
  if String.eqb (system h) "Windows" then "windows"
  else if String.eqb (system h) "Linux" then "linux"
  else if String.eqb (system h) "Darwin" then "macos"
  else "unknown".

(** [DependencyInstaller.get_build_dir]; [self.project_root] is the
    same directory as the one of configure.py. *)
Definition get_build_dir (build_type : string) : Path :=
  let build_type_lower := Text.lower build_type in
  let platform_name := get_platform_name in
  script_root h // "build" // build_type_lower // platform_name.

(** [DependencyInstaller.get_conan_dir] *)
Definition get_conan_dir (build_type : string) : Path := get_build_dir build_type.

(** [DependencyInstaller._setup_msvc_environment].  [msvc_env] is
    [self._msvc_env] on entry; the second component of the result is
    its value on return. *)
Definition _setup_msvc_environment (msvc_env : option (gmap string string))
  : M (gmap string string * option (gmap string string)) :=
  match msvc_env with
  | Some cached => ret (cached, msvc_env)
  | None =>
      env <- get_environ ;;
      if negb (is_windows h) then ret (env, None)
      else
        cl <- check_command h "cl" ;;
        if cl && bool_decide (is_Some (env !! "INCLUDE")) then
          say Info "MSVC environment already configured" ;; ret (env, Some env)
        else
          env <- Configure.extract_msvc_environment h
                   "MSVC environment configured for Conan build" env ;;
          ret (env, Some env)
  end.

(** Lines 464-472 of [install_conan_dependencies] *)
Definition conan_install_cmd (build_type conan_build_type : string) : list string :=
  [ "conan"; "install"; path_str h (script_root h);
    "--output-folder"; path_str h (get_conan_dir build_type);
    "--build=missing";
    "-s:h=build_type=" +:+ conan_build_type ].

(** [DependencyInstaller.install_conan_dependencies] *)
Definition install_conan_dependencies (build_type : string)
    (msvc_env : option (gmap string string))
  : M (bool * option (gmap string string)) :=
  say Header "Installing Conan Dependencies" ;;
  let build_dir := get_conan_dir build_type in
  mkdir build_dir ;;
  let conan_build_type :=
    if String.eqb (Text.lower build_type) "relwithdebinfo" then "RelWithDebInfo"
    else if String.eqb (Text.lower build_type) "debug" then "Debug"
    else if String.eqb (Text.lower build_type) "release" then "Release"
    else build_type in
  let cmd := conan_install_cmd build_type conan_build_type in
  say Info ("Running: " +:+ Text.join " " cmd) ;;
  env <- get_environ ;;
  r <- (if is_windows h then _setup_msvc_environment msvc_env
        else ret (env, msvc_env)) ;;
  let '(env, msvc_env) := r in
  result <- subprocess_run h (Argv cmd) (Some (script_root h)) (Some env) false ;;
  if negb (returncode result =? 0) then
    say Error "Conan dependency installation failed" ;; ret (false, msvc_env)
  else
    say Success "Conan dependencies installed successfully" ;; ret (true, msvc_env).


(** [run_command]: the exit code and the captured output.  The third
    component, the captured stderr, is left out: no caller modelled here
    reads it.  With [check=True] a nonzero exit comes back through
    [CalledProcessError] with the same code and output; a command that
    cannot be started gives 127. *)
Definition run_command (cmd : list string) (cwd : option Path)
    (check live_output : bool) : M (Z * string) :=
  fun s =>
    let rq := {| rq_cmd := Argv cmd; rq_cwd := cwd; rq_env := environ s |} in
    match spawn h rq (files s) with
    | None => mkOut (Ok (127, "")) s [Run (Argv cmd) cwd None]
    | Some (c, fs) =>
        mkOut (Ok (returncode c, if live_output then "" else stdout c))
          {| environ := environ s; stdin := stdin s; files := fs |}
          [Run (Argv cmd) cwd None]
    end.

(** [DependencyInstaller.check_cmake] *)
Definition check_cmake : M bool :=
  found <- check_command h "cmake" ;;
  if negb found then
    say Error "CMake not found. Please install CMake 3.25 or higher" ;; ret false
  else
    r <- run_command ["cmake"; "--version"] None false false ;;
    let '(returncode, stdout) := r in
    (if returncode =? 0 then
       let version_line := fst (Text.partition (Text.chr 10) stdout) in
       say Success ("CMake: " +:+ version_line)
     else ret tt) ;;
    ret true.

(** [DependencyInstaller.check_git] *)
Definition check_git : M bool :=
  found <- check_command h "git" ;;
  if negb found then
    say Error "Git not found. Please install Git" ;; ret false
  else
    r <- run_command ["git"; "--version"] None false false ;;
    let '(returncode, stdout) := r in
    (if returncode =? 0 then say Success ("Git: " +:+ Text.strip stdout)
     else ret tt) ;;
    ret true.

(** One of the two probes of [check_qt]: [Some true] stands for the
    [return True] inside the branch, [None] for falling through. *)
Definition probe_version (cmd : string) (args : list string) (label : string)
  : M (option bool) :=
  r <- run_command (cmd :: args) None false false ;;
  let '(returncode, stdout) := r in
  if returncode =? 0 then
    say Success (label +:+ Text.strip stdout) ;; ret (Some true)
  else ret None.

(** [DependencyInstaller.check_qt] *)
Definition check_qt : M bool :=
  qmake <- check_command h "qmake" ;;
  r <- (if qmake then probe_version "qmake" ["--version"] "Qt found: " else ret None) ;;
  match r with
  | Some b => ret b
  | None =>
      qmake6 <- check_command h "qmake6" ;;
      r <- (if qmake6 then probe_version "qmake6" ["--version"] "Qt6 found: "
            else ret None) ;;
      match r with
      | Some b => ret b
      | None =>
          say Warning "Qt not found via qmake. CMake may still find it." ;;
          ret true
      end
  end.

(** [DependencyInstaller.check_opencv] *)
Definition check_opencv : M bool :=
  pkg_config <- check_command h "pkg-config" ;;
  r <- (if pkg_config then
          r <- probe_version "pkg-config" ["--modversion"; "opencv4"] "OpenCV 4: " ;;
          match r with
          | Some b => ret (Some b)
          | None => probe_version "pkg-config" ["--modversion"; "opencv"] "OpenCV: "
          end
        else ret None) ;;
  match r with
  | Some b => ret b
  | None =>
      say Warning "OpenCV not found via pkg-config. CMake may still find it." ;;
      ret true
  end.

(** [DependencyInstaller.setup_conan_profile] *)
Definition setup_conan_profile : M bool :=
  say Info "Setting up Conan profile..." ;;
  r <- run_command ["conan"; "profile"; "detect"; "--force"] None false false ;;
  let '(returncode, _) := r in
  (if negb (returncode =? 0) then
     say Warning "Failed to detect Conan profile, using default"
   else ret tt) ;;
  say Success "Conan profile configured" ;;
  ret true.

(** The [managers] dict of [_detect_package_manager], in insertion order. *)
Definition managers : list (string * string) := [
  ("apt", "apt-get"); ("dnf", "dnf"); ("yum", "yum"); ("pacman", "pacman");
  ("zypper", "zypper"); ("brew", "brew"); ("choco", "choco"); ("scoop", "scoop")
].

Fixpoint first_manager (items : list (string * string)) : M (option string) :=
  match items with
  | [] => ret None
  | (name, cmd) :: rest =>
      found <- check_command h cmd ;;
      if found then ret (Some name) else first_manager rest
  end.

(** [DependencyInstaller._detect_package_manager] *)
Definition _detect_package_manager : M (option string) := first_manager managers.

Fixpoint print_all (messages : list string) : M unit :=
  match messages with
  | [] => ret tt
  | m :: rest => say Success m ;; print_all rest
  end.

(** [DependencyInstaller.check_compiler] *)
Definition check_compiler : M bool :=
  let compilers := [] in
  gxx <- check_command h "g++" ;;
  compilers <-
    (if gxx then
       r <- run_command ["g++"; "--version"] None false false ;;
       let '(returncode, stdout) := r in
       if returncode =? 0 then
         let words := Text.split stdout in
         ret (compilers ++ ["g++: " +:+ (if (2 <? length words)%nat
                                         then default "" (words !! 2%nat)
                                         else "found")])
       else ret compilers
     else ret compilers) ;;
  clangxx <- check_command h "clang++" ;;
  compilers <-
    (if clangxx then
       r <- run_command ["clang++"; "--version"] None false false ;;
       let '(returncode, stdout) := r in
       if returncode =? 0 then
         ret (compilers ++ ["clang++: " +:+ fst (Text.partition (Text.chr 10) stdout)])
       else ret compilers
     else ret compilers) ;;
  clang_cl <- check_command h "clang-cl" ;;
  let compilers := if clang_cl then compilers ++ ["Clang-CL (clang-cl)"] else compilers in
  cl <- check_command h "cl" ;;
  cl_exe <- (if cl then ret true else check_command h "cl.exe") ;;
  let compilers := if cl_exe then compilers ++ ["MSVC (cl.exe)"] else compilers in
  match compilers with
  | [] =>
      say Error "No C++ compiler found" ;;
      say Info "Please install one of the following:" ;;
      (if String.eqb (system h) "Linux" then
         say Info "  - GCC: sudo apt install g++ (Debian/Ubuntu)" ;;
         say Info "  - GCC: sudo dnf install gcc-c++ (Fedora)" ;;
         say Info "  - GCC: sudo pacman -S gcc (Arch)" ;;
         say Info "  - Clang: sudo apt install clang (Debian/Ubuntu)"
       else if String.eqb (system h) "Darwin" then
         say Info "  - Clang: xcode-select --install" ;;
         say Info "  - GCC: brew install gcc"
       else if String.eqb (system h) "Windows" then
         say Info "  - MSVC: Install Visual Studio 2022" ;;
         say Info "  - Clang: choco install llvm"
       else ret tt) ;;
      ret false
  | _ => print_all compilers ;; ret true
  end.

End WithHost.
End InstallDeps.

(** * Reasoning about runs

    [obeys I P Q m]: from every machine, the run of [m] moves the machine
    along [I], logs only events that satisfy [P], and, when it returns
    rather than raises, returns a value that satisfies [Q]. *)

Definition with_files (fs : Path -> bool) (s : Machine) : Machine :=
  {| environ := environ s; stdin := stdin s; files := fs |}.
Definition with_stdin (pending : list key) (s : Machine) : Machine :=
  {| environ := environ s; stdin := pending; files := files s |}.
Definition with_PATH (v : string) (s : Machine) : Machine :=
  {| environ := <["PATH" := v]> (environ s); stdin := stdin s; files := files s |}.

Class AllowsFiles (I : relation Machine) :=
  allows_files : forall s fs, I s (with_files fs s).
Class AllowsStdin (I : relation Machine) :=
  allows_stdin : forall s pending, I s (with_stdin pending s).
Class AllowsPATH (I : relation Machine) :=
  allows_PATH : forall s v, I s (with_PATH v s).

Definition obeys {A} (I : relation Machine) (P : event -> Prop) (Q : A -> Prop)
    (m : M A) : Prop :=
  forall s,
    I s (st (m s)) /\ Forall P (log (m s)) /\
    match res (m s) with Ok a => Q a | Raise _ => True end.

Definition anything {A} : A -> Prop := fun _ => True.


(** How a run may move the machine. *)
Definition any_move : relation Machine := fun _ _ => True.
Definition same_environ : relation Machine := fun s s' => environ s' = environ s.
Definition same_stdin : relation Machine := fun s s' => stdin s' = stdin s.
Definition same_files : relation Machine := fun s s' => files s' = files s.
Definition same_but_PATH : relation Machine :=
  fun s s' => forall name, name <> "PATH" -> environ s' !! name = environ s !! name.
Definition keeps_PATH : relation Machine :=
  fun s s' => is_Some (environ s !! "PATH") -> is_Some (environ s' !! "PATH").

(** ** Fields of the configuration and their prompts *)

Inductive field := BuildTypeField | CompilerField | BuildSystemField | TestsField | ConanField.

Definition given {A} (o : option A) : bool :=
  match o with Some _ => true | None => false end.

(** The command line carries an explicit value for the field. *)
Definition overridden (args : Configure.Args) (f : field) : bool :=
  match f with
  | BuildTypeField => given (Configure.arg_type args)
  | CompilerField => given (Configure.arg_compiler args)
  | BuildSystemField => given (Configure.arg_build_system args)
  | TestsField => given (Configure.arg_build_tests args)
  | ConanField => given (Configure.arg_use_conan args)
  end.

(** The text that [input] shows when the field is asked for. *)
Definition field_prompt (f : field) : string :=
  match f with
  | BuildTypeField => Configure.build_type_prompt
  | CompilerField => Configure.compiler_prompt
  | BuildSystemField => Configure.build_system_prompt
  | TestsField => Configure.yes_no_prompt "Build tests?" false
  | ConanField => Configure.yes_no_prompt "Use Conan for dependencies?" false
  end.

(** ** Generators and the compilers they go with

    The guards of [select_build_system_interactive] (line 550) and of the
    non-interactive choice (line 954) admit the Visual Studio generator
    for [msvc] and [cl] only; nothing restricts the other generators. *)
Definition generator_accepts (generator : string) (compiler : option string) : bool :=
  if String.eqb generator "Visual Studio 17 2022"
  then Configure.among_opt compiler ["msvc"; "cl"]
  else true.

Definition entry_accepts (compiler : option string) (entry : string * string) : Prop :=
  generator_accepts (fst entry) compiler = true.

Definition choice_accepts (compiler : option string) (choice : option string) : Prop :=
  match choice with
  | Some generator => generator_accepts generator compiler = true
  | None => True
  end.

(** ** Machines to run the scripts on *)

Definition succeeds : completed := {| returncode := 0; stdout := "" |}.

(** A Linux box with both compilers, Ninja, Make and Conan; every child
    process exits with 0 and leaves the files alone. *)
Definition linux_box : Host := {|
  system := "Linux";
  script_root := [""; "home"; "dev"; "client"];
  which := fun _ cmd => Configure.among cmd ["g++"; "clang++"; "ninja"; "make"; "conan"; "cmake"];
  spawn := fun _ fs => Some (succeeds, fs);
  parse_path := Configure.path_of;
  signal_repr := fun n => "unknown signal " +:+ pretty n;
|}.

Definition desk (pending : list key) : Machine := {|
  environ := {[ "PATH" := "/usr/bin" ]};
  stdin := pending;
  files := fun _ => false;
|}.

(** No option given: everything is asked for. *)
Definition no_args : Configure.Args := {|
  Configure.arg_type := None; Configure.arg_compiler := None;
  Configure.arg_build_system := None; Configure.arg_platform := None;
  Configure.arg_build_tests := None; Configure.arg_use_conan := None;
  Configure.arg_clean := false; Configure.arg_no_interactive := false;
  Configure.arg_cmake_args := "";
|}.

(** [--type RelWithDebInfo --compiler gcc --build-system Ninja --no-tests --use-conan] *)
Definition all_args : Configure.Args := {|
  Configure.arg_type := Some Configure.RelWithDebInfo;
  Configure.arg_compiler := Some Configure.gcc;
  Configure.arg_build_system := Some Configure.Ninja;
  Configure.arg_platform := None;
  Configure.arg_build_tests := Some false;
  Configure.arg_use_conan := Some true;
  Configure.arg_clean := false; Configure.arg_no_interactive := false;
  Configure.arg_cmake_args := "";
|}.

(** ** Commands in the log *)

(** The event is a spawn of the CMake configure command. *)
Definition is_configure_command (e : event) : bool :=
  match e with
  | Run (Argv (prog :: _)) _ _ => String.eqb prog "cmake"
  | _ => false
  end.

Definition not_configure (e : event) : Prop := is_configure_command e = false.

(** Every detection path comes back empty: no lookup on the executable
    search path finds a compiler binary, whatever PATH holds, and the
    locator, whenever it is run, fails or prints no installation. *)
Definition no_compiler_available (h : Host) : Prop :=
  (forall path, which h path "g++" = false) /\
  (forall path, which h path "clang++" = false) /\
  (forall path, which h path "clang-cl" = false) /\
  (forall vswhere_path cwd env fs c fs',
      spawn h {| rq_cmd := Configure.vswhere_query h vswhere_path;
                 rq_cwd := cwd; rq_env := env |} fs = Some (c, fs') ->
      returncode c <> 0 \/ Text.strip (stdout c) = "").

(** A Linux box on which only CMake is installed. *)
Definition bare_box : Host := {|
  system := "Linux";
  script_root := [""; "home"; "dev"; "client"];
  which := fun _ cmd => String.eqb cmd "cmake";
  spawn := fun _ fs => Some (succeeds, fs);
  parse_path := Configure.path_of;
  signal_repr := fun n => "unknown signal " +:+ pretty n;
|}.

(** [--type Release --compiler gcc --build-system Ninja --no-tests --no-conan --no-interactive] *)
Definition gcc_args : Configure.Args := {|
  Configure.arg_type := Some Configure.Release;
  Configure.arg_compiler := Some Configure.gcc;
  Configure.arg_build_system := Some Configure.Ninja;
  Configure.arg_platform := None;
  Configure.arg_build_tests := Some false;
  Configure.arg_use_conan := Some false;
  Configure.arg_clean := false; Configure.arg_no_interactive := true;
  Configure.arg_cmake_args := "";
|}.

(** [--no-interactive] alone *)
Definition batch_args : Configure.Args := {|
  Configure.arg_type := None; Configure.arg_compiler := None;
  Configure.arg_build_system := None; Configure.arg_platform := None;
  Configure.arg_build_tests := None; Configure.arg_use_conan := None;
  Configure.arg_clean := false; Configure.arg_no_interactive := true;
  Configure.arg_cmake_args := "";
|}.

(** ** Cancelled input *)

(** The next [input] will be cancelled: an interrupt is pending, or the
    input has ended. *)
Definition next_is_cancel (s : Machine) : bool :=
  match stdin s with
  | [] | CtrlC :: _ => true
  | Typed _ :: _ => false
  end.

Definition not_ask (e : event) : Prop :=
  match e with Ask _ => False | _ => True end.

(** [--compiler gcc --build-system Ninja --no-tests --no-conan]: only the
    build type is left to ask for. *)
Definition ask_type_args : Configure.Args := {|
  Configure.arg_type := None;
  Configure.arg_compiler := Some Configure.gcc;
  Configure.arg_build_system := Some Configure.Ninja;
  Configure.arg_platform := None;
  Configure.arg_build_tests := Some false;
  Configure.arg_use_conan := Some false;
  Configure.arg_clean := false; Configure.arg_no_interactive := false;
  Configure.arg_cmake_args := "";
|}.

(** ** Compiler priority *)

(** The order of the menu of [select_compiler_interactive]. *)
Definition compiler_priority (h : Host) : list string :=
  if is_windows h then ["msvc"; "clang-cl"; "gcc"] else ["clang"; "gcc"].

(** The Clang binary that is probed, and the compiler id it stands for. *)
Definition clang_binary (h : Host) : string :=
  if is_windows h then "clang-cl" else "clang++".
Definition clang_id (h : Host) : string :=
  if is_windows h then "clang-cl" else "clang".

(** [shutil.which] on the current PATH. *)
Definition on_PATH (h : Host) (s : Machine) (cmd : string) : bool :=
  which h (environ s !! "PATH") cmd.

(** ** Reading the dump of [set] *)

(** The value that the dump gives to [name]: the one of the last
    [NAME=VALUE] line whose name it is. *)
Fixpoint dump_value (lines : list string) (name : string) : option string :=
  match lines with
  | [] => None
  | line :: rest =>
      match dump_value rest name with
      | Some v => Some v
      | None =>
          if Text.contains_char "=" line
          then let '(key, value) := Text.partition "=" line in
               if String.eqb key name then Some value else None
          else None
      end
  end.

Definition is_spawn (e : event) : bool :=
  match e with Run _ _ _ => true | _ => false end.

Definition not_spawn (e : event) : Prop := is_spawn e = false.

Definition is_shell_spawn (e : event) : bool :=
  match e with Run (Shell _) _ _ => true | _ => false end.

Definition not_shell (e : event) : Prop := is_shell_spawn e = false.

(** A Windows box: Visual Studio under [C:\VS], found by vswhere; LLVM
    under its usual root, but not on PATH. *)
Definition nl : string := String (Text.chr 10) "".

Definition vs_dump : string :=
  "INCLUDE=C:\VS\include" +:+ nl +:+ "LIB=C:\VS\lib" +:+ nl.

Definition llvm_bin : string := "C:\Program Files\LLVM\bin".

Definition windows_box : Host := {|
  system := "Windows";
  script_root := ["C:"; "dev"; "client"];
  which := fun path cmd =>
    match path with
    | Some p => String.prefix llvm_bin p && String.eqb cmd "clang-cl"
    | None => false
    end;
  spawn := fun rq fs =>
    match rq_cmd rq with
    | Argv (_ :: "-latest" :: _) =>
        Some ({| returncode := 0; stdout := "C:\VS" +:+ nl |}, fs)
    | Shell _ => Some ({| returncode := 0; stdout := vs_dump |}, fs)
    | _ => Some (succeeds, fs)
    end;
  parse_path := Configure.path_of;
  signal_repr := fun n => "unknown signal " +:+ pretty n;
|}.

Definition same_path (p q : Path) : bool := is_prefix p q && is_prefix q p.

Definition office_files (p : Path) : bool :=
  existsb (same_path p) [
    ["C:"; "Program Files (x86)"; "Microsoft Visual Studio"; "Installer"; "vswhere.exe"];
    ["C:"; "VS"; "VC"; "Auxiliary"; "Build"; "vcvarsall.bat"];
    ["C:"; "Program Files"; "LLVM"; "bin"; "clang-cl.exe"] ].

(** [INCLUDE] is set, but [cl] is not on PATH. *)
Definition office : Machine := {|
  environ := <["INCLUDE" := "C:\old"]> (<["FOO" := "bar"]> {[ "PATH" := "C:\Windows" ]});
  stdin := [];
  files := office_files;
|}.

(** ** Environments of child processes *)

(** The child was spawned without [env=]: it inherits [os.environ]. *)
Definition is_inheriting (e : event) : bool :=
  match e with Run _ _ None => true | _ => false end.

Definition is_conan_command (e : event) : bool :=
  match e with
  | Run (Argv (prog :: _)) _ _ => String.eqb prog "conan"
  | _ => false
  end.

(** A configure command always comes with an environment of its own. *)
Definition configure_has_env (e : event) : Prop :=
  is_configure_command e = true -> is_inheriting e = false.

(** A configuration for MSVC with Ninja on the Windows box. *)
Definition msvc_config : Configure.BuildConfig := {|
  Configure.project_root := ["C:"; "dev"; "client"];
  Configure.build_type := "Release";
  Configure.compiler := Some "msvc";
  Configure.build_system := Some "Ninja";
  Configure.platform := "windows";
  Configure.build_tests := false;
  Configure.use_conan := false;
  Configure.clean := false;
  Configure.interactive := false;
  Configure.cmake_args := [];
|}.

(** What [vcvarsall.bat] makes of the environment of [office]. *)
Definition office_snapshot : gmap string string :=
  Configure.store_lines (Text.splitlines vs_dump) (environ office).

(** ** The configure command, part by part *)

Definition generator_flag (config : Configure.BuildConfig) : list string :=
  match Configure.build_system config with
  | Some generator => if String.eqb generator "" then [] else ["-G"; generator]
  | None => []
  end.

Definition compiler_overrides (compiler : option string) : list string :=
  match compiler with
  | Some c =>
      if Configure.among c ["gcc"; "g++"]
      then ["-DCMAKE_C_COMPILER=gcc"; "-DCMAKE_CXX_COMPILER=g++"]
      else if Configure.among c ["clang"; "clang++"]
      then ["-DCMAKE_C_COMPILER=clang"; "-DCMAKE_CXX_COMPILER=clang++"]
      else if String.eqb c "clang-cl"
      then ["-DCMAKE_C_COMPILER=clang-cl"; "-DCMAKE_CXX_COMPILER=clang-cl"]
      else []
  | None => []
  end.

Definition build_type_define (config : Configure.BuildConfig) : string :=
  "-DCMAKE_BUILD_TYPE=" +:+ Configure.build_type config.

Definition tests_define (config : Configure.BuildConfig) : string :=
  "-DCLIENT_BUILD_TESTS=" +:+ (if Configure.build_tests config then "ON" else "OFF").

(** Where the toolchain file of Conan is looked for. *)
Definition toolchain_file (config : Configure.BuildConfig) : Path :=
  Configure.get_build_dir config // "conan_toolchain.cmake".

Definition toolchain_define (h : Host) (config : Configure.BuildConfig) : string :=
  "-DCMAKE_TOOLCHAIN_FILE=" +:+ path_str h (toolchain_file config).

(** The defines of the dependency manager: the toolchain file and the
    switch of the project, by [use_conan] and by whether the file is on
    disk. *)
Definition conan_part (h : Host) (config : Configure.BuildConfig) (on_disk : bool)
  : list string :=
  if Configure.use_conan config
  then if on_disk then [toolchain_define h config; "-DCLIENT_USE_CONAN=ON"] else []
  else ["-DCLIENT_USE_CONAN=OFF"].

Definition directory_flags (h : Host) (config : Configure.BuildConfig) : list string :=
  ["-S"; path_str h (Configure.project_root config);
   "-B"; path_str h (Configure.get_build_dir config)].

Definition configure_command (h : Host) (config : Configure.BuildConfig) (on_disk : bool)
  : list string :=
  ["cmake"] ++ generator_flag config ++ compiler_overrides (Configure.compiler config)
  ++ [build_type_define config] ++ [tests_define config]
  ++ conan_part h config on_disk
  ++ Configure.cmake_args config
  ++ directory_flags h config.

Definition toolchain_warning : event :=
  Say Warning "Conan toolchain not found. Run install_deps.py first.".

(** Neither a configure command nor the toolchain warning. *)
Definition plain (e : event) : Prop :=
  is_configure_command e = false /\ e <> toolchain_warning.

(** The event spawns [cmd] as the configure command of [config]. *)
Definition spawns_configure (config : Configure.BuildConfig) (cmd : list string)
    (e : event) : Prop :=
  exists env, e = Run (Argv cmd) (Some (Configure.project_root config)) (Some env).

(** A configuration without Conan on the Linux box. *)
Definition plain_config : Configure.BuildConfig := {|
  Configure.project_root := [""; "home"; "dev"; "client"];
  Configure.build_type := "RelWithDebInfo";
  Configure.compiler := Some "gcc";
  Configure.build_system := Some "Ninja";
  Configure.platform := "linux";
  Configure.build_tests := false;
  Configure.use_conan := false;
  Configure.clean := false;
  Configure.interactive := false;
  Configure.cmake_args := ["-DEXTRA=1"];
|}.

(** The same with Conan. *)
Definition conan_config : Configure.BuildConfig :=
  Configure.set_use_conan true plain_config.

Definition is_toolchain_warning (e : event) : bool :=
  match e with
  | Say Warning msg => String.eqb msg "Conan toolchain not found. Run install_deps.py first."
  | _ => false
  end.

(** ** What a command asks for *)

(** The argument vector of a spawn. *)
Definition argv (e : event) : list string :=
  match e with
  | Run (Argv cmd) _ _ => cmd
  | _ => []
  end.

(** A Conan command whose last argument asks for Release artifacts, and
    a configure command that carries the RelWithDebInfo define. *)
Definition release_deps_debug_build (e : event) : Prop :=
  (is_conan_command e = true -> last (argv e) = Some "-s:h=build_type=Release") /\
  (is_configure_command e = true -> In "-DCMAKE_BUILD_TYPE=RelWithDebInfo" (argv e)).

(** ** One build directory *)

(** A Conan command that installs into the build directory of [config],
    and a configure command that ends in [-S <root> -B <that directory>]. *)
Definition uses_build_dir (h : Host) (config : Configure.BuildConfig) (e : event) : Prop :=
  (is_conan_command e = true ->
   exists pre post,
     argv e = pre ++ ["--output-folder"; path_str h (Configure.get_build_dir config)] ++ post) /\
  (is_configure_command e = true ->
   exists pre,
     argv e = pre ++ ["-S"; path_str h (Configure.project_root config);
                      "-B"; path_str h (Configure.get_build_dir config)]).

(** What Conan does with its output folder (layout of conanfile.py:
    generators folder "."): an install that exits with 0 leaves
    [conan_toolchain.cmake] in it. *)
Definition conan_writes_toolchain (h : Host) (config : Configure.BuildConfig) : Prop :=
  forall profile conan_build_type cwd env fs c fs',
    spawn h {| rq_cmd := Argv (Configure.conan_install_cmd h config profile conan_build_type);
               rq_cwd := cwd; rq_env := env |} fs = Some (c, fs') ->
    returncode c = 0 ->
    fs' (toolchain_file config) = true.

(** The Linux box with a Conan that writes its toolchain file. *)
Definition conan_box : Host := {|
  system := "Linux";
  script_root := [""; "home"; "dev"; "client"];
  which := fun _ cmd => Configure.among cmd ["g++"; "clang++"; "ninja"; "make"; "conan"; "cmake"];
  spawn := fun rq fs =>
    match rq_cmd rq with
    | Argv ("conan" :: _) =>
        Some (succeeds, fun p => same_path p (toolchain_file conan_config) || fs p)
    | _ => Some (succeeds, fs)
    end;
  parse_path := Configure.path_of;
  signal_repr := fun n => "unknown signal " +:+ pretty n;
|}.

(** ** Where Visual Studio is looked for *)

(** [os.environ.get(name, default)] on the machine. *)
Definition environ_or (s : Machine) (name default : string) : string :=
  match environ s !! name with Some v => v | None => default end.

(** The locator that [setup_msvc_environment] asks: the one under
    [ProgramFiles(x86)], or the one under [ProgramFiles] when the first
    is not there and the second is. *)
Definition chosen_vswhere (h : Host) (s : Machine) : Path :=
  let primary :=
    parse_path h (environ_or s "ProgramFiles(x86)" "C:\Program Files (x86)")
    // "Microsoft Visual Studio" // "Installer" // "vswhere.exe" in
  let fallback :=
    parse_path h (environ_or s "ProgramFiles" "C:\Program Files")
    // "Microsoft Visual Studio" // "Installer" // "vswhere.exe" in
  if negb (files s primary) && files s fallback then fallback else primary.

(** The first of the common installation directories that exists, as a
    text; the empty text when none does. *)
Definition first_common_path (h : Host) (fs : Path -> bool) : string :=
  match List.find fs Configure.vs_paths with
  | Some p => path_str h p
  | None => ""
  end.

(** The setup script of an installation. *)
Definition vcvars_of (h : Host) (vs_path : string) : Path :=
  parse_path h vs_path // "VC" // "Auxiliary" // "Build" // "vcvarsall.bat".

(** The marker test of [setup_msvc_environment]. *)
Definition already_configured (h : Host) (s : Machine) : bool :=
  on_PATH h s "cl" && bool_decide (is_Some (environ s !! "INCLUDE")).

(** ** The compiler menu *)

(** The entries of the compiler menu, by what was detected: MSVC, then
    Clang (clang-cl on Windows), then GCC. *)
Definition compiler_entries (h : Host) (msvc clang gcc : bool) : list (string * string) :=
  (if msvc then [("msvc", "MSVC")] else [])
  ++ (if clang
      then [(clang_id h, if is_windows h then "Clang-CL (Windows)" else "Clang")]
      else [])
  ++ (if gcc then [("gcc", "GCC")] else []).

(** The lines a menu is printed as, numbered from [i]. *)
Fixpoint menu_lines (i : nat) (entries : list (string * string)) : list event :=
  match entries with
  | [] => []
  | (_, name) :: rest =>
      Say Info ("  " +:+ pretty i +:+ ". " +:+ name) :: menu_lines (S i) rest
  end.

(** The locator that [detect_msvc] asks. *)
Definition primary_vswhere (h : Host) (s : Machine) : Path :=
  parse_path h (environ_or s "ProgramFiles(x86)" "C:\Program Files (x86)")
  // "Microsoft Visual Studio" // "Installer" // "vswhere.exe".

(** The locator exited with 0 and printed something. *)
Definition reports_installation (c : completed) : bool :=
  (returncode c =? 0) && negb (String.eqb (Text.strip (stdout c)) "").

(** ** The installer and the build type *)

(** A Conan command whose last argument asks for RelWithDebInfo
    artifacts; never a configure command. *)
Definition keeps_relwithdebinfo (e : event) : Prop :=
  (is_conan_command e = true -> last (argv e) = Some "-s:h=build_type=RelWithDebInfo") /\
  is_configure_command e = false.

(** ** Runs that return *)

(** From every machine, the run of [m] returns (it does not raise) and
    the value it returns satisfies [Q]. *)
Definition returns {A} (Q : A -> Prop) (m : M A) : Prop :=
  forall s, exists a, res (m s) = Ok a /\ Q a.


(** ** The search for clang-cl

    What a search loop of [_setup_clang_cl_path] has done when it is
    over, by whether PATH was set when it began.  With PATH set it
    returns, the old value is the tail of the new one, and [True] means
    that [clang-cl] is now found on PATH.  With PATH unset it finds
    nothing or raises [KeyError], and PATH stays unset. *)
Definition searched (h : Host) (s : Machine) (o : Out bool) : Prop :=
  match environ s !! "PATH" with
  | Some old =>
      exists b pre,
        res o = Ok b /\ environ (st o) !! "PATH" = Some (pre +:+ old) /\
        (b = true -> on_PATH h (st o) "clang-cl" = true)
  | None =>
      (res o = Ok false \/ res o = Raise (KeyError "PATH")) /\
      environ (st o) !! "PATH" = None
  end.


(** ** When detection runs to its end *)

(** The locator, wherever it is and whatever it is asked from, can be
    started. *)
Definition locator_starts (h : Host) : Prop :=
  forall vswhere_path cwd env fs,
    spawn h {| rq_cmd := Configure.vswhere_query h vswhere_path;
               rq_cwd := cwd; rq_env := env |} fs <> None.

(** A Windows box with nothing on PATH, on which no process starts. *)
Definition stuck_box : Host := {|
  system := "Windows";
  script_root := ["C:"; "dev"; "client"];
  which := fun _ _ => false;
  spawn := fun _ _ => None;
  parse_path := Configure.path_of;
  signal_repr := fun n => "unknown signal " +:+ pretty n;
|}.

(** The three build types that [--type] and the menu know. *)
Definition build_types : list string := ["Debug"; "Release"; "RelWithDebInfo"].

(** An error line. *)
Definition is_error_line (e : event) : bool :=
  match e with Say Error _ => true | _ => false end.

(** ** From the installer to the configure script *)

(** What Conan does with the output folder of the installer's command:
    an install that exits with 0 leaves [conan_toolchain.cmake] in it. *)
Definition installer_writes_toolchain (h : Host) (build_type : string) : Prop :=
  forall conan_build_type cwd env fs c fs',
    spawn h {| rq_cmd := Argv (InstallDeps.conan_install_cmd h build_type conan_build_type);
               rq_cwd := cwd; rq_env := env |} fs = Some (c, fs') ->
    returncode c = 0 ->
    fs' (InstallDeps.get_conan_dir h build_type // "conan_toolchain.cmake") = true.

(** [--platform macos] alone *)
Definition macos_args : Configure.Args := {|
  Configure.arg_type := None; Configure.arg_compiler := None;
  Configure.arg_build_system := None; Configure.arg_platform := Some Configure.macos;
  Configure.arg_build_tests := None; Configure.arg_use_conan := None;
  Configure.arg_clean := false; Configure.arg_no_interactive := false;
  Configure.arg_cmake_args := "";
|}.


(** ** Words *)

Fixpoint has_space (s : string) : bool :=
  match s with
  | EmptyString => false
  | String c r => Text.is_space c || has_space r
  end.

(** A word: not empty, and free of white space. *)
Definition is_word (w : string) : Prop := w <> "" /\ has_space w = false.

(** ** The compiler ids of a platform *)

(** No compiler, or one of the ids that the platform knows. *)
Definition in_priority (h : Host) (c : option string) : Prop :=
  match c with Some id => In id (compiler_priority h) | None => True end.

(** The files of [office] on a machine whose PATH is not set. *)
Definition office_without_PATH : Machine := {|
  environ := {[ "FOO" := "bar" ]};
  stdin := [];
  files := office_files;
|}.

(** ** Exit codes and the profile of Conan *)

Definition zero_or_one (code : Z) : Prop := code = 0 \/ code = 1.

(** The only process is a Conan install with the default profile. *)
Definition default_profile_only (e : event) : Prop :=
  is_spawn e = true ->
  is_conan_command e = true /\ In "--profile=default" (argv e).

(** ** Entries of the CMake cache *)

(** A name that an entry of [CMakeCache.txt] can carry: not empty, no
    white space, [#] or [//] in front, and free of [:] and [=]. *)
Definition is_cache_name (name : string) : bool :=
  match name with
  | EmptyString => false
  | String c _ =>
      negb (Text.is_space c) && negb (String.prefix "#" name)
      && negb (String.prefix "//" name)
      && negb (Text.contains_char "=" name) && negb (Text.contains_char ":" name)
  end.

(** The text [NAME:TYPE=VALUE]. *)
Definition cache_line (name type value : string) : string :=
  name +:+ ":" +:+ type +:+ "=" +:+ value.

(** A key that [read_cmake_cache] can produce. *)
Definition is_cache_key (key : string) : Prop :=
  Text.contains_char ":" key = false /\ Text.contains_char "=" key = false.

(** A build directory with a cache of three lines. *)
Definition cache_text : list string := [
  "# This is the CMakeCache file." +:+ nl;
  "CMAKE_BUILD_TYPE:STRING=Debug" +:+ nl;
  "  CMAKE_BUILD_TYPE:STRING=Release  " +:+ nl
].

Definition cache_reader (p : Path) : list string + string := inl cache_text.

Definition with_cache : Machine := {|
  environ := {[ "PATH" := "/usr/bin" ]};
  stdin := [];
  files := fun _ => true;
|}.

(** ** The compilers that the installer looks for *)

(** A Linux box with a [g++] on PATH that cannot be run. *)
Definition broken_gxx_box : Host := {|
  system := "Linux";
  script_root := [""; "home"; "dev"; "client"];
  which := fun _ cmd => String.eqb cmd "g++";
  spawn := fun _ fs => Some ({| returncode := 1; stdout := "" |}, fs);
  parse_path := Configure.path_of;
  signal_repr := fun n => "unknown signal " +:+ pretty n;
|}.

(** A Windows box with [g++] and [cl.exe] on PATH, on which every
    process exits with 1. *)
Definition mixed_box : Host := {|
  system := "Windows";
  script_root := ["C:"; "dev"; "client"];
  which := fun _ cmd => Configure.among cmd ["g++"; "cl.exe"];
  spawn := fun _ fs => Some ({| returncode := 1; stdout := "" |}, fs);
  parse_path := Configure.path_of;
  signal_repr := fun n => "unknown signal " +:+ pretty n;
|}.

(** * Checks of the text helpers *)

Example strip_ex : Text.strip "  2 " = "2".
Proof. reflexivity. Qed.

Example int_ex : Text.int "12" = Some 12 /\ Text.int "x" = None /\ Text.int "-3" = Some (-3).
Proof. repeat split; reflexivity. Qed.

Example split_ex : Text.split " -DA=1   -DB=2 " = ["-DA=1"; "-DB=2"].
Proof. reflexivity. Qed.

Example splitlines_ex :
  Text.splitlines ("A=1" +:+ String (Text.chr 13) (String (Text.chr 10) "B=2") +:+ String (Text.chr 10) "")
  = ["A=1"; "B=2"].
Proof. reflexivity. Qed.

Example lower_ex : Text.lower "RelWithDebInfo" = "relwithdebinfo".
Proof. reflexivity. Qed.

Section Obeys.
Context (I : relation Machine) `{!PreOrder I} (P : event -> Prop).

Lemma obeys_ret {A} (Q : A -> Prop) (a : A) : Q a -> obeys I P Q (ret a).
Proof. intros HQ s. simpl. split; [reflexivity | split; [constructor | exact HQ]]. Qed.

Lemma obeys_raise {A} (Q : A -> Prop) (e : exn) : obeys I P Q (raise e).
Proof. intros s. simpl. split; [reflexivity | split; [constructor | exact Logic.I]]. Qed.

Lemma obeys_bind {A B} (Q1 : A -> Prop) (Q2 : B -> Prop) (m : M A) (f : A -> M B) :
  obeys I P Q1 m ->
  (forall a, Q1 a -> obeys I P Q2 (f a)) ->
  obeys I P Q2 (bind m f).
Proof.
  intros Hm Hf s. unfold bind.
  destruct (Hm s) as (Hi & Hl & Hr).
  destruct (res (m s)) as [a | e]; simpl.
  - destruct (Hf a Hr (st (m s))) as (Hi' & Hl' & Hr').
    split; [etransitivity; eassumption | split; [apply Forall_app; tauto | exact Hr']].
  - tauto.
Qed.

Lemma obeys_then {A B} (Q : B -> Prop) (m : M A) (f : A -> M B) :
  obeys I P anything m ->
  (forall a, obeys I P Q (f a)) ->
  obeys I P Q (bind m f).
Proof. intros Hm Hf. apply obeys_bind with (Q1 := anything); auto. Qed.

Lemma obeys_weaken {A} (Q Q' : A -> Prop) (m : M A) :
  obeys I P Q m -> (forall a, Q a -> Q' a) -> obeys I P Q' m.
Proof.
  intros Hm HQ s. destruct (Hm s) as (Hi & Hl & Hr).
  split; [exact Hi | split; [exact Hl |]].
  destruct (res (m s)); auto.
Qed.

Lemma obeys_try_except {A} (Q : A -> Prop) (m : M A) caught (handler : exn -> M A) :
  obeys I P Q m ->
  (forall e, obeys I P Q (handler e)) ->
  obeys I P Q (try_except m caught handler).
Proof.
  intros Hm Hh s. unfold try_except.
  destruct (Hm s) as (Hi & Hl & Hr).
  destruct (res (m s)) as [a | e] eqn:E.
  - rewrite E. tauto.
  - destruct (caught e).
    + destruct (Hh e (st (m s))) as (Hi' & Hl' & Hr'). simpl.
      split; [etransitivity; eassumption | split; [apply Forall_app; tauto | exact Hr']].
    + rewrite E. tauto.
Qed.

Lemma obeys_emit (Q : unit -> Prop) (e : event) : P e -> Q tt -> obeys I P Q (emit e).
Proof. intros He HQ s. simpl. split; [reflexivity | split; [repeat constructor; exact He | exact HQ]]. Qed.

Lemma obeys_say (Q : unit -> Prop) lvl msg : P (Say lvl msg) -> Q tt -> obeys I P Q (say lvl msg).
Proof. apply obeys_emit. Qed.

Lemma obeys_get_environ : obeys I P anything get_environ.
Proof. intros s. simpl. split; [reflexivity | split; [constructor | exact Logic.I]]. Qed.

Lemma obeys_environ_item name : obeys I P anything (environ_item name).
Proof.
  apply obeys_then; [apply obeys_get_environ |].
  intros env. destruct (env !! name); [apply obeys_ret | apply obeys_raise]; exact Logic.I.
Qed.

Lemma obeys_environ_get name default : obeys I P anything (environ_get name default).
Proof.
  apply obeys_then; [apply obeys_get_environ |].
  intros env. apply obeys_ret. exact Logic.I.
Qed.

Lemma obeys_exists p : obeys I P anything (exists_ p).
Proof. intros s. simpl. split; [reflexivity | split; [constructor | exact Logic.I]]. Qed.

Lemma obeys_set_PATH `{!AllowsPATH I} v : obeys I P anything (environ_set "PATH" v).
Proof. intros s. simpl. split; [apply (allows_PATH s v) | split; [constructor | exact Logic.I]]. Qed.

Lemma obeys_mkdir `{!AllowsFiles I} p : obeys I P anything (mkdir p).
Proof. intros s. simpl. split; [apply (allows_files s) | split; [constructor | exact Logic.I]]. Qed.

Lemma obeys_rmtree `{!AllowsFiles I} p : obeys I P anything (rmtree p).
Proof. intros s. simpl. split; [apply (allows_files s) | split; [constructor | exact Logic.I]]. Qed.

Lemma obeys_set_stdin `{!AllowsStdin I} pending : obeys I P anything (set_stdin pending).
Proof. intros s. simpl. split; [apply (allows_stdin s) | split; [constructor | exact Logic.I]]. Qed.

Lemma obeys_check_command h cmd : obeys I P anything (check_command h cmd).
Proof.
  apply obeys_then; [apply obeys_get_environ |].
  intros env. apply obeys_ret. exact Logic.I.
Qed.

Lemma obeys_subprocess_run `{!AllowsFiles I} h cmd cwd env check :
  P (Run cmd cwd env) -> obeys I P anything (subprocess_run h cmd cwd env check).
Proof.
  intros HP s. unfold subprocess_run.
  destruct (spawn h _ (files s)) as [[c fs] |]; simpl.
  - destruct (check && negb (returncode c =? 0)); simpl;
      (split; [apply (allows_files s) | split; [repeat constructor; exact HP | exact Logic.I]]).
  - split; [reflexivity | split; [repeat constructor; exact HP | exact Logic.I]].
Qed.

Lemma obeys_prompt_rounds `{!AllowsStdin I} {A} (Q : A -> Prop) prompt cancelled body pending :
  P (Ask prompt) -> P (Say Info "") -> Q cancelled ->
  (forall line, obeys I P (fun r => match r with Some a => Q a | None => True end) (body line)) ->
  obeys I P Q (prompt_rounds prompt cancelled body pending).
Proof.
  intros Hask Hsay Hc Hbody. induction pending as [| k rest IH]; simpl.
  - apply obeys_then; [apply obeys_emit; [exact Hask | exact Logic.I] |]. intros _.
    apply obeys_then; [apply obeys_say; [exact Hsay | exact Logic.I] |]. intros _.
    apply obeys_ret. exact Hc.
  - apply obeys_then; [apply obeys_emit; [exact Hask | exact Logic.I] |]. intros _.
    destruct k as [line |].
    + apply obeys_then; [apply obeys_set_stdin |]. intros _.
      eapply obeys_bind; [apply Hbody |].
      intros [a |] Ha; [apply obeys_ret; exact Ha | exact IH].
    + apply obeys_then; [apply obeys_set_stdin |]. intros _.
      apply obeys_then; [apply obeys_say; [exact Hsay | exact Logic.I] |]. intros _.
      apply obeys_ret. exact Hc.
Qed.

Lemma obeys_prompt_loop `{!AllowsStdin I} {A} (Q : A -> Prop) prompt cancelled body :
  P (Ask prompt) -> P (Say Info "") -> Q cancelled ->
  (forall line, obeys I P (fun r => match r with Some a => Q a | None => True end) (body line)) ->
  obeys I P Q (prompt_loop prompt cancelled body).
Proof.
  intros Hask Hsay Hc Hbody s. unfold prompt_loop.
  apply obeys_prompt_rounds; assumption.
Qed.

End Obeys.

#[export] Instance any_move_preorder : PreOrder any_move.
Proof. split; [intros s | intros a b c _ _]; exact Logic.I. Qed.
#[export] Instance any_move_files : AllowsFiles any_move.
Proof. intros s fs. exact Logic.I. Qed.
#[export] Instance any_move_stdin : AllowsStdin any_move.
Proof. intros s p. exact Logic.I. Qed.
#[export] Instance any_move_PATH : AllowsPATH any_move.
Proof. intros s v. exact Logic.I. Qed.

#[export] Instance same_environ_preorder : PreOrder same_environ.
Proof.
  split; [intros s; reflexivity |].
  intros a b c Hab Hbc. unfold same_environ in *. congruence.
Qed.
#[export] Instance same_environ_files : AllowsFiles same_environ.
Proof. intros s fs. reflexivity. Qed.
#[export] Instance same_environ_stdin : AllowsStdin same_environ.
Proof. intros s p. reflexivity. Qed.

#[export] Instance same_stdin_preorder : PreOrder same_stdin.
Proof.
  split; [intros s; reflexivity |].
  intros a b c Hab Hbc. unfold same_stdin in *. congruence.
Qed.
#[export] Instance same_stdin_files : AllowsFiles same_stdin.
Proof. intros s fs. reflexivity. Qed.
#[export] Instance same_stdin_PATH : AllowsPATH same_stdin.
Proof. intros s v. reflexivity. Qed.

#[export] Instance same_files_preorder : PreOrder same_files.
Proof.
  split; [intros s; reflexivity |].
  intros a b c Hab Hbc. unfold same_files in *. congruence.
Qed.
#[export] Instance same_files_stdin : AllowsStdin same_files.
Proof. intros s p. reflexivity. Qed.
#[export] Instance same_files_PATH : AllowsPATH same_files.
Proof. intros s v. reflexivity. Qed.

#[export] Instance same_but_PATH_preorder : PreOrder same_but_PATH.
Proof.
  split; [intros s name _; reflexivity |].
  intros a b c Hab Hbc name Hne. rewrite (Hbc name Hne). apply Hab, Hne.
Qed.
#[export] Instance same_but_PATH_files : AllowsFiles same_but_PATH.
Proof. intros s fs name _. reflexivity. Qed.
#[export] Instance same_but_PATH_stdin : AllowsStdin same_but_PATH.
Proof. intros s p name _. reflexivity. Qed.
#[export] Instance same_but_PATH_PATH : AllowsPATH same_but_PATH.
Proof. intros s v name Hne. simpl. apply lookup_insert_ne. congruence. Qed.

#[export] Instance keeps_PATH_preorder : PreOrder keeps_PATH.
Proof.
  split; [intros s H; exact H |].
  intros a b c Hab Hbc H. apply Hbc, Hab, H.
Qed.
#[export] Instance keeps_PATH_files : AllowsFiles keeps_PATH.
Proof. intros s fs H. exact H. Qed.
#[export] Instance keeps_PATH_stdin : AllowsStdin keeps_PATH.
Proof. intros s p H. exact H. Qed.
#[export] Instance keeps_PATH_PATH : AllowsPATH keeps_PATH.
Proof. intros s v _. simpl. rewrite lookup_insert_eq. eauto. Qed.

(** ** Walking through a script *)

Create HintDb obeys.

Ltac head_of t :=
  lazymatch t with
  | ?f _ => head_of f
  | _ => t
  end.

Ltac obey_leaf :=
  first [ exact Logic.I
        | assumption
        | reflexivity
        | discriminate
        | progress simpl; first [ exact Logic.I | assumption | reflexivity | discriminate | congruence ]
        | congruence
        | solve [ eauto ]
        | solve [ hnf; intros; simpl in *; congruence ]
        | solve [ split; [ reflexivity | discriminate ] ]
        | solve [ repeat split; intros; simpl in *; congruence ]
        | cbv; discriminate ].

Ltac obey_prim leaf lem :=
  first [ apply lem | eapply obeys_weaken; [ apply lem | intros; leaf ] ].

(** [obey_with leaf] walks through the script of the goal; [leaf] closes
    what is left at the events and at the returned values.  A hypothesis
    about the first part of a [bind] is used when there is one: what it
    says about the returned value is then known in the second part. *)
Ltac obey_with leaf :=
  lazymatch goal with
  | |- obeys ?I ?P ?Q (bind ?m ?f) =>
      first [ eapply (obeys_bind I P _ Q m f);
              [ eassumption | intros ? ?; cbv beta in *; try subst; obey_with leaf ]
            | apply (obeys_then I P Q m f); [ obey_with leaf | intros ?; obey_with leaf ] ]
  | |- obeys ?I ?P _ (ret _) => apply (obeys_ret I P); leaf
  | |- obeys ?I ?P _ (raise _) => apply (obeys_raise I P)
  | |- obeys ?I ?P _ (say _ _) => apply (obeys_say I P); leaf
  | |- obeys ?I ?P _ (emit _) => apply (obeys_emit I P); leaf
  | |- obeys ?I ?P _ (try_except _ _ _) =>
      apply (obeys_try_except I P); [ obey_with leaf | intros ?; obey_with leaf ]
  | |- obeys ?I ?P _ get_environ => obey_prim leaf (obeys_get_environ I P)
  | |- obeys ?I ?P _ (environ_item _) => obey_prim leaf (obeys_environ_item I P)
  | |- obeys ?I ?P _ (environ_get _ _) => obey_prim leaf (obeys_environ_get I P)
  | |- obeys ?I ?P _ (environ_set _ _) => obey_prim leaf (obeys_set_PATH I P)
  | |- obeys ?I ?P _ (exists_ _) => obey_prim leaf (obeys_exists I P)
  | |- obeys ?I ?P _ (mkdir _) => obey_prim leaf (obeys_mkdir I P)
  | |- obeys ?I ?P _ (rmtree _) => obey_prim leaf (obeys_rmtree I P)
  | |- obeys ?I ?P _ (set_stdin _) => obey_prim leaf (obeys_set_stdin I P)
  | |- obeys ?I ?P _ (check_command _ _) => obey_prim leaf (obeys_check_command I P)
  | |- obeys ?I ?P _ (subprocess_run _ _ _ _ _) =>
      first [ apply (obeys_subprocess_run I P); leaf
            | eapply obeys_weaken;
              [ apply (obeys_subprocess_run I P); leaf | intros; leaf ] ]
  | |- obeys ?I ?P _ (prompt_loop _ _ _) =>
      apply (obeys_prompt_loop I P); [ leaf | leaf | leaf | intros ?; obey_with leaf ]
  | |- obeys _ _ _ (if ?b then _ else _) =>
      destruct b eqn:?; try congruence; obey_with leaf
  | |- obeys _ _ _ (match ?x with _ => _ end) =>
      destruct x eqn:?; try congruence; obey_with leaf
  | |- obeys _ _ _ ?m =>
      first [ solve [ eauto with obeys ]
            | let f := head_of m in unfold f; obey_with leaf ]
  end.

Ltac obey := obey_with obey_leaf.

(** The loops of the scripts. *)

Lemma obeys_try_clang_dirs I `{!PreOrder I, !AllowsPATH I} (P : event -> Prop) h :
  (forall msg, P (Say Success msg)) ->
  forall dirs, obeys I P anything (Configure.try_clang_dirs h dirs).
Proof. intros HP dirs. induction dirs as [| d rest IH]; simpl; obey. Qed.

Lemma obeys_scan_vs_paths I `{!PreOrder I, !AllowsPATH I} (P : event -> Prop) h :
  (forall msg, P (Say Success msg)) ->
  forall paths, obeys I P anything (Configure.scan_vs_paths h paths).
Proof.
  intros HP paths. induction paths as [| p rest IH]; cbn [Configure.scan_vs_paths]; [obey |].
  apply (obeys_then I P); [obey | intros e].
  destruct e; [| exact IH].
  apply (obeys_then I P); [apply (obeys_try_clang_dirs I P h HP) | intros found].
  destruct found; [obey | exact IH].
Qed.

Lemma obeys_first_existing I `{!PreOrder I} (P : event -> Prop) h :
  forall paths, obeys I P anything (Configure.first_existing h paths).
Proof. intros paths. induction paths as [| p rest IH]; simpl; obey. Qed.

Lemma obeys_print_menu I `{!PreOrder I} (P : event -> Prop) :
  (forall msg, P (Say Info msg)) ->
  forall entries i, obeys I P anything (Configure.print_menu i entries).
Proof.
  intros HP entries. induction entries as [| [id name] rest IH]; intros i; simpl; [obey |].
  apply (obeys_then I P); [obey | intros _; apply IH].
Qed.

#[export] Hint Extern 1 (obeys ?I ?P _ (Configure.try_clang_dirs _ _)) =>
  apply (obeys_try_clang_dirs I P); intros; obey_leaf : obeys.
#[export] Hint Extern 1 (obeys ?I ?P _ (Configure.scan_vs_paths _ _)) =>
  apply (obeys_scan_vs_paths I P); intros; obey_leaf : obeys.
#[export] Hint Extern 1 (obeys ?I ?P _ (Configure.first_existing _ _)) =>
  apply (obeys_first_existing I P) : obeys.
#[export] Hint Extern 1 (obeys ?I ?P _ (Configure.print_menu _ _)) =>
  apply (obeys_print_menu I P); intros; obey_leaf : obeys.

(** What [bind] does after its first part. *)
Lemma bind_run {A B} (m : M A) (f : A -> M B) (s : Machine) :
  bind m f s =
  match res (m s) with
  | Ok a =>
      mkOut (res (f a (st (m s)))) (st (f a (st (m s))))
        (log (m s) ++ log (f a (st (m s))))
  | Raise e => mkOut (Raise e) (st (m s)) (log (m s))
  end.
Proof. reflexivity. Qed.

(** ** Runs that return *)

Lemma returns_ret {A} (Q : A -> Prop) (a : A) : Q a -> returns Q (ret a).
Proof. intros H s. exists a. split; [reflexivity | exact H]. Qed.

Lemma returns_bind {A B} (Q1 : A -> Prop) (Q2 : B -> Prop) (m : M A) (f : A -> M B) :
  returns Q1 m -> (forall a, Q1 a -> returns Q2 (f a)) -> returns Q2 (bind m f).
Proof.
  intros Hm Hf s. destruct (Hm s) as (a & Ha & HQ).
  destruct (Hf a HQ (st (m s))) as (b & Hb & HQ').
  exists b. rewrite bind_run, Ha. cbn [res]. split; [exact Hb | exact HQ'].
Qed.

Lemma returns_then {A B} (Q : B -> Prop) (m : M A) (f : A -> M B) :
  returns anything m -> (forall a, returns Q (f a)) -> returns Q (bind m f).
Proof. intros Hm Hf. apply (returns_bind anything); auto. Qed.

Lemma returns_emit (Q : unit -> Prop) (e : event) : Q tt -> returns Q (emit e).
Proof. intros H s. exists tt. split; [reflexivity | exact H]. Qed.

Lemma returns_say (Q : unit -> Prop) lvl msg : Q tt -> returns Q (say lvl msg).
Proof. apply returns_emit. Qed.

Lemma returns_set_stdin pending : returns anything (set_stdin pending).
Proof. intros s. exists tt. split; [reflexivity | exact Logic.I]. Qed.

Lemma returns_check_command h cmd : returns anything (check_command h cmd).
Proof. intros s. eexists. split; [reflexivity | exact Logic.I]. Qed.

Lemma returns_prompt_rounds {A} (Q : A -> Prop) prompt cancelled body pending :
  Q cancelled ->
  (forall line, returns (fun r => match r with Some a => Q a | None => True end) (body line)) ->
  returns Q (prompt_rounds prompt cancelled body pending).
Proof.
  intros Hc Hbody. induction pending as [| k rest IH]; cbn [prompt_rounds].
  - apply returns_then; [apply returns_emit; exact Logic.I | intros _].
    apply returns_then; [apply returns_say; exact Logic.I | intros _].
    apply returns_ret. exact Hc.
  - apply returns_then; [apply returns_emit; exact Logic.I | intros _].
    destruct k as [line |].
    + apply returns_then; [apply returns_set_stdin | intros _].
      eapply returns_bind; [apply Hbody |].
      intros [a |] Ha; [apply returns_ret; exact Ha | exact IH].
    + apply returns_then; [apply returns_set_stdin | intros _].
      apply returns_then; [apply returns_say; exact Logic.I | intros _].
      apply returns_ret. exact Hc.
Qed.

Lemma returns_prompt_loop {A} (Q : A -> Prop) prompt cancelled body :
  Q cancelled ->
  (forall line, returns (fun r => match r with Some a => Q a | None => True end) (body line)) ->
  returns Q (prompt_loop prompt cancelled body).
Proof. intros Hc Hbody s. unfold prompt_loop. apply returns_prompt_rounds; assumption. Qed.


(** * The claims *)

Lemma Forall_not_In {A} (P : A -> Prop) (l : list A) (x : A) :
  Forall P l -> ~ P x -> ~ In x l.
Proof. intros HF Hx Hin. apply Hx. rewrite Forall_forall in HF. apply HF. apply list_elem_of_In. exact Hin. Qed.

(** Splits a [Forall] over a log into its pieces. *)
Ltac split_log :=
  repeat first [ assumption
               | exact (List.Forall_nil _)
               | constructor; [ first [ reflexivity | exact Logic.I ] | ]
               | apply Forall_app; split ].

(** ** C8: an explicit option silences the prompt of its field *)

Lemma main_never_asks h args f :
  overridden args f = true ->
  obeys any_move (fun e => e <> Ask (field_prompt f)) anything (Configure.main h args).
Proof.
  intros H. destruct f; simpl in H.
  - destruct (Configure.arg_type args) eqn:E; [| discriminate]. obey.
  - destruct (Configure.arg_compiler args) eqn:E; [| discriminate]. obey.
  - destruct (Configure.arg_build_system args) eqn:E; [| discriminate]. obey.
  - destruct (Configure.arg_build_tests args) eqn:E; [| discriminate]. obey.
  - destruct (Configure.arg_use_conan args) eqn:E; [| discriminate]. obey.
Qed.

(** C8.  For each of the five fields (build type, compiler, build system,
    tests, dependency manager): in a run of [main] whose command line
    gives the field explicitly, the prompt of that field is never shown,
    whatever [--no-interactive] says and whatever is typed. *)
Theorem override_never_prompts (h : Host) (args : Configure.Args) (s : Machine) (f : field) :
  overridden args f = true ->
  ~ In (Ask (field_prompt f)) (log (Configure.main h args s)).
Proof.
  intros H.
  destruct (main_never_asks h args f H s) as (_ & Hlog & _).
  apply (Forall_not_In _ _ _ Hlog). intros Hne. apply Hne. reflexivity.
Qed.

Lemma override_never_prompts_witness :
  overridden all_args CompilerField = true /\
  ~ In (Ask (field_prompt CompilerField)) (log (Configure.main linux_box all_args (desk []))).
Proof.
  split; [reflexivity |].
  apply (override_never_prompts linux_box all_args (desk []) CompilerField). reflexivity.
Defined.

(** ** C4: generators are offered and chosen for compatible compilers only *)

Ltac accept_leaf :=
  first [ exact Logic.I
        | reflexivity
        | unfold choice_accepts, generator_accepts; simpl; assumption ].

Lemma candidates_accept h compiler :
  obeys any_move anything (Forall (entry_accepts compiler))
    (Configure.build_system_candidates h compiler).
Proof.
  unfold Configure.build_system_candidates.
  apply (obeys_then any_move anything); [obey | intros ninja].
  apply (obeys_then any_move anything); [obey | intros make].
  apply (obeys_then any_move anything); [obey | intros msbuild].
  apply (obeys_ret any_move anything).
  destruct (Configure.among_opt compiler ["msvc"; "cl"]) eqn:E;
    destruct ninja, make, msbuild; simpl; repeat constructor;
    unfold entry_accepts, generator_accepts; simpl; try reflexivity; exact E.
Qed.

Lemma menu_choice_accepts compiler entries line :
  Forall (entry_accepts compiler) entries ->
  obeys any_move anything
    (fun r => match r with Some choice => choice_accepts compiler choice | None => True end)
    (Configure.menu_choice entries line).
Proof.
  intros Hall. unfold Configure.menu_choice.
  destruct (String.eqb (Text.strip line) "").
  - apply (obeys_ret any_move anything). destruct entries as [| e rest]; simpl; [exact Logic.I |].
    inversion Hall; assumption.
  - destruct (Text.int (Text.strip line)) as [n |]; [| obey].
    destruct ((0 <=? n - 1) && (n - 1 <? Z.of_nat (length entries))); [| obey].
    apply (obeys_ret any_move anything).
    destruct (entries !! Z.to_nat (n - 1)) as [e |] eqn:E; simpl; [| exact Logic.I].
    rewrite Forall_forall in Hall. apply Hall.
    apply list_elem_of_lookup. eauto.
Qed.

Lemma select_accepts h compiler :
  obeys any_move anything (choice_accepts compiler)
    (Configure.select_build_system_interactive h compiler).
Proof.
  unfold Configure.select_build_system_interactive.
  eapply (obeys_bind any_move anything); [apply candidates_accept |].
  intros systems Hall.
  destruct systems as [| [id name] [| second rest]].
  - obey.
  - apply (obeys_then any_move anything); [obey | intros _].
    apply (obeys_ret any_move anything). inversion Hall; assumption.
  - apply (obeys_then any_move anything); [obey | intros _].
    apply (obeys_then any_move anything); [obey | intros _].
    apply (obeys_prompt_loop any_move anything); try exact Logic.I.
    intros line. apply menu_choice_accepts. exact Hall.
Qed.

Lemma auto_select_accepts h compiler :
  obeys any_move anything (choice_accepts compiler)
    (Configure.auto_select_build_system h compiler).
Proof. obey_with accept_leaf. Qed.

(** C4.  Whatever the machine and the compiler: every generator that
    [select_build_system_interactive] puts on its menu accepts the
    compiler, and so does the generator it returns and the generator the
    non-interactive choice returns.  The Visual Studio generator accepts
    exactly [msvc] and [cl]. *)
Theorem generators_match_compiler (h : Host) (compiler : option string) (s : Machine) :
  match res (Configure.build_system_candidates h compiler s) with
  | Ok systems => Forall (fun entry => generator_accepts (fst entry) compiler = true) systems
  | Raise _ => True
  end /\
  match res (Configure.select_build_system_interactive h compiler s) with
  | Ok (Some generator) => generator_accepts generator compiler = true
  | _ => True
  end /\
  match res (Configure.auto_select_build_system h compiler s) with
  | Ok (Some generator) => generator_accepts generator compiler = true
  | _ => True
  end /\
  generator_accepts "Visual Studio 17 2022" compiler
    = Configure.among_opt compiler ["msvc"; "cl"].
Proof.
  split; [| split; [| split]].
  - destruct (candidates_accept h compiler s) as (_ & _ & H). exact H.
  - destruct (select_accepts h compiler s) as (_ & _ & H).
    destruct (res _) as [[g |] |]; auto.
  - destruct (auto_select_accepts h compiler s) as (_ & _ & H).
    destruct (res _) as [[g |] |]; auto.
  - reflexivity.
Qed.

(** ** C6: no compiler, no configure command *)

Lemma length_append (a b : string) :
  String.length (a +:+ b) = (String.length a + String.length b)%nat.
Proof. induction a as [| c a IH]; simpl; [reflexivity | rewrite IH; reflexivity]. Qed.

Lemma join_last_length sep (p : Path) (x : string) :
  (String.length x <= String.length (Text.join sep (p ++ [x])))%nat.
Proof.
  induction p as [| a p IH]; simpl; [lia |].
  destruct (p ++ [x]) as [| y rest] eqn:E.
  - destruct p; discriminate.
  - rewrite !length_append. lia.
Qed.

(** The locator is not CMake: its path ends in [vswhere.exe]. *)
Lemma vswhere_not_cmake h (p : Path) :
  String.eqb (path_str h (p // "vswhere.exe")) "cmake" = false.
Proof.
  apply String.eqb_neq. intros E.
  pose proof (join_last_length (sep h) p "vswhere.exe") as Hlen.
  unfold path_str, subpath in E. rewrite E in Hlen. simpl in Hlen. lia.
Qed.

Ltac quiet_leaf :=
  first [ exact Logic.I
        | reflexivity
        | assumption
        | apply vswhere_not_cmake
        | solve [ unfold not_configure, Configure.vswhere_query; simpl;
                  repeat match goal with
                         | |- context [if ?b then _ else _] => destruct b
                         end;
                  apply vswhere_not_cmake ]
        | solve [ eauto ] ].

Section NoCompiler.
Context (h : Host) (Hnone : no_compiler_available h).

Lemma check_command_nothing cmd :
  (forall path, which h path cmd = false) ->
  obeys any_move not_configure (fun found => found = false) (check_command h cmd).
Proof.
  intros Hcmd s. unfold check_command, bind, get_environ, ret. simpl.
  split; [exact Logic.I | split; [constructor | apply Hcmd]].
Qed.

Lemma try_clang_dirs_nothing dirs :
  obeys any_move not_configure (fun found => found = false)
    (Configure.try_clang_dirs h dirs).
Proof.
  destruct Hnone as (_ & _ & Hcl & _).
  induction dirs as [| d rest IH]; simpl; [obey_with quiet_leaf |].
  apply (obeys_then any_move not_configure); [obey_with quiet_leaf | intros e].
  destruct e; [| exact IH].
  apply (obeys_then any_move not_configure); [obey_with quiet_leaf | intros _].
  apply (obeys_then any_move not_configure); [obey_with quiet_leaf | intros old].
  apply (obeys_then any_move not_configure); [obey_with quiet_leaf | intros _].
  eapply (obeys_bind any_move not_configure);
    [apply (check_command_nothing "clang-cl" Hcl) |].
  intros ok ->. exact IH.
Qed.

Lemma scan_vs_paths_nothing paths :
  obeys any_move not_configure (fun found => found = false)
    (Configure.scan_vs_paths h paths).
Proof.
  induction paths as [| p rest IH]; cbn [Configure.scan_vs_paths];
    [obey_with quiet_leaf |].
  apply (obeys_then any_move not_configure); [obey_with quiet_leaf | intros e].
  destruct e; [| exact IH].
  eapply (obeys_bind any_move not_configure); [apply try_clang_dirs_nothing |].
  intros found ->. exact IH.
Qed.

Lemma detect_clang_nothing :
  obeys any_move not_configure (fun found => found = false) (Configure.detect_clang h).
Proof.
  destruct Hnone as (_ & Hclang & Hcl & _).
  unfold Configure.detect_clang.
  destruct (is_windows h) eqn:W; [| apply (check_command_nothing _ Hclang)].
  eapply (obeys_bind any_move not_configure);
    [apply (check_command_nothing _ Hcl) |].
  intros on_path ->.
  unfold Configure._setup_clang_cl_path. rewrite W. cbn [negb].
  eapply (obeys_bind any_move not_configure);
    [apply (check_command_nothing _ Hcl) |].
  intros on_path ->.
  apply (obeys_then any_move not_configure); [obey_with quiet_leaf | intros _].
  eapply (obeys_bind any_move not_configure); [apply scan_vs_paths_nothing |].
  intros found ->.
  eapply (obeys_bind any_move not_configure); [apply try_clang_dirs_nothing |].
  intros found ->.
  obey_with quiet_leaf.
Qed.

Lemma detect_msvc_nothing :
  obeys any_move not_configure (fun found => found = None) (Configure.detect_msvc h).
Proof.
  destruct Hnone as (_ & _ & _ & Hvs).
  intros s. unfold Configure.detect_msvc.
  destruct (is_windows h); simpl; [| repeat split; constructor].
  unfold bind, try_except, environ_get, get_environ, exists_, ret. simpl.
  match goal with |- context [files s ?p] => destruct (files s p) eqn:E end;
    simpl; [| repeat split; constructor].
  unfold subprocess_run.
  match goal with |- context [spawn h ?rq ?fs] => destruct (spawn h rq fs) as [[c fs'] |] eqn:R end;
    simpl.
  - apply Hvs in R.
    destruct (negb (returncode c =? 0)) eqn:C; simpl.
    + repeat split; try exact Logic.I. repeat constructor. apply vswhere_not_cmake.
    + destruct R as [R | R]; [exfalso; apply R; apply negb_false_iff in C; lia |].
      rewrite R. simpl.
      repeat split; try exact Logic.I. repeat constructor. apply vswhere_not_cmake.
  - repeat split; try exact Logic.I. repeat constructor. apply vswhere_not_cmake.
Qed.

Lemma candidates_nothing :
  obeys any_move not_configure (fun l => l = []) (Configure.compiler_candidates h).
Proof.
  unfold Configure.compiler_candidates.
  eapply (obeys_bind any_move not_configure (fun found => found = None)).
  { destruct (is_windows h); [apply detect_msvc_nothing | obey_with quiet_leaf]. }
  intros msvc ->.
  eapply (obeys_bind any_move not_configure); [apply detect_clang_nothing |].
  intros clang ->.
  eapply (obeys_bind any_move not_configure).
  { destruct Hnone as (Hgcc & _). apply (check_command_nothing _ Hgcc). }
  intros gcc ->. apply (obeys_ret any_move not_configure). reflexivity.
Qed.

Lemma select_compiler_nothing s :
  let run := Configure.select_compiler_interactive h s in
  Forall not_configure (log run) /\
  match res run with
  | Ok c => c = None /\ In (Say Error "No compilers found!") (log run)
  | Raise _ => True
  end.
Proof.
  unfold Configure.select_compiler_interactive. rewrite bind_run.
  destruct (candidates_nothing s) as (_ & Hl & Hr).
  destruct (res (Configure.compiler_candidates h s)) as [l | e]; [| tauto].
  subst l. simpl. split.
  - apply Forall_app. split; [exact Hl | repeat constructor].
  - split; [reflexivity |]. apply in_or_app. right. left. reflexivity.
Qed.

Lemma auto_detect_nothing s :
  let run := Configure.auto_detect_compiler h s in
  Forall not_configure (log run) /\
  match res run with
  | Ok c => c = None /\ In (Say Error "No compiler found") (log run)
  | Raise _ => True
  end.
Proof.
  destruct Hnone as (Hgcc & _).
  unfold Configure.auto_detect_compiler. rewrite bind_run.
  destruct (check_command_nothing "g++" Hgcc s) as (_ & Hl1 & Hr1).
  unfold Configure.detect_gcc.
  destruct (res (check_command h "g++" s)) as [gcc | e]; [| tauto].
  subst gcc. cbn [res st log]. rewrite bind_run.
  set (s1 := st (check_command h "g++" s)).
  destruct (detect_clang_nothing s1) as (_ & Hl2 & Hr2).
  destruct (res (Configure.detect_clang h s1)) as [clang | e];
    [| cbn [res log]; split; [apply Forall_app; tauto | exact Logic.I]].
  subst clang. cbn [res st log]. rewrite bind_run.
  set (s2 := st (Configure.detect_clang h s1)).
  assert (Hm : obeys any_move not_configure (fun found => found = None)
                 (if is_windows h then Configure.detect_msvc h else ret None)).
  { destruct (is_windows h); [apply detect_msvc_nothing | obey_with quiet_leaf]. }
  destruct (Hm s2) as (_ & Hl3 & Hr3).
  destruct (res ((if is_windows h then Configure.detect_msvc h else ret None) s2))
    as [msvc | e];
    [| cbn [res log]; split; [repeat (apply Forall_app; split); assumption | exact Logic.I]].
  subst msvc. cbn [res st log]. split.
  - repeat (apply Forall_app; split); try assumption. repeat constructor.
  - split; [reflexivity |].
    apply in_or_app. right. apply in_or_app. right. apply in_or_app. right.
    left. reflexivity.
Qed.

Lemma resolve_compiler_nothing args config s :
  Configure.arg_compiler args = None ->
  let run := Configure.resolve_compiler h args config s in
  Forall not_configure (log run) /\
  match res run with
  | Ok c => c = None /\
            (In (Say Error "No compilers found!") (log run) \/
             In (Say Error "No compiler found") (log run))
  | Raise _ => True
  end.
Proof.
  intros Hc. unfold Configure.resolve_compiler. rewrite Hc.
  destruct (Configure.interactive config).
  - destruct (select_compiler_nothing s) as (Hl & Hr). split; [exact Hl |].
    destruct (res _); [| exact Logic.I]. tauto.
  - destruct (auto_detect_nothing s) as (Hl & Hr). split; [exact Hl |].
    destruct (res _); [| exact Logic.I]. tauto.
Qed.

Lemma main_without_compiler args s :
  Configure.arg_compiler args = None ->
  let run := Configure.main h args s in
  Configure.exit_status run = 1 /\
  Forall not_configure (log run) /\
  (res run = Ok 1 ->
   In (Say Error "No compilers found!") (log run) \/
   In (Say Error "No compiler found") (log run)).
Proof.
  intros Hc. unfold Configure.main, Configure.exit_status.
  rewrite bind_run. cbn [say emit res st log].
  rewrite bind_run.
  set (config := Configure.initial_config h args).
  assert (Hbt : obeys any_move not_configure anything
                  (Configure.resolve_build_type args config))
    by obey_with quiet_leaf.
  destruct (Hbt s) as (_ & Hl1 & _).
  destruct (res (Configure.resolve_build_type args config s)) as [bt | e];
    cbn [res st log];
    [| split; [reflexivity | split; [repeat constructor; exact Hl1 | discriminate]]].
  rewrite bind_run.
  set (s1 := st (Configure.resolve_build_type args config s)).
  set (config1 := Configure.set_build_type bt config).
  destruct (resolve_compiler_nothing args config1 s1 Hc) as (Hl2 & Hr2).
  destruct (res (Configure.resolve_compiler h args config1 s1)) as [c | e];
    cbn [res st log].
  - destruct Hr2 as (-> & Hin). cbn [ret res st log].
    split; [reflexivity |]. split.
    + constructor; [reflexivity |]. rewrite app_nil_r. apply Forall_app. tauto.
    + intros _. rewrite !in_app_iff. tauto.
  - split; [reflexivity |]. split; [| discriminate].
    constructor; [reflexivity |]. apply Forall_app. tauto.
Qed.

End NoCompiler.

(** ** C3: what a cancelled prompt does *)

Lemma prompt_loop_cancelled {A} prompt (cancelled : A) body s :
  next_is_cancel s = true ->
  res (prompt_loop prompt cancelled body s) = Ok cancelled /\
  log (prompt_loop prompt cancelled body s) = [Ask prompt; Say Info ""] /\
  environ (st (prompt_loop prompt cancelled body s)) = environ s /\
  files (st (prompt_loop prompt cancelled body s)) = files s.
Proof.
  unfold next_is_cancel, prompt_loop. intros H.
  destruct (stdin s) as [| [line |] rest]; try discriminate; simpl; auto.
Qed.

Lemma next_is_cancel_stdin s s' :
  stdin s' = stdin s -> next_is_cancel s = true -> next_is_cancel s' = true.
Proof. unfold next_is_cancel. intros ->. auto. Qed.

Lemma build_type_cancelled s :
  next_is_cancel s = true ->
  res (Configure.select_build_type_interactive s) = Ok "Release".
Proof.
  intros H. unfold Configure.select_build_type_interactive.
  rewrite !bind_run. cbn [say emit res st log].
  destruct (prompt_loop_cancelled Configure.build_type_prompt "Release"
              (fun line =>
                 let choice := Text.strip line in
                 if String.eqb choice "" || String.eqb choice "3" then ret (Some "Release")
                 else if String.eqb choice "1" then ret (Some "Debug")
                 else if String.eqb choice "2" then ret (Some "RelWithDebInfo")
                 else say Error "Invalid choice" ;; ret None) s H) as (Hr & _).
  exact Hr.
Qed.

Lemma yes_no_cancelled question default s :
  next_is_cancel s = true ->
  res (Configure.ask_yes_no question default s) = Ok false.
Proof.
  intros H. unfold Configure.ask_yes_no.
  apply prompt_loop_cancelled. exact H.
Qed.

Lemma compiler_candidates_stdin h :
  obeys same_stdin not_ask anything (Configure.compiler_candidates h).
Proof. obey. Qed.

Lemma build_system_candidates_stdin h compiler :
  obeys same_stdin not_ask anything (Configure.build_system_candidates h compiler).
Proof. obey. Qed.

Lemma print_menu_quiet i entries s :
  res (Configure.print_menu i entries s) = Ok tt /\
  st (Configure.print_menu i entries s) = s /\
  Forall not_ask (log (Configure.print_menu i entries s)).
Proof.
  revert i. induction entries as [| [id name] rest IH]; intros i;
    cbn [Configure.print_menu].
  - repeat split. constructor.
  - rewrite bind_run. cbn [say emit res st log].
    destruct (IH (S i)) as (Hr & Hs & Hl). rewrite Hr, Hs.
    repeat split. constructor; [exact Logic.I | exact Hl].
Qed.

Lemma menu_cancelled prompt title entries s :
  next_is_cancel s = true ->
  res ((say Info title ;; Configure.print_menu 1 entries ;;
        prompt_loop prompt None (Configure.menu_choice entries)) s) = Ok None.
Proof.
  intros H. rewrite bind_run. cbn [say emit res st log]. rewrite bind_run.
  destruct (print_menu_quiet 1 entries s) as (Hr & Hs & _). rewrite Hr, Hs.
  cbn [res]. apply prompt_loop_cancelled. exact H.
Qed.

Lemma compiler_cancelled h s :
  next_is_cancel s = true ->
  match res (Configure.select_compiler_interactive h s) with
  | Ok c => c = None
  | Raise _ => True
  end.
Proof.
  intros H. unfold Configure.select_compiler_interactive. rewrite bind_run.
  destruct (compiler_candidates_stdin h s) as (Hs & _ & _).
  destruct (res (Configure.compiler_candidates h s)) as [compilers | e]; [| exact Logic.I].
  cbn [res].
  pose proof (next_is_cancel_stdin _ _ Hs H) as H'.
  destruct compilers as [| c rest]; [reflexivity |].
  rewrite (menu_cancelled _ _ _ _ H'). reflexivity.
Qed.

Lemma build_system_cancelled h compiler s :
  next_is_cancel s = true ->
  In (Ask Configure.build_system_prompt)
    (log (Configure.select_build_system_interactive h compiler s)) ->
  res (Configure.select_build_system_interactive h compiler s) = Ok None.
Proof.
  intros H. unfold Configure.select_build_system_interactive. rewrite bind_run.
  destruct (build_system_candidates_stdin h compiler s) as (Hs & Hl & _).
  assert (Hno : ~ In (Ask Configure.build_system_prompt)
                  (log (Configure.build_system_candidates h compiler s))).
  { apply (Forall_not_In _ _ _ Hl). intros F. exact F. }
  destruct (res (Configure.build_system_candidates h compiler s)) as [systems | e];
    cbn [res log]; [| intros Hin; contradiction].
  pose proof (next_is_cancel_stdin _ _ Hs H) as H'.
  destruct systems as [| [id name] [| second rest]].
  - cbn. rewrite in_app_iff. simpl. intros [Hin | [Hin | []]]; [contradiction | discriminate].
  - cbn. rewrite in_app_iff. simpl. intros [Hin | [Hin | []]]; [contradiction | discriminate].
  - intros _. apply menu_cancelled. exact H'.
Qed.

Lemma select_compiler_not_configure h :
  obeys any_move not_configure anything (Configure.select_compiler_interactive h).
Proof. obey_with quiet_leaf. Qed.

Lemma resolve_compiler_cancelled h args config s :
  Configure.arg_compiler args = None ->
  Configure.interactive config = true ->
  next_is_cancel s = true ->
  Forall not_configure (log (Configure.resolve_compiler h args config s)) /\
  match res (Configure.resolve_compiler h args config s) with
  | Ok c => c = None
  | Raise _ => True
  end.
Proof.
  intros Hc Hi H. unfold Configure.resolve_compiler. rewrite Hc, Hi.
  destruct (select_compiler_not_configure h s) as (_ & Hl & _).
  split; [exact Hl | apply compiler_cancelled; exact H].
Qed.

Lemma main_compiler_cancelled h args s :
  given (Configure.arg_type args) = true ->
  Configure.arg_compiler args = None ->
  Configure.arg_no_interactive args = false ->
  next_is_cancel s = true ->
  Configure.exit_status (Configure.main h args s) = 1 /\
  Forall not_configure (log (Configure.main h args s)).
Proof.
  intros Ht Hc Hi H. unfold Configure.main, Configure.exit_status.
  rewrite bind_run. cbn [say emit res st log]. rewrite bind_run.
  unfold Configure.resolve_build_type.
  destruct (Configure.arg_type args) as [t |]; [| discriminate].
  cbn [ret res st log]. rewrite bind_run.
  set (config1 := Configure.set_build_type _ _).
  assert (Hint : Configure.interactive config1 = true).
  { subst config1. cbn. rewrite Hi. reflexivity. }
  destruct (resolve_compiler_cancelled h args config1 s Hc Hint H) as (Hl & Hr).
  destruct (res (Configure.resolve_compiler h args config1 s)) as [c | e]; cbn [res log].
  - subst c. cbn [ret res log]. split; [reflexivity |]. split_log.
  - split; [reflexivity |]. split_log.
Qed.




(** ** C2: the order in which compilers are tried *)

Lemma check_command_run h cmd s :
  check_command h cmd s = mkOut (Ok (on_PATH h s cmd)) s [].
Proof. reflexivity. Qed.

Lemma candidates_in_priority h :
  obeys any_move anything
    (fun l => sublist (fst <$> l) (compiler_priority h))
    (Configure.compiler_candidates h).
Proof.
  unfold Configure.compiler_candidates.
  eapply (obeys_bind any_move anything
            (fun m : option string => is_windows h = false -> m = None)).
  { destruct (is_windows h); [obey | apply (obeys_ret any_move anything); reflexivity]. }
  intros msvc Hm.
  apply (obeys_then any_move anything); [obey | intros clang].
  apply (obeys_then any_move anything); [obey | intros gcc].
  apply (obeys_ret any_move anything).
  unfold compiler_priority.
  destruct (is_windows h).
  - destruct msvc, clang, gcc; cbn;
      repeat first [ apply sublist_nil | apply sublist_skip | apply sublist_cons ].
  - rewrite (Hm eq_refl).
    destruct clang, gcc; cbn;
      repeat first [ apply sublist_nil | apply sublist_skip | apply sublist_cons ].
Qed.

Lemma empty_answer_selects_first entries line s :
  Text.strip line = "" ->
  res (Configure.menu_choice entries line s) = Ok (Some (fst <$> head entries)).
Proof. intros H. unfold Configure.menu_choice. rewrite H. reflexivity. Qed.

Lemma auto_detect_gcc_first h s :
  on_PATH h s "g++" = true ->
  res (Configure.auto_detect_compiler h s) = Ok (Some "gcc").
Proof.
  intros H. unfold Configure.auto_detect_compiler, Configure.detect_gcc.
  rewrite bind_run, check_command_run. cbn [res st log]. rewrite H. reflexivity.
Qed.

Lemma auto_detect_clang_second h s :
  on_PATH h s "g++" = false ->
  on_PATH h s (clang_binary h) = true ->
  res (Configure.auto_detect_compiler h s) = Ok (Some (clang_id h)).
Proof.
  intros Hg Hc. unfold Configure.auto_detect_compiler, Configure.detect_gcc.
  rewrite bind_run, check_command_run. cbn [res st log]. rewrite Hg.
  rewrite bind_run. unfold Configure.detect_clang, clang_binary, clang_id in *.
  destruct (is_windows h).
  - rewrite bind_run, check_command_run. cbn [res st log]. rewrite Hc. reflexivity.
  - rewrite check_command_run. cbn [res st log]. rewrite Hc. reflexivity.
Qed.

Lemma auto_detect_msvc_last h s :
  res (Configure.auto_detect_compiler h s) = Ok (Some "msvc") ->
  is_windows h = true /\ on_PATH h s "g++" = false /\ on_PATH h s "clang-cl" = false.
Proof.
  unfold Configure.auto_detect_compiler, Configure.detect_gcc.
  rewrite bind_run, check_command_run. cbn [res st log].
  destruct (on_PATH h s "g++") eqn:Hg; [cbn; discriminate |].
  rewrite bind_run. unfold Configure.detect_clang.
  destruct (is_windows h) eqn:W.
  - rewrite bind_run, check_command_run. cbn [res st log].
    destruct (on_PATH h s "clang-cl") eqn:Hc; [cbn; discriminate |].
    intros _. auto.
  - rewrite check_command_run. cbn [res st log].
    destruct (on_PATH h s "clang++"); cbn; discriminate.
Qed.

(** [detect_msvc], run from [s] on Windows. *)
Lemma detect_msvc_run h s :
  is_windows h = true ->
  Configure.detect_msvc h s =
  if files s (primary_vswhere h s) then
    match spawn h {| rq_cmd := Configure.vswhere_query h (primary_vswhere h s);
                     rq_cwd := None; rq_env := environ s |} (files s) with
    | None =>
        mkOut (Raise FileNotFoundError) s
          [Run (Configure.vswhere_query h (primary_vswhere h s)) None None]
    | Some (c, fs) =>
        mkOut (Ok (if reports_installation c then Some "msvc" else None))
          (with_files fs s)
          [Run (Configure.vswhere_query h (primary_vswhere h s)) None None]
    end
  else mkOut (Ok None) s [].
Proof.
  intros W. unfold Configure.detect_msvc, primary_vswhere, reports_installation.
  rewrite W. cbn [negb]. cbv zeta.
  rewrite bind_run. replace (environ_get "ProgramFiles(x86)" "C:\Program Files (x86)" s)
    with (mkOut (Ok (environ_or s "ProgramFiles(x86)" "C:\Program Files (x86)")) s [])
    by reflexivity.
  cbn [res st log]. rewrite bind_run. cbn [exists_ res st log].
  destruct (files s _); [| reflexivity].
  unfold try_except. rewrite bind_run. unfold subprocess_run.
  destruct (spawn h _ (files s)) as [[c fs] |]; cbn [andb res st log]; [| reflexivity].
  destruct (returncode c =? 0); cbn [negb andb res st log ret Configure.is_called_process_error].
  - destruct (String.eqb (Text.strip (stdout c)) ""); reflexivity.
  - reflexivity.
Qed.

Lemma detect_msvc_off_windows h s :
  is_windows h = false -> Configure.detect_msvc h s = mkOut (Ok None) s [].
Proof. intros W. unfold Configure.detect_msvc. rewrite W. reflexivity. Qed.

(** [compiler_candidates], probe by probe. *)
Lemma compiler_candidates_run h s m c :
  res (Configure.detect_msvc h s) = Ok m ->
  res (Configure.detect_clang h (st (Configure.detect_msvc h s))) = Ok c ->
  res (Configure.compiler_candidates h s)
  = Ok (compiler_entries h (given m) c
          (on_PATH h (st (Configure.detect_clang h (st (Configure.detect_msvc h s)))) "g++")).
Proof.
  intros Hm Hc. unfold Configure.compiler_candidates.
  assert (E : (if is_windows h then Configure.detect_msvc h else ret None) s
              = Configure.detect_msvc h s).
  { destruct (is_windows h) eqn:W; [reflexivity |].
    rewrite (detect_msvc_off_windows h s W). reflexivity. }
  rewrite bind_run, E, Hm. cbn [res st log].
  rewrite bind_run, Hc. cbn [res st log].
  rewrite bind_run. unfold Configure.detect_gcc. rewrite check_command_run.
  cbn [res st log ret]. unfold compiler_entries, clang_id.
  destruct m, c, (is_windows h); reflexivity.
Qed.

Lemma compiler_candidates_off_windows h s :
  is_windows h = false ->
  Configure.compiler_candidates h s
  = mkOut (Ok (compiler_entries h false (on_PATH h s "clang++") (on_PATH h s "g++"))) s [].
Proof.
  intros W. unfold Configure.compiler_candidates, Configure.detect_clang,
    Configure.detect_gcc, compiler_entries, clang_id.
  rewrite W. cbn [negb].
  rewrite bind_run. cbn [ret res st log].
  rewrite bind_run, check_command_run. cbn [ret res st log].
  rewrite bind_run, check_command_run. cbn [ret res st log].
  destruct (on_PATH h s "clang++"), (on_PATH h s "g++"); reflexivity.
Qed.

Lemma print_menu_run i entries s :
  Configure.print_menu i entries s = mkOut (Ok tt) s (menu_lines i entries).
Proof.
  revert i. induction entries as [| [id name] rest IH]; intros i; [reflexivity |].
  cbn [Configure.print_menu menu_lines]. rewrite bind_run. cbn [say emit res st log].
  rewrite IH. reflexivity.
Qed.

(** The first answer settles a prompt when its round returns. *)
Lemma prompt_loop_first {A} prompt (cancelled : A) body s line rest (a : A) :
  stdin s = Typed line :: rest ->
  (forall s', body line s' = mkOut (Ok (Some a)) s' []) ->
  prompt_loop prompt cancelled body s
  = mkOut (Ok a) (with_stdin rest s) [Ask prompt].
Proof.
  intros Hs Hb. unfold prompt_loop. rewrite Hs. cbn [prompt_rounds].
  rewrite bind_run. cbn [emit res st log]. rewrite bind_run.
  cbn [set_stdin res st log]. rewrite bind_run, Hb. reflexivity.
Qed.

Lemma menu_choice_number entries line n s :
  String.eqb (Text.strip line) "" = false ->
  Text.int (Text.strip line) = Some n ->
  1 <= n <= Z.of_nat (length entries) ->
  Configure.menu_choice entries line s
  = mkOut (Ok (Some (fst <$> entries !! Z.to_nat (n - 1)))) s [].
Proof.
  intros He Hi Hn. unfold Configure.menu_choice. cbv zeta. rewrite He, Hi.
  replace ((0 <=? n - 1) && (n - 1 <? Z.of_nat (length entries))) with true;
    [reflexivity |].
  symmetry. apply andb_true_iff. split; [apply Z.leb_le | apply Z.ltb_lt]; lia.
Qed.

(** [select_compiler_interactive] with candidates: the menu is printed
    in their order, and the first answer, empty or a number of the
    menu, picks the entry. *)
Lemma select_compiler_shows_menu h s l :
  res (Configure.compiler_candidates h s) = Ok l ->
  l <> [] ->
  (exists asked,
      log (Configure.select_compiler_interactive h s)
      = log (Configure.compiler_candidates h s)
        ++ [Say Info "Available compilers:"] ++ menu_lines 1 l ++ asked) /\
  (forall line rest,
      stdin (st (Configure.compiler_candidates h s)) = Typed line :: rest ->
      Text.strip line = "" ->
      res (Configure.select_compiler_interactive h s) = Ok (fst <$> head l)) /\
  (forall line rest n,
      stdin (st (Configure.compiler_candidates h s)) = Typed line :: rest ->
      Text.strip line <> "" ->
      Text.int (Text.strip line) = Some n ->
      1 <= n <= Z.of_nat (length l) ->
      res (Configure.select_compiler_interactive h s) = Ok (fst <$> l !! Z.to_nat (n - 1))).
Proof.
  intros Hl Hne. unfold Configure.select_compiler_interactive.
  rewrite bind_run, Hl. cbn [res st log].
  destruct l as [| first others]; [contradiction |].
  set (l := first :: others) in *.
  rewrite bind_run. cbn [say emit res st log].
  rewrite bind_run, print_menu_run. cbn [res st log].
  split; [eexists; reflexivity |].
  split.
  - intros line rest Hs He.
    rewrite (prompt_loop_first _ _ _ _ line rest (fst <$> head l) Hs); [reflexivity |].
    intros s'. unfold Configure.menu_choice. cbv zeta. rewrite He. reflexivity.
  - intros line rest n Hs He Hi Hn.
    rewrite (prompt_loop_first _ _ _ _ line rest (fst <$> l !! Z.to_nat (n - 1)) Hs);
      [reflexivity |].
    intros s'. apply menu_choice_number; [apply String.eqb_neq; exact He | exact Hi | exact Hn].
Qed.




(** ** C1: the MSVC environment *)

Lemma store_lines_lookup lines (base : gmap string string) name :
  Configure.store_lines lines base !! name =
  match dump_value lines name with
  | Some v => Some v
  | None => base !! name
  end.
Proof.
  revert base. induction lines as [| line rest IH]; intros base; simpl; [reflexivity |].
  destruct (Text.contains_char "=" line).
  - destruct (Text.partition "=" line) as [key value]. rewrite IH.
    destruct (dump_value rest name); [reflexivity |].
    destruct (String.eqb_spec key name) as [-> | Hne].
    + apply lookup_insert_eq.
    + apply lookup_insert_ne. exact Hne.
  - rewrite IH. destruct (dump_value rest name); reflexivity.
Qed.

Lemma locate_keeps_environ h :
  obeys same_environ anything anything (Configure.locate_visual_studio h).
Proof. obey. Qed.

Lemma first_existing_run h paths s :
  Configure.first_existing h paths s
  = mkOut (Ok (match List.find (files s) paths with
               | Some p => path_str h p
               | None => ""
               end)) s [].
Proof.
  induction paths as [| p rest IH]; [reflexivity |].
  cbn [Configure.first_existing List.find]. rewrite bind_run. cbn [exists_ res st log].
  destruct (files s p); [reflexivity | rewrite IH; reflexivity].
Qed.

Lemma environ_get_run name default s :
  environ_get name default s = mkOut (Ok (environ_or s name default)) s [].
Proof. reflexivity. Qed.

(** [locate_visual_studio], run from [s]: the locator is asked when it
    is there; what it prints is the installation, unless it fails or
    prints nothing, and then the common directories are tried. *)
Lemma locate_visual_studio_run h s :
  Configure.locate_visual_studio h s =
  let asked := Run (Configure.vswhere_query h (chosen_vswhere h s)) None None in
  if files s (chosen_vswhere h s) then
    match spawn h {| rq_cmd := Configure.vswhere_query h (chosen_vswhere h s);
                     rq_cwd := None; rq_env := environ s |} (files s) with
    | None => mkOut (Raise FileNotFoundError) s [asked]
    | Some (c, fs) =>
        let reported := if returncode c =? 0 then Text.strip (stdout c) else "" in
        mkOut (Ok (if String.eqb reported "" then first_common_path h fs else reported))
          (with_files fs s) [asked]
    end
  else mkOut (Ok (first_common_path h (files s))) s [].
Proof.
  unfold Configure.locate_visual_studio, chosen_vswhere, first_common_path.
  cbv zeta.
  rewrite bind_run, environ_get_run. cbn [res st log].
  rewrite bind_run, environ_get_run. cbn [res st log].
  set (primary := parse_path h _ // "Microsoft Visual Studio" // "Installer" // "vswhere.exe").
  set (fallback := parse_path h _ // "Microsoft Visual Studio" // "Installer" // "vswhere.exe").
  rewrite bind_run. cbn [exists_ res st log]. rewrite bind_run.
  assert (E2 : (if negb (files s primary) then exists_ fallback else ret false) s
               = mkOut (Ok (negb (files s primary) && files s fallback)) s []).
  { destruct (files s primary); reflexivity. }
  rewrite E2. cbn [res st log].
  assert (Ec : (if negb (files s primary) && (negb (files s primary) && files s fallback)
                then fallback else primary)
               = (if negb (files s primary) && files s fallback then fallback else primary)).
  { destruct (files s primary), (files s fallback); reflexivity. }
  rewrite Ec.
  set (chosen := if negb (files s primary) && files s fallback then fallback else primary).
  rewrite bind_run. cbn [exists_ res st log]. rewrite bind_run.
  destruct (files s chosen).
  - unfold try_except. rewrite bind_run. unfold subprocess_run.
    destruct (spawn h _ (files s)) as [[c fs] |]; cbn [andb res st log].
    + destruct (returncode c =? 0); cbn [negb res st log ret Configure.is_called_process_error].
      * destruct (String.eqb (Text.strip (stdout c)) "");
          [rewrite first_existing_run | ]; reflexivity.
      * cbn [String.eqb]. rewrite first_existing_run. reflexivity.
    + reflexivity.
  - cbn [ret res st log String.eqb]. rewrite first_existing_run. reflexivity.
Qed.

(** [run_vcvarsall], run from [s]. *)
Lemma run_vcvarsall_run h configured env vs_path s :
  Configure.run_vcvarsall h configured env vs_path s =
  let spawned := Run (Configure.vcvars_command h (vcvars_of h vs_path)) None None in
  if String.eqb vs_path "" then
    mkOut (Ok env) s [Say Warning "Visual Studio installation not found"]
  else if negb (files s (vcvars_of h vs_path)) then
    mkOut (Ok env) s
      [Say Warning ("vcvarsall.bat not found at " +:+ path_str h (vcvars_of h vs_path))]
  else
    match spawn h {| rq_cmd := Configure.vcvars_command h (vcvars_of h vs_path);
                     rq_cwd := None; rq_env := environ s |} (files s) with
    | None => mkOut (Raise FileNotFoundError) s [spawned]
    | Some (c, fs) =>
        if returncode c =? 0
        then mkOut (Ok (Configure.store_lines (Text.splitlines (stdout c)) env))
               (with_files fs s) [spawned; Say Success configured]
        else mkOut (Ok env) (with_files fs s)
               [spawned;
                Say Warning (Configure.vcvars_failure h (vcvars_of h vs_path)
                               (CalledProcessError (returncode c)))]
    end.
Proof.
  unfold Configure.run_vcvarsall. fold (vcvars_of h vs_path). cbv zeta.
  destruct (String.eqb vs_path ""); [reflexivity |].
  rewrite bind_run. cbn [exists_ res st log].
  destruct (files s (vcvars_of h vs_path)); cbn [negb]; [| reflexivity].
  unfold try_except. rewrite bind_run. unfold subprocess_run.
  destruct (spawn h _ (files s)) as [[c fs] |]; cbn [andb res st log]; [| reflexivity].
  destruct (returncode c =? 0); reflexivity.
Qed.

(** The three ways out of [run_vcvarsall]: a warning and the unmodified
    mapping, or the dump of a successful spawn written over it. *)
Lemma run_vcvarsall_cases h configured env vs_path s env' :
  res (Configure.run_vcvarsall h configured env vs_path s) = Ok env' ->
  env' = env \/
  exists vcvars c fs',
    spawn h {| rq_cmd := Configure.vcvars_command h vcvars; rq_cwd := None;
               rq_env := environ s |} (files s) = Some (c, fs') /\
    returncode c = 0 /\
    In (Run (Configure.vcvars_command h vcvars) None None)
      (log (Configure.run_vcvarsall h configured env vs_path s)) /\
    env' = Configure.store_lines (Text.splitlines (stdout c)) env.
Proof.
  rewrite run_vcvarsall_run. cbv zeta.
  destruct (String.eqb vs_path ""); [intros [= <-]; left; reflexivity |].
  destruct (files s (vcvars_of h vs_path)); cbn [negb];
    [| intros [= <-]; left; reflexivity].
  destruct (spawn h _ (files s)) as [[c fs'] |] eqn:R; [| discriminate].
  destruct (returncode c =? 0) eqn:C; cbn [res log].
  - intros [= <-]. right. exists (vcvars_of h vs_path), c, fs'.
    split; [exact R |]. split; [lia |]. split; [left; reflexivity | reflexivity].
  - intros [= <-]. left. reflexivity.
Qed.

Lemma setup_msvc_skips h s :
  is_windows h = true ->
  on_PATH h s "cl" = true ->
  is_Some (environ s !! "INCLUDE") ->
  res (Configure.setup_msvc_environment h s) = Ok (environ s) /\
  Forall not_spawn (log (Configure.setup_msvc_environment h s)).
Proof.
  intros W Hcl Hinc. unfold Configure.setup_msvc_environment.
  rewrite bind_run. cbn [get_environ res st log]. rewrite W. cbn [negb].
  rewrite bind_run, check_command_run. cbn [res st log]. rewrite Hcl.
  rewrite bool_decide_eq_true_2 by exact Hinc. cbn.
  split; [reflexivity | repeat constructor].
Qed.

(** When the marker test fails, [setup_msvc_environment] is the search
    for the installation followed by the run of its script. *)
Lemma setup_msvc_extracts h s :
  is_windows h = true ->
  already_configured h s = false ->
  Configure.setup_msvc_environment h s =
  let found := Configure.locate_visual_studio h s in
  match res found with
  | Ok vs_path =>
      let run := Configure.run_vcvarsall h "MSVC environment configured" (environ s)
                   vs_path (st found) in
      mkOut (res run) (st run) (log found ++ log run)
  | Raise e => mkOut (Raise e) (st found) (log found)
  end.
Proof.
  intros W Hn. unfold Configure.setup_msvc_environment, already_configured in *.
  rewrite bind_run. cbn [get_environ res st log]. rewrite W. cbn [negb].
  rewrite bind_run, check_command_run. cbn [res st log]. rewrite Hn.
  unfold Configure.extract_msvc_environment. rewrite bind_run.
  destruct (res (Configure.locate_visual_studio h s)); reflexivity.
Qed.

Lemma setup_msvc_merges h s env' :
  res (Configure.setup_msvc_environment h s) = Ok env' ->
  env' = environ s \/
  exists vcvars c fs fs',
    spawn h {| rq_cmd := Configure.vcvars_command h vcvars; rq_cwd := None;
               rq_env := environ s |} fs = Some (c, fs') /\
    returncode c = 0 /\
    In (Run (Configure.vcvars_command h vcvars) None None)
      (log (Configure.setup_msvc_environment h s)) /\
    env' = Configure.store_lines (Text.splitlines (stdout c)) (environ s).
Proof.
  unfold Configure.setup_msvc_environment.
  rewrite bind_run. cbn [get_environ res st log].
  destruct (is_windows h); cbn [negb].
  2: { cbn. intros [= <-]. left. reflexivity. }
  rewrite bind_run, check_command_run. cbn [res st log].
  destruct (on_PATH h s "cl" && bool_decide (is_Some (environ s !! "INCLUDE"))).
  { cbn. intros [= <-]. left. reflexivity. }
  unfold Configure.extract_msvc_environment. rewrite bind_run.
  destruct (locate_keeps_environ h s) as (Henv & _ & _).
  destruct (res (Configure.locate_visual_studio h s)) as [vs_path | e];
    cbn [res st log]; [| discriminate].
  intros H. apply run_vcvarsall_cases in H as Hcases.
  destruct Hcases as [-> | (vcvars & c & fs' & R & C & Hin & ->)]; [left; reflexivity |].
  right. exists vcvars, c, (files (st (Configure.locate_visual_studio h s))), fs'.
  rewrite Henv in R. split; [exact R |]. split; [exact C |]. split; [| reflexivity].
  rewrite !in_app_iff. tauto.
Qed.

(** The installation is there and so is its script: the script is run,
    and its exit code decides between the merged dump and the unchanged
    copy. *)
Lemma setup_msvc_runs_script h s vs_path c fs' :
  is_windows h = true ->
  already_configured h s = false ->
  res (Configure.locate_visual_studio h s) = Ok vs_path ->
  vs_path <> "" ->
  files (st (Configure.locate_visual_studio h s)) (vcvars_of h vs_path) = true ->
  spawn h {| rq_cmd := Configure.vcvars_command h (vcvars_of h vs_path);
             rq_cwd := None; rq_env := environ s |}
    (files (st (Configure.locate_visual_studio h s))) = Some (c, fs') ->
  In (Run (Configure.vcvars_command h (vcvars_of h vs_path)) None None)
    (log (Configure.setup_msvc_environment h s)) /\
  res (Configure.setup_msvc_environment h s)
  = Ok (if returncode c =? 0
        then Configure.store_lines (Text.splitlines (stdout c)) (environ s)
        else environ s) /\
  (returncode c <> 0 ->
   In (Say Warning (Configure.vcvars_failure h (vcvars_of h vs_path)
                      (CalledProcessError (returncode c))))
     (log (Configure.setup_msvc_environment h s))).
Proof.
  intros W Hn Hf Hv He R.
  rewrite (setup_msvc_extracts h s W Hn). cbv zeta. rewrite Hf.
  destruct (locate_keeps_environ h s) as (Henv & _ & _). unfold same_environ in Henv.
  rewrite run_vcvarsall_run. cbv zeta.
  apply String.eqb_neq in Hv. rewrite Hv, He. cbn [negb]. rewrite Henv, R.
  destruct (returncode c =? 0) eqn:C; cbn [res st log].
  - split; [rewrite in_app_iff; right; left; reflexivity |].
    split; [reflexivity |]. intros Hne. apply Z.eqb_eq in C. contradiction.
  - split; [rewrite in_app_iff; right; left; reflexivity |].
    split; [reflexivity |]. intros _. rewrite in_app_iff. right. right. left. reflexivity.
Qed.

(** No installation, or an installation without its script: the copy
    comes back as it is, and no shell was started. *)
Lemma setup_msvc_finds_nothing h s vs_path :
  is_windows h = true ->
  already_configured h s = false ->
  res (Configure.locate_visual_studio h s) = Ok vs_path ->
  vs_path = "" \/ files (st (Configure.locate_visual_studio h s)) (vcvars_of h vs_path) = false ->
  res (Configure.setup_msvc_environment h s) = Ok (environ s) /\
  Forall not_shell (log (Configure.setup_msvc_environment h s)).
Proof.
  intros W Hn Hf Hcase.
  rewrite (setup_msvc_extracts h s W Hn). cbv zeta. rewrite Hf.
  assert (Hl : Forall not_shell (log (Configure.locate_visual_studio h s))).
  { rewrite locate_visual_studio_run. cbv zeta.
    destruct (files s (chosen_vswhere h s)); [| constructor].
    destruct (spawn h _ (files s)) as [[c fs] |]; repeat constructor. }
  rewrite run_vcvarsall_run. cbv zeta.
  destruct (String.eqb vs_path "") eqn:E.
  - cbn [res log]. split; [reflexivity |].
    apply Forall_app. split; [exact Hl | repeat constructor].
  - destruct Hcase as [-> | He]; [discriminate E |].
    rewrite He. cbn [negb res log]. split; [reflexivity |].
    apply Forall_app. split; [exact Hl | repeat constructor].
Qed.

(** The message of the success path does not change what is returned. *)
Lemma run_vcvarsall_message h m1 m2 env vs_path s :
  res (Configure.run_vcvarsall h m1 env vs_path s)
  = res (Configure.run_vcvarsall h m2 env vs_path s).
Proof.
  rewrite !run_vcvarsall_run. cbv zeta.
  destruct (String.eqb vs_path ""); [reflexivity |].
  destruct (negb (files s (vcvars_of h vs_path))); [reflexivity |].
  destruct (spawn h _ (files s)) as [[c fs'] |]; [| reflexivity].
  destruct (returncode c =? 0); reflexivity.
Qed.

(** install_deps.py keeps a copy of the function, with a cache in front. *)
Lemma installer_msvc_environment h s :
  (forall cached,
      InstallDeps._setup_msvc_environment h (Some cached) s
      = mkOut (Ok (cached, Some cached)) s []) /\
  res (InstallDeps._setup_msvc_environment h None s)
  = match res (Configure.setup_msvc_environment h s) with
    | Ok env => Ok (env, if is_windows h then Some env else None)
    | Raise e => Raise e
    end.
Proof.
  split; [reflexivity |].
  unfold InstallDeps._setup_msvc_environment, Configure.setup_msvc_environment.
  rewrite !bind_run. cbn [get_environ res st log].
  destruct (is_windows h); cbn [negb]; [| reflexivity].
  rewrite !bind_run, !check_command_run. cbn [res st log].
  destruct (on_PATH h s "cl" && bool_decide (is_Some (environ s !! "INCLUDE")));
    [reflexivity |].
  rewrite bind_run. unfold Configure.extract_msvc_environment. rewrite !bind_run.
  destruct (res (Configure.locate_visual_studio h s)) as [vs_path | e];
    cbn [res st log]; [| reflexivity].
  rewrite (run_vcvarsall_message h "MSVC environment configured for Conan build"
             "MSVC environment configured").
  destruct (res (Configure.run_vcvarsall h _ _ _ _)); reflexivity.
Qed.




(** ** C9: who changes the environment, and who gets which *)

Lemma setup_msvc_keeps_environ h :
  obeys same_environ anything anything (Configure.setup_msvc_environment h).
Proof. obey. Qed.

Ltac env_leaf :=
  first [ exact Logic.I
        | reflexivity
        | intros Hc; simpl in Hc; first [ discriminate | reflexivity ]
        | intros Hc; unfold Configure.vswhere_query in Hc; simpl in Hc;
          repeat match type of Hc with
                 | context [if ?b then _ else _] => destruct b
                 end;
          rewrite vswhere_not_cmake in Hc; discriminate ].

Lemma configure_has_env_always h config :
  obeys any_move configure_has_env anything (Configure.configure h config).
Proof. obey_with env_leaf. Qed.

Lemma main_touches_PATH_only h args :
  obeys same_but_PATH anything anything (Configure.main h args).
Proof. obey. Qed.

Lemma subprocess_run_log h cmd cwd env check s :
  log (subprocess_run h cmd cwd env check s) = [Run cmd cwd env].
Proof.
  unfold subprocess_run.
  destruct (spawn h _ (files s)) as [[c fs] |]; [| reflexivity].
  destruct (check && negb (returncode c =? 0)); reflexivity.
Qed.

Lemma setup_compiler_msvc h compiler :
  Configure.among_or_none compiler ["msvc"; "cl"] = true ->
  Configure.setup_compiler h compiler = ret [].
Proof.
  destruct compiler as [c |]; [| reflexivity].
  cbn. rewrite !orb_true_iff.
  intros [E | [E | E]]; try discriminate;
    apply String.eqb_eq in E; subst c; reflexivity.
Qed.

Lemma conan_defines_run h config s :
  exists defines says,
    Configure.conan_defines h config s = mkOut (Ok defines) s says.
Proof.
  unfold Configure.conan_defines, Configure.find_conan_toolchain.
  destruct (Configure.use_conan config); [| cbn; eauto].
  rewrite !bind_run. cbn [exists_ res st log].
  destruct (files s _); cbn; eauto.
Qed.

Lemma configure_passes_snapshot h config s env :
  is_windows h = true ->
  Configure.among_or_none (Configure.compiler config) ["msvc"; "cl"] = true ->
  res (Configure.setup_msvc_environment h (st (mkdir (Configure.get_build_dir config) s)))
  = Ok env ->
  exists cmd,
    In (Run (Argv ("cmake" :: cmd)) (Some (Configure.project_root config)) (Some env))
      (log (Configure.configure h config s)).
Proof.
  intros W Hc Henv. unfold Configure.configure.
  rewrite bind_run. cbn [say emit res st log].
  rewrite bind_run.
  set (s1 := st (mkdir (Configure.get_build_dir config) s)) in *.
  replace (res (mkdir (Configure.get_build_dir config) s)) with (@Ok unit tt) by reflexivity.
  cbn [res st log].
  rewrite (setup_compiler_msvc h _ Hc). rewrite bind_run. cbn [ret res st log].
  rewrite bind_run.
  destruct (conan_defines_run h config s1) as (defines & says & ->).
  cbn [res st log]. rewrite bind_run. cbn [say emit res st log].
  rewrite bind_run. cbn [get_environ res st log].
  rewrite W, Hc. cbn [andb]. rewrite bind_run, Henv. cbn [res st log].
  rewrite bind_run, subprocess_run_log.
  eexists.
  destruct (res (subprocess_run _ _ _ _ _ _)); cbn [log];
    rewrite !in_app_iff; cbn; eauto 10.
Qed.

(** C9, as the code has it.  [setup_msvc_environment] leaves
    [os.environ] as it found it and returns a mapping of its own; every
    configure command is spawned with [env=], and on Windows with an
    MSVC-class (or unset) compiler that environment is the mapping that
    [setup_msvc_environment] returns; a whole run of [main] changes no
    variable of [os.environ] other than PATH (which the detection of
    clang-cl may prepend to). *)
Theorem environment_snapshot (h : Host) (s : Machine) :
  environ (st (Configure.setup_msvc_environment h s)) = environ s /\
  (forall config,
      Forall (fun e => is_configure_command e = true -> is_inheriting e = false)
        (log (Configure.configure h config s))) /\
  (forall config env,
      is_windows h = true ->
      Configure.among_or_none (Configure.compiler config) ["msvc"; "cl"] = true ->
      res (Configure.setup_msvc_environment h
             (st (mkdir (Configure.get_build_dir config) s))) = Ok env ->
      exists cmd,
        In (Run (Argv ("cmake" :: cmd)) (Some (Configure.project_root config)) (Some env))
          (log (Configure.configure h config s))) /\
  (forall args name,
      name <> "PATH" ->
      environ (st (Configure.main h args s)) !! name = environ s !! name).
Proof.
  split; [destruct (setup_msvc_keeps_environ h s) as (H & _); exact H |].
  split; [intros config; destruct (configure_has_env_always h config s) as (_ & H & _); exact H |].
  split; [intros config env; apply configure_passes_snapshot |].
  intros args name Hne.
  destruct (main_touches_PATH_only h args s) as (H & _). apply H. exact Hne.
Qed.

Lemma environment_snapshot_witness :
  is_windows windows_box = true /\
  Configure.among_or_none (Configure.compiler msvc_config) ["msvc"; "cl"] = true /\
  res (Configure.setup_msvc_environment windows_box
         (st (mkdir (Configure.get_build_dir msvc_config) office))) = Ok office_snapshot /\
  exists cmd,
    In (Run (Argv ("cmake" :: cmd)) (Some (Configure.project_root msvc_config))
          (Some office_snapshot))
      (log (Configure.configure windows_box msvc_config office)).
Proof.
  split; [reflexivity |]. split; [reflexivity |].
  split; [vm_compute; reflexivity |].
  apply (environment_snapshot windows_box office);
    [reflexivity | reflexivity | vm_compute; reflexivity].
Defined.

(** C9 as stated fails on two counts.  Detecting clang-cl writes to the
    ambient environment: on the Windows box, where LLVM is installed but
    not on PATH, [detect_clang] leaves a longer PATH in [os.environ].
    And the Conan install command of configure.py is spawned without
    [env=]: it inherits the ambient environment. *)
Lemma detection_mutates_PATH_and_conan_inherits :
  environ office !! "PATH" = Some "C:\Windows" /\
  environ (st (Configure.detect_clang windows_box office)) !! "PATH"
  = Some "C:\Program Files\LLVM\bin;C:\Windows" /\
  existsb (fun e => is_conan_command e && is_inheriting e)
    (log (Configure.main linux_box all_args (desk []))) = true.
Proof.
  split; [vm_compute; reflexivity |].
  split; vm_compute; reflexivity.
Qed.

(** ** C7: the configure command *)

Ltac plain_leaf :=
  first [ exact Logic.I
        | reflexivity
        | solve [ split; [ reflexivity | discriminate ] ]
        | solve [ split; [ | discriminate ];
                  unfold Configure.vswhere_query; simpl;
                  repeat match goal with
                         | |- context [if ?b then _ else _] => destruct b
                         end;
                  apply vswhere_not_cmake ]
        | solve [ unfold compiler_overrides;
                  repeat match goal with H : _ = _ |- _ => rewrite H end;
                  reflexivity ] ].

Lemma setup_compiler_overrides h compiler :
  obeys same_files plain
    (fun args => Configure.define <$> args = compiler_overrides compiler)
    (Configure.setup_compiler h compiler).
Proof. obey_with plain_leaf. Qed.

Lemma msvc_environment_plain h :
  obeys any_move plain anything (Configure.setup_msvc_environment h).
Proof. obey_with plain_leaf. Qed.

Lemma is_prefix_longer (p : Path) (name : string) : is_prefix (p // name) p = false.
Proof.
  unfold subpath. induction p as [| a p IH]; simpl; [reflexivity |].
  rewrite IH. apply andb_false_r.
Qed.

Lemma conan_defines_spec h config s :
  Configure.conan_defines h config s
  = mkOut (Ok (conan_part h config (files s (toolchain_file config)))) s
      (if Configure.use_conan config && negb (files s (toolchain_file config))
       then [toolchain_warning] else []).
Proof.
  unfold Configure.conan_defines, Configure.find_conan_toolchain, conan_part.
  destruct (Configure.use_conan config); [| reflexivity].
  rewrite !bind_run. cbn [exists_ res st log].
  fold (toolchain_file config).
  destruct (files s (toolchain_file config)); reflexivity.
Qed.

Lemma mkdir_keeps_toolchain config s :
  files (st (mkdir (Configure.get_build_dir config) s)) (toolchain_file config)
  = files s (toolchain_file config).
Proof. cbn [mkdir st files]. unfold toolchain_file. rewrite is_prefix_longer. reflexivity. Qed.

Lemma assembled_command h config args on_disk :
  Configure.define <$> args = compiler_overrides (Configure.compiler config) ->
  ((((((["cmake"] ++ Configure.setup_build_system (Configure.build_system config))
       ++ (Configure.define <$> args))
      ++ ["-DCMAKE_BUILD_TYPE=" +:+ Configure.build_type config])
     ++ ["-DCLIENT_BUILD_TESTS=" +:+ (if Configure.build_tests config then "ON" else "OFF")])
    ++ conan_part h config on_disk)
   ++ Configure.cmake_args config)
  ++ ["-S"; path_str h (Configure.project_root config);
      "-B"; path_str h (Configure.get_build_dir config)]
  = configure_command h config on_disk.
Proof.
  intros ->. unfold configure_command, generator_flag, Configure.setup_build_system,
    build_type_define, tests_define, directory_flags.
  rewrite <- !app_assoc. reflexivity.
Qed.

(** The log of [configure], piece by piece. *)
Lemma configure_run h config s :
  let on_disk := files s (toolchain_file config) in
  let warn := if Configure.use_conan config && negb on_disk
              then [toolchain_warning] else [] in
  let run := Configure.configure h config s in
  exists before, Forall plain before /\
    ((exists e,
         res run = Raise e /\ log run = before /\
         res (Configure.setup_compiler h (Configure.compiler config)
                (st (mkdir (Configure.get_build_dir config) s))) = Raise e) \/
     (exists e middle,
         res run = Raise e /\ log run = before ++ warn ++ middle /\ Forall plain middle /\
         is_windows h = true) \/
     (exists env middle after,
         log run = before ++ warn ++ middle
                   ++ [Run (Argv (configure_command h config on_disk))
                         (Some (Configure.project_root config)) (Some env)]
                   ++ after /\
         Forall plain middle /\ Forall plain after)).
Proof.
  intros on_disk warn run. subst run. unfold Configure.configure.
  rewrite bind_run. cbn [say emit res st log]. rewrite bind_run.
  replace (res (mkdir (Configure.get_build_dir config) s)) with (@Ok unit tt) by reflexivity.
  replace (log (mkdir (Configure.get_build_dir config) s)) with (@nil event) by reflexivity.
  set (s1 := st (mkdir (Configure.get_build_dir config) s)).
  cbn [res st log]. rewrite bind_run.
  destruct (setup_compiler_overrides h (Configure.compiler config) s1) as (Hf & Hl3 & Hr3).
  set (l3 := log (Configure.setup_compiler h (Configure.compiler config) s1)) in *.
  exists (Say Header "Configuring CMake" :: l3).
  split; [constructor; [split; [reflexivity | discriminate] | exact Hl3] |].
  destruct (res (Configure.setup_compiler h (Configure.compiler config) s1))
    as [args | e] eqn:R3; cbn [res st log].
  2: { left. exists e. repeat split; reflexivity. }
  set (s2 := st (Configure.setup_compiler h (Configure.compiler config) s1)) in *.
  assert (Hdisk : files s2 (toolchain_file config) = on_disk).
  { rewrite Hf. apply mkdir_keeps_toolchain. }
  rewrite bind_run, conan_defines_spec, Hdisk. fold warn. cbn [res st log].
  rewrite bind_run. cbn [say emit res st log].
  rewrite bind_run. cbn [get_environ res st log]. rewrite bind_run.
  set (produce := if is_windows h &&
                     Configure.among_or_none (Configure.compiler config) ["msvc"; "cl"]
                  then Configure.setup_msvc_environment h else ret (environ s2)).
  assert (Hp : obeys any_move plain anything produce).
  { subst produce.
    destruct (is_windows h &&
              Configure.among_or_none (Configure.compiler config) ["msvc"; "cl"]);
      [apply msvc_environment_plain | apply (obeys_ret any_move plain); exact Logic.I]. }
  destruct (Hp s2) as (_ & Hl7 & _).
  rewrite (assembled_command h config args on_disk Hr3).
  set (running := Say Info _).
  destruct (res (produce s2)) as [env | e] eqn:Hraise; cbn [res st log].
  - right. right. rewrite bind_run, subprocess_run_log.
    exists env, (running :: log (produce s2)).
    destruct (res (subprocess_run _ _ _ _ _ _)) as [result | e]; cbn [res st log].
    + destruct (negb (returncode result =? 0)); cbn [say emit bind ret res st log].
      * eexists. split; [| split].
        -- cbn [app]. reflexivity.
        -- constructor; [split; [reflexivity | discriminate] | exact Hl7].
        -- repeat constructor. discriminate.
      * eexists. split; [| split].
        -- cbn [app]. reflexivity.
        -- constructor; [split; [reflexivity | discriminate] | exact Hl7].
        -- repeat constructor. discriminate.
    + exists []. split; [| split].
      * cbn [app]. reflexivity.
      * constructor; [split; [reflexivity | discriminate] | exact Hl7].
      * constructor.
  - right. left. exists e, (running :: log (produce s2)).
    split; [reflexivity |]. split; [| split].
    + cbn [app]. reflexivity.
    + constructor; [split; [reflexivity | discriminate] | exact Hl7].
    + subst produce. destruct (is_windows h); [reflexivity |].
      cbn [andb ret res] in Hraise. discriminate.
Qed.

Lemma setup_compiler_total h compiler s :
  is_windows h = false ->
  exists args, res (Configure.setup_compiler h compiler s) = Ok args.
Proof.
  intros W. destruct compiler as [c |]; [| eexists; reflexivity].
  unfold Configure.setup_compiler.
  destruct (Configure.among c ["gcc"; "g++"]); [eexists; reflexivity |].
  destruct (Configure.among c ["clang"; "clang++"]); [eexists; reflexivity |].
  destruct (String.eqb c "clang-cl"); [| eexists; reflexivity].
  unfold Configure._setup_clang_cl_path. rewrite W. eexists. reflexivity.
Qed.

Lemma toolchain_define_present h config on_disk :
  In (toolchain_define h config) (conan_part h config on_disk) <->
  Configure.use_conan config = true /\ on_disk = true.
Proof.
  unfold conan_part, toolchain_define.
  destruct (Configure.use_conan config), on_disk; cbn [In]; split.
  - intros _. split; reflexivity.
  - intros _. left. reflexivity.
  - intros [].
  - intros [_ H]. discriminate H.
  - intros [H | []]. cbn in H. discriminate H.
  - intros [H _]. discriminate H.
  - intros [H | []]. cbn in H. discriminate H.
  - intros [H _]. discriminate H.
Qed.

Lemma plain_not_warning l : Forall plain l -> ~ In toolchain_warning l.
Proof. intros H. apply (Forall_not_In _ _ _ H). intros [_ Hne]. apply Hne. reflexivity. Qed.

Lemma plain_not_configure l :
  Forall plain l -> forall (Q : event -> Prop),
  Forall (fun e => is_configure_command e = true -> Q e) l.
Proof.
  intros H Q. eapply Forall_impl; [exact H |].
  intros e [Hn _] Hc. rewrite Hn in Hc. discriminate.
Qed.

Lemma warn_not_configure (b : bool) (Q : event -> Prop) :
  Forall (fun e => is_configure_command e = true -> Q e)
    (if b then [toolchain_warning] else []).
Proof. destruct b; repeat constructor. intros H. discriminate H. Qed.

Lemma in_warn (b : bool) :
  In toolchain_warning (if b then [toolchain_warning] else []) <-> b = true.
Proof.
  destruct b; cbn; split; intros H; auto; try contradiction; discriminate H.
Qed.

(** C7, as the code has it.  Let [on_disk] tell whether the toolchain
    file of Conan exists under the build directory.  Every configure
    command that [configure] spawns is

      cmake, the generator flag (absent without a generator), the compiler
      overrides, the build-type define, the test-flag define, the defines
      of the dependency manager, the trailing arguments as given,
      [-S <project root> -B <build directory>]

    in this order; it is spawned whenever [configure] returns, and on
    every machine that is not Windows.  The toolchain-file define is part
    of it exactly when Conan is in use and the file is on disk.  The
    warning is printed only when Conan is in use and the file is missing,
    and then always before [configure] returns; without Conan nothing is
    looked up and nothing is warned about. *)
Theorem configure_command_shape (h : Host) (config : Configure.BuildConfig) (s : Machine) :
  Forall (fun e => is_configure_command e = true ->
                   spawns_configure config
                     (configure_command h config (files s (toolchain_file config))) e)
    (log (Configure.configure h config s)) /\
  (forall ok, res (Configure.configure h config s) = Ok ok ->
     Exists (spawns_configure config
               (configure_command h config (files s (toolchain_file config))))
       (log (Configure.configure h config s))) /\
  (is_windows h = false ->
     Exists (spawns_configure config
               (configure_command h config (files s (toolchain_file config))))
       (log (Configure.configure h config s))) /\
  (In (toolchain_define h config)
      (conan_part h config (files s (toolchain_file config))) <->
   Configure.use_conan config = true /\ files s (toolchain_file config) = true) /\
  (In toolchain_warning (log (Configure.configure h config s)) ->
   Configure.use_conan config = true /\ files s (toolchain_file config) = false) /\
  (forall ok, res (Configure.configure h config s) = Ok ok ->
     Configure.use_conan config = true -> files s (toolchain_file config) = false ->
     In toolchain_warning (log (Configure.configure h config s))).
Proof.
  destruct (configure_run h config s) as (before & Hb & Hcases).
  cbv zeta in Hcases.
  set (on_disk := files s (toolchain_file config)) in *.
  set (run := Configure.configure h config s) in *.
  set (cmd := configure_command h config on_disk) in *.
  assert (Hspawned :
    forall env middle after,
      Exists (spawns_configure config cmd)
        (before ++ (if Configure.use_conan config && negb on_disk
                    then [toolchain_warning] else [])
         ++ middle
         ++ [Run (Argv cmd) (Some (Configure.project_root config)) (Some env)] ++ after)).
  { intros env middle after. rewrite !Exists_app. right. right. right. left.
    constructor. exists env. reflexivity. }
  split; [| split; [| split; [| split; [| split]]]].
  - destruct Hcases as [(e & _ & -> & _) | [(e & middle & _ & -> & Hm & _)
                                           | (env & middle & after & -> & Hm & Ha)]].
    + apply plain_not_configure. exact Hb.
    + repeat (apply Forall_app; split);
        first [apply plain_not_configure; assumption | apply warn_not_configure].
    + repeat (apply Forall_app; split);
        first [apply plain_not_configure; assumption | apply warn_not_configure | idtac].
      repeat constructor. intros _. exists env. reflexivity.
  - intros ok Hok.
    destruct Hcases as [(e & Hr & _) | [(e & middle & Hr & _)
                                       | (env & middle & after & -> & _)]];
      [rewrite Hok in Hr; discriminate | rewrite Hok in Hr; discriminate | apply Hspawned].
  - intros W.
    destruct Hcases as [(e & _ & _ & Hr) | [(e & middle & _ & _ & _ & W')
                                           | (env & middle & after & -> & _)]].
    + destruct (setup_compiler_total h (Configure.compiler config)
                  (st (mkdir (Configure.get_build_dir config) s)) W) as (args & Hargs).
      rewrite Hargs in Hr. discriminate.
    + rewrite W in W'. discriminate.
    + apply Hspawned.
  - apply toolchain_define_present.
  - intros Hin.
    assert (Hw : Configure.use_conan config && negb on_disk = true).
    { destruct Hcases as [(e & _ & Hl & _) | [(e & middle & _ & Hl & Hm & _)
                                             | (env & middle & after & Hl & Hm & Ha)]];
        rewrite Hl in Hin.
      - exfalso. exact (plain_not_warning _ Hb Hin).
      - rewrite !in_app_iff in Hin. destruct Hin as [Hin | [Hin | Hin]].
        + exfalso. exact (plain_not_warning _ Hb Hin).
        + apply in_warn. exact Hin.
        + exfalso. exact (plain_not_warning _ Hm Hin).
      - rewrite !in_app_iff in Hin.
        destruct Hin as [Hin | [Hin | [Hin | [Hin | Hin]]]].
        + exfalso. exact (plain_not_warning _ Hb Hin).
        + apply in_warn. exact Hin.
        + exfalso. exact (plain_not_warning _ Hm Hin).
        + destruct Hin as [Hin | []]. discriminate Hin.
        + exfalso. exact (plain_not_warning _ Ha Hin). }
    apply andb_true_iff in Hw. destruct Hw as (Hu & Hd).
    split; [exact Hu | apply negb_true_iff; exact Hd].
  - intros ok Hok Hu Hd.
    destruct Hcases as [(e & Hr & _) | [(e & middle & Hr & _)
                                       | (env & middle & after & -> & _)]];
      [rewrite Hok in Hr; discriminate | rewrite Hok in Hr; discriminate |].
    rewrite Hu, Hd. cbn [andb negb]. rewrite !in_app_iff. right. left. left. reflexivity.
Qed.

Lemma configure_command_shape_witness :
  is_windows linux_box = false /\
  Exists (spawns_configure conan_config
            (configure_command linux_box conan_config
               (files (desk []) (toolchain_file conan_config))))
    (log (Configure.configure linux_box conan_config (desk []))).
Proof.
  split; [reflexivity |].
  apply (configure_command_shape linux_box conan_config (desk [])). reflexivity.
Defined.

(** C7 as stated fails without Conan: the toolchain file is missing, the
    define is left out, and no warning is printed. *)
Lemma no_conan_no_warning :
  Configure.use_conan plain_config = false /\
  files (desk []) (toolchain_file plain_config) = false /\
  existsb is_toolchain_warning (log (Configure.configure linux_box plain_config (desk [])))
  = false /\
  existsb is_configure_command (log (Configure.configure linux_box plain_config (desk [])))
  = true /\
  existsb is_toolchain_warning (log (Configure.configure linux_box conan_config (desk [])))
  = true.
Proof.
  split; [reflexivity |]. split; [reflexivity |].
  split; [vm_compute; reflexivity |]. split; vm_compute; reflexivity.
Qed.

(** ** C5: Release dependencies for a RelWithDebInfo build *)

Lemma vswhere_not_conan h (p : Path) :
  String.eqb (path_str h (p // "vswhere.exe")) "conan" = false.
Proof.
  apply String.eqb_neq. intros E.
  pose proof (join_last_length (sep h) p "vswhere.exe") as Hlen.
  unfold path_str, subpath in E. rewrite E in Hlen. simpl in Hlen. lia.
Qed.

Ltac other_command :=
  split; intros Hc; unfold Configure.vswhere_query in Hc; simpl in Hc;
  first [ discriminate Hc
        | repeat match type of Hc with
                 | context [if ?b then _ else _] => destruct b
                 end;
          first [ rewrite vswhere_not_conan in Hc | rewrite vswhere_not_cmake in Hc ];
          discriminate Hc ].

Ltac release_leaf :=
  first [ exact Logic.I
        | reflexivity
        | solve [ other_command ]
        | solve [ split; intros Hc;
                  [ reflexivity
                  | simpl in Hc; discriminate Hc ] ]
        | solve [ split; intros Hc;
                  [ simpl in Hc; discriminate Hc
                  | cbn [argv]; rewrite !in_app_iff;
                    repeat match goal with H : _ = _ |- _ => rewrite H end;
                    simpl; tauto ] ] ].

Section ReleaseDeps.
Context (h : Host).

Lemma setup_conan_release config :
  Configure.build_type config = "RelWithDebInfo" ->
  obeys any_move release_deps_debug_build anything (Configure.setup_conan h config).
Proof.
  intros Hbt.
  assert (Hmap :
    obeys any_move release_deps_debug_build (fun t => t = "Release")
      (if String.eqb (Text.lower (Configure.build_type config)) "relwithdebinfo"
       then say Info "Using Release dependencies for RelWithDebInfo build (saves compilation time)" ;;
            ret "Release"
       else ret (Configure.build_type config))).
  { rewrite Hbt.
    replace (String.eqb (Text.lower "RelWithDebInfo") "relwithdebinfo") with true
      by reflexivity.
    obey_with release_leaf. }
  obey_with release_leaf.
Qed.

Lemma configure_relwithdebinfo config :
  Configure.build_type config = "RelWithDebInfo" ->
  obeys any_move release_deps_debug_build anything (Configure.configure h config).
Proof. intros Hbt. obey_with release_leaf. Qed.

Lemma build_release config :
  Configure.build_type config = "RelWithDebInfo" ->
  obeys any_move release_deps_debug_build anything (Configure.build h config).
Proof.
  intros Hbt.
  pose proof (setup_conan_release config Hbt) as Hconan.
  pose proof (configure_relwithdebinfo config Hbt) as Hconfigure.
  obey_with release_leaf.
Qed.

Lemma main_release args :
  Configure.arg_type args = Some Configure.RelWithDebInfo ->
  obeys any_move release_deps_debug_build anything (Configure.main h args).
Proof.
  intros Ht.
  assert (Hbt :
    obeys any_move release_deps_debug_build (fun t => t = "RelWithDebInfo")
      (Configure.resolve_build_type args (Configure.initial_config h args))).
  { unfold Configure.resolve_build_type. rewrite Ht.
    apply (obeys_ret any_move release_deps_debug_build). reflexivity. }
  pose proof build_release as Hbuild.
  obey_with release_leaf.
Qed.

End ReleaseDeps.

(** Through a [bind], for runs that return and events that occur. *)
Lemma bind_returns {A B} (m : M A) (f : A -> M B) s b :
  res (bind m f s) = Ok b ->
  exists a, res (m s) = Ok a /\ res (f a (st (m s))) = Ok b.
Proof.
  rewrite bind_run. destruct (res (m s)) as [a | e]; cbn [res]; [eauto | discriminate].
Qed.

Lemma bind_occurs_later {A B} (P : event -> Prop) (m : M A) (f : A -> M B) s a :
  res (m s) = Ok a ->
  Exists P (log (f a (st (m s)))) ->
  Exists P (log (bind m f s)).
Proof.
  intros Hr H. rewrite bind_run, Hr. cbn [log]. apply Exists_app. right. exact H.
Qed.

Lemma bind_occurs_first {A B} (P : event -> Prop) (m : M A) (f : A -> M B) s :
  Exists P (log (m s)) -> Exists P (log (bind m f s)).
Proof.
  intros H. rewrite bind_run. destruct (res (m s)); cbn [log];
    [apply Exists_app; left; exact H | exact H].
Qed.

(** Steps over the first part of a [bind] that is known to return. *)
Ltac step_over H :=
  let a := fresh "a" in
  let Ha := fresh "Ha" in
  apply bind_returns in H as (a & Ha & H);
  apply (bind_occurs_later _ _ _ _ a Ha).

Lemma setup_conan_spawns h config s :
  res (Configure.setup_conan h config s) = Ok true ->
  Exists (fun e => is_conan_command e = true) (log (Configure.setup_conan h config s)).
Proof.
  intros H. unfold Configure.setup_conan in *.
  step_over H. step_over H.
  destruct (negb a0).
  { apply bind_returns in H as (? & _ & H). apply bind_returns in H as (? & _ & H).
    discriminate H. }
  step_over H. step_over H. step_over H. step_over H. step_over H.
  apply bind_occurs_first. rewrite subprocess_run_log.
  constructor. reflexivity.
Qed.

Lemma configure_spawns h config s ok :
  res (Configure.configure h config s) = Ok ok ->
  Exists (fun e => is_configure_command e = true) (log (Configure.configure h config s)).
Proof.
  intros Hok. destruct (configure_run h config s) as (before & _ & Hcases).
  cbv zeta in Hcases.
  destruct Hcases as [(e & Hr & _) | [(e & middle & Hr & _)
                                     | (env & middle & after & -> & _)]];
    [rewrite Hok in Hr; discriminate | rewrite Hok in Hr; discriminate |].
  rewrite !Exists_app. right. right. right. left. constructor. reflexivity.
Qed.

Lemma build_spawns_both h config s :
  Configure.use_conan config = true ->
  res (Configure.build h config s) = Ok 0 ->
  Exists (fun e => is_conan_command e = true) (log (Configure.build h config s)) /\
  Exists (fun e => is_configure_command e = true) (log (Configure.build h config s)).
Proof.
  intros Hu H. unfold Configure.build in *. rewrite Hu in *.
  apply bind_returns in H as (a & Ha & H).
  apply bind_returns in H as (installed & Hi & H).
  destruct installed; cbn [negb] in H; [| discriminate H].
  apply bind_returns in H as (configured & Hc & H).
  split.
  - apply (bind_occurs_later _ _ _ _ a Ha). apply bind_occurs_first.
    apply setup_conan_spawns. exact Hi.
  - apply (bind_occurs_later _ _ _ _ a Ha).
    apply (bind_occurs_later _ _ _ _ true Hi). cbn [negb].
    apply bind_occurs_first. apply (configure_spawns _ _ _ configured). exact Hc.
Qed.

Ltac keeps_leaf :=
  first [ exact Logic.I
        | reflexivity
        | solve [ split; [ intros Hc; simpl in Hc; discriminate Hc | reflexivity ] ]
        | solve [ split; [ intros _; reflexivity | reflexivity ] ]
        | solve [ split;
                  [ intros Hc; unfold Configure.vswhere_query in Hc; simpl in Hc;
                    repeat match type of Hc with
                           | context [if ?b then _ else _] => destruct b
                           end;
                    rewrite vswhere_not_conan in Hc; discriminate Hc
                  | unfold Configure.vswhere_query; simpl;
                    repeat match goal with
                           | |- context [if ?b then _ else _] => destruct b
                           end;
                    apply vswhere_not_cmake ] ] ].

(** The installer of its own does not remap: for RelWithDebInfo, in any
    letter case, it asks Conan for RelWithDebInfo artifacts, and it
    spawns no configure command. *)
Lemma installer_keeps_relwithdebinfo h build_type cache :
  Text.lower build_type = "relwithdebinfo" ->
  obeys any_move keeps_relwithdebinfo anything
    (InstallDeps.install_conan_dependencies h build_type cache).
Proof.
  intros Hbt. unfold InstallDeps.install_conan_dependencies. rewrite Hbt.
  replace (String.eqb "relwithdebinfo" "relwithdebinfo") with true by reflexivity.
  obey_with keeps_leaf.
Qed.

(** C5, as the code has it.  In configure.py, with build type
    RelWithDebInfo and Conan in use, in the part of [main] that installs
    and configures: every Conan command that is spawned ends in
    [-s:h=build_type=Release], every configure command carries
    [-DCMAKE_BUILD_TYPE=RelWithDebInfo], and a run that ends with status
    0 has spawned both.  The same holds for the commands of a whole run
    of [main] started with [--type RelWithDebInfo].  The stand-alone
    install_deps.py does not remap: for RelWithDebInfo every Conan
    command it spawns ends in [-s:h=build_type=RelWithDebInfo], and it
    spawns no configure command. *)
Theorem release_dependencies_for_relwithdebinfo
    (h : Host) (config : Configure.BuildConfig) (s : Machine) :
  Configure.build_type config = "RelWithDebInfo" ->
  Configure.use_conan config = true ->
  Forall release_deps_debug_build (log (Configure.build h config s)) /\
  (res (Configure.build h config s) = Ok 0 ->
   Exists (fun e => is_conan_command e = true) (log (Configure.build h config s)) /\
   Exists (fun e => is_configure_command e = true) (log (Configure.build h config s))) /\
  (forall args s',
      Configure.arg_type args = Some Configure.RelWithDebInfo ->
      Forall release_deps_debug_build (log (Configure.main h args s'))) /\
  (forall cache s',
      Forall keeps_relwithdebinfo
        (log (InstallDeps.install_conan_dependencies h (Configure.build_type config) cache s')) /\
      (forall ok cache',
          res (InstallDeps.install_conan_dependencies h (Configure.build_type config) cache s')
          = Ok (ok, cache') ->
          Exists (fun e => is_conan_command e = true)
            (log (InstallDeps.install_conan_dependencies h (Configure.build_type config)
                    cache s')))).
Proof.
  intros Hbt Hu. split; [| split; [| split]].
  - destruct (build_release h config Hbt s) as (_ & H & _). exact H.
  - apply build_spawns_both. exact Hu.
  - intros args s' Ht. destruct (main_release h args Ht s') as (_ & H & _). exact H.
  - intros cache s'. rewrite Hbt. split.
    + destruct (installer_keeps_relwithdebinfo h "RelWithDebInfo" cache eq_refl s')
        as (_ & H & _).
      exact H.
    + intros ok cache' H. unfold InstallDeps.install_conan_dependencies in *.
      cbv zeta in *.
      step_over H. step_over H. step_over H. step_over H.
      apply bind_returns in H as ([env msvc_env] & Hm & H).
      apply (bind_occurs_later _ _ _ _ (env, msvc_env) Hm).
      apply bind_occurs_first. rewrite subprocess_run_log.
      constructor. reflexivity.
Qed.

Lemma release_dependencies_for_relwithdebinfo_witness :
  Configure.build_type conan_config = "RelWithDebInfo" /\
  Configure.use_conan conan_config = true /\
  res (Configure.build linux_box conan_config (desk [])) = Ok 0 /\
  Forall release_deps_debug_build (log (Configure.build linux_box conan_config (desk []))) /\
  Exists (fun e => is_conan_command e = true)
    (log (Configure.build linux_box conan_config (desk []))) /\
  Exists (fun e => is_configure_command e = true)
    (log (Configure.build linux_box conan_config (desk []))).
Proof.
  split; [reflexivity |]. split; [reflexivity |].
  split; [vm_compute; reflexivity |].
  destruct (release_dependencies_for_relwithdebinfo linux_box conan_config (desk [])
              eq_refl eq_refl) as (Hall & Hboth & _).
  split; [exact Hall |]. apply Hboth. vm_compute. reflexivity.
Defined.

(** C5 as stated fails on the installer, which the claim cites as well:
    [install_deps.py --use-conan --build-type RelWithDebInfo] asks Conan
    for RelWithDebInfo artifacts, not for Release ones.  It spawns no
    configure command. *)
Lemma installer_keeps_build_type :
  last (InstallDeps.conan_install_cmd linux_box "RelWithDebInfo" "RelWithDebInfo")
  = Some "-s:h=build_type=RelWithDebInfo" /\
  existsb (fun e => is_conan_command e &&
                    match last (argv e) with
                    | Some a => String.eqb a "-s:h=build_type=RelWithDebInfo"
                    | None => false
                    end)
    (log (InstallDeps.install_conan_dependencies linux_box "RelWithDebInfo" None (desk [])))
  = true /\
  existsb (fun e => is_conan_command e &&
                    match last (argv e) with
                    | Some a => String.eqb a "-s:h=build_type=Release"
                    | None => false
                    end)
    (log (InstallDeps.install_conan_dependencies linux_box "RelWithDebInfo" None (desk [])))
  = false /\
  existsb is_configure_command
    (log (InstallDeps.install_conan_dependencies linux_box "RelWithDebInfo" None (desk [])))
  = false.
Proof. split; [reflexivity |]. repeat split; vm_compute; reflexivity. Qed.

(** ** C10: one build directory for Conan and for CMake *)

Ltac build_dir_leaf :=
  first [ exact Logic.I
        | reflexivity
        | solve [ other_command ]
        | solve [ split; intros Hc;
                  [ cbn [argv]; unfold Configure.conan_install_cmd;
                    eexists [_; _; _], _; reflexivity
                  | simpl in Hc; discriminate Hc ] ]
        | solve [ split; intros Hc;
                  [ simpl in Hc; discriminate Hc
                  | cbn [argv]; eexists; reflexivity ] ] ].

Lemma build_uses_build_dir h config :
  obeys any_move (uses_build_dir h config) anything (Configure.build h config).
Proof. obey_with build_dir_leaf. Qed.

Lemma find_conan_toolchain_spec config s :
  Configure.find_conan_toolchain config s
  = mkOut (Ok (if files s (toolchain_file config) then Some (toolchain_file config) else None))
      s [].
Proof.
  unfold Configure.find_conan_toolchain. rewrite bind_run. cbn [exists_ res st log].
  fold (toolchain_file config). destruct (files s (toolchain_file config)); reflexivity.
Qed.

Lemma bind_state {A B} (m : M A) (f : A -> M B) s a :
  res (m s) = Ok a -> st (bind m f s) = st (f a (st (m s))).
Proof. intros H. rewrite bind_run, H. reflexivity. Qed.

(** After a successful [setup_conan], the toolchain file is where
    [find_conan_toolchain] looks for it. *)
Lemma setup_conan_leaves_toolchain h config s :
  conan_writes_toolchain h config ->
  res (Configure.setup_conan h config s) = Ok true ->
  files (st (Configure.setup_conan h config s)) (toolchain_file config) = true.
Proof.
  intros Hw H. unfold Configure.setup_conan in *.
  apply bind_returns in H as (a & Ha & H). rewrite (bind_state _ _ _ _ Ha).
  apply bind_returns in H as (conan & Hc & H). rewrite (bind_state _ _ _ _ Hc).
  destruct (negb conan).
  { apply bind_returns in H as (? & _ & H). apply bind_returns in H as (? & _ & H).
    discriminate H. }
  apply bind_returns in H as (a1 & Ha1 & H). rewrite (bind_state _ _ _ _ Ha1).
  apply bind_returns in H as (e & He & H). rewrite (bind_state _ _ _ _ He).
  apply bind_returns in H as (profile & Hp & H). rewrite (bind_state _ _ _ _ Hp).
  apply bind_returns in H as (cbt & Hb & H). rewrite (bind_state _ _ _ _ Hb).
  apply bind_returns in H as (a2 & Ha2 & H). rewrite (bind_state _ _ _ _ Ha2).
  apply bind_returns in H as (result & Hr & H). rewrite (bind_state _ _ _ _ Hr).
  match type of Hr with
  | res (subprocess_run _ _ _ _ _ ?before) = _ => set (s5 := before) in *
  end.
  unfold subprocess_run in *.
  destruct (spawn h _ (files s5)) as [[c fs'] |] eqn:R; [| discriminate Hr].
  cbn [andb] in *. cbn [res st] in *. injection Hr as ->.
  destruct (negb (returncode result =? 0)) eqn:C.
  { apply bind_returns in H as (? & _ & H). discriminate H. }
  apply negb_false_iff, Z.eqb_eq in C.
  cbn [say emit bind ret res st files].
  exact (Hw _ _ _ _ _ _ _ R C).
Qed.

Lemma configure_only_spawns h config s :
  Forall (fun e => is_configure_command e = true ->
                   spawns_configure config
                     (configure_command h config (files s (toolchain_file config))) e)
    (log (Configure.configure h config s)).
Proof.
  destruct (configure_run h config s) as (before & Hb & Hcases).
  cbv zeta in Hcases.
  destruct Hcases as [(e & _ & -> & _) | [(e & middle & _ & -> & Hm & _)
                                         | (env & middle & after & -> & Hm & Ha)]].
  - apply plain_not_configure. exact Hb.
  - repeat (apply Forall_app; split);
      first [apply plain_not_configure; assumption | apply warn_not_configure].
  - repeat (apply Forall_app; split);
      first [apply plain_not_configure; assumption | apply warn_not_configure | idtac].
    repeat constructor. intros _. exists env. reflexivity.
Qed.

Lemma setup_conan_not_configure h config :
  obeys any_move not_configure anything (Configure.setup_conan h config).
Proof. obey_with quiet_leaf. Qed.

(** With a Conan that writes its toolchain file, every configure command
    of the build step picks that file up. *)
Lemma build_finds_toolchain h config s :
  conan_writes_toolchain h config ->
  Configure.use_conan config = true ->
  Forall (fun e => is_configure_command e = true -> In (toolchain_define h config) (argv e))
    (log (Configure.build h config s)).
Proof.
  intros Hw Hu. unfold Configure.build. rewrite Hu.
  rewrite bind_run.
  set (cleaning := if Configure.clean config then _ else _).
  assert (Hclean : obeys any_move not_configure anything cleaning)
    by (subst cleaning; obey_with quiet_leaf).
  destruct (Hclean s) as (_ & Hl0 & _).
  assert (Hquiet : forall l, Forall not_configure l ->
            Forall (fun e => is_configure_command e = true ->
                             In (toolchain_define h config) (argv e)) l).
  { intros l Hl. eapply Forall_impl; [exact Hl |].
    intros e Hn Hc. unfold not_configure in Hn. rewrite Hn in Hc. discriminate. }
  destruct (res (cleaning s)) as [a | e]; cbn [res st log]; [| apply Hquiet, Hl0].
  apply Forall_app. split; [apply Hquiet, Hl0 |].
  rewrite bind_run.
  set (s1 := st (cleaning s)).
  destruct (setup_conan_not_configure h config s1) as (_ & Hl1 & _).
  destruct (res (Configure.setup_conan h config s1)) as [installed | e] eqn:Hi;
    cbn [res st log]; [| apply Hquiet, Hl1].
  apply Forall_app. split; [apply Hquiet, Hl1 |].
  destruct installed; cbn [negb]; [| constructor].
  rewrite bind_run.
  set (s2 := st (Configure.setup_conan h config s1)).
  pose proof (setup_conan_leaves_toolchain h config s1 Hw Hi) as Hdisk. fold s2 in Hdisk.
  pose proof (configure_only_spawns h config s2) as Hspawn. rewrite Hdisk in Hspawn.
  assert (Hdef : Forall (fun e => is_configure_command e = true ->
                                  In (toolchain_define h config) (argv e))
                   (log (Configure.configure h config s2))).
  { eapply Forall_impl; [exact Hspawn |].
    intros e He Hc. destruct (He Hc) as (env & ->). cbn [argv].
    unfold configure_command, conan_part. rewrite Hu.
    rewrite !in_app_iff. cbn [In]. tauto. }
  destruct (res (Configure.configure h config s2)) as [configured | e];
    cbn [res st log]; [| exact Hdef].
  apply Forall_app. split; [exact Hdef |].
  destruct configured; cbn [negb]; [| constructor].
  apply Hquiet. cbn. repeat constructor.
Qed.

Lemma conan_box_writes_toolchain : conan_writes_toolchain conan_box conan_config.
Proof.
  intros profile bt cwd env fs c fs' H _.
  cbn in H. injection H as _ <-. reflexivity.
Qed.

Lemma installer_leaves_toolchain h build_type cache cache' s :
  installer_writes_toolchain h build_type ->
  res (InstallDeps.install_conan_dependencies h build_type cache s) = Ok (true, cache') ->
  files (st (InstallDeps.install_conan_dependencies h build_type cache s))
    (InstallDeps.get_conan_dir h build_type // "conan_toolchain.cmake") = true.
Proof.
  intros Hw H. unfold InstallDeps.install_conan_dependencies in *. cbv zeta in *.
  apply bind_returns in H as (a & Ha & H). rewrite (bind_state _ _ _ _ Ha).
  apply bind_returns in H as (a0 & Ha0 & H). rewrite (bind_state _ _ _ _ Ha0).
  apply bind_returns in H as (a1 & Ha1 & H). rewrite (bind_state _ _ _ _ Ha1).
  apply bind_returns in H as (env & He & H). rewrite (bind_state _ _ _ _ He).
  apply bind_returns in H as ([env' cached] & Hm & H). rewrite (bind_state _ _ _ _ Hm).
  apply bind_returns in H as (result & Hr & H). rewrite (bind_state _ _ _ _ Hr).
  match type of Hr with
  | res (subprocess_run _ _ _ _ _ ?before) = _ => set (s5 := before) in *
  end.
  unfold subprocess_run in *.
  destruct (spawn h _ (files s5)) as [[c fs'] |] eqn:R; [| discriminate Hr].
  cbn [andb] in *. cbn [res st] in *. injection Hr as ->.
  destruct (negb (returncode result =? 0)) eqn:C.
  { apply bind_returns in H as (? & _ & H). discriminate H. }
  apply negb_false_iff, Z.eqb_eq in C.
  cbn [say emit bind ret res st files].
  exact (Hw _ _ _ _ _ _ R C).
Qed.


Lemma platform_names_agree h : Configure.get_platform_name h = InstallDeps.get_platform_name h.
Proof. reflexivity. Qed.

(** The directory of the installer is the directory of configure.py
    exactly when the platform of the configuration is the one of the
    machine. *)
Lemma installer_directory h args build_type :
  InstallDeps.get_build_dir h build_type
  = Configure.get_build_dir (Configure.set_build_type build_type (Configure.initial_config h args))
  <-> Configure.platform (Configure.initial_config h args) = InstallDeps.get_platform_name h.
Proof.
  unfold InstallDeps.get_build_dir, Configure.get_build_dir. cbn [Configure.initial_config
    Configure.set_build_type Configure.project_root Configure.build_type Configure.platform
    Configure.BuildConfig_init].
  split.
  - intros H. unfold subpath in H. apply app_inj_tail in H as (_ & H). symmetry. exact H.
  - intros ->. reflexivity.
Qed.


Lemma conan_box_installer_writes_toolchain :
  installer_writes_toolchain conan_box "RelWithDebInfo".
Proof.
  intros bt cwd env fs c fs' H _.
  cbn in H. injection H as _ <-. reflexivity.
Qed.



(** ** The search for clang-cl, step by step *)

Lemma append_assoc (a b c : string) : (a +:+ b) +:+ c = a +:+ (b +:+ c).
Proof. induction a as [| x a IH]; [reflexivity | exact (f_equal (String x) IH)]. Qed.

Lemma environ_item_run name s :
  environ_item name s =
  match environ s !! name with
  | Some v => mkOut (Ok v) s []
  | None => mkOut (Raise (KeyError name)) s []
  end.
Proof.
  unfold environ_item. rewrite bind_run. cbn [get_environ res st log].
  destruct (environ s !! name); reflexivity.
Qed.

Lemma try_clang_dirs_step h d rest s :
  Configure.try_clang_dirs h (d :: rest) s =
  let found := Say Success ("Found clang-cl at: " +:+ path_str h (d // "clang-cl.exe")) in
  if files s (d // "clang-cl.exe") then
    match environ s !! "PATH" with
    | None => mkOut (Raise (KeyError "PATH")) s [found]
    | Some old =>
        let s' := with_PATH (path_str h d +:+ pathsep h +:+ old) s in
        if on_PATH h s' "clang-cl"
        then mkOut (Ok true) s' [found; Say Success "clang-cl added to PATH successfully"]
        else let o := Configure.try_clang_dirs h rest s' in
             mkOut (res o) (st o) (found :: log o)
    end
  else Configure.try_clang_dirs h rest s.
Proof.
  cbn [Configure.try_clang_dirs]. cbv zeta.
  rewrite bind_run. cbn [exists_ res st log].
  destruct (files s (d // "clang-cl.exe")).
  - rewrite bind_run. cbn [say emit res st log].
    rewrite bind_run, environ_item_run.
    destruct (environ s !! "PATH") as [old |]; [| reflexivity].
    cbn [res st log]. rewrite bind_run. cbn [environ_set res st log].
    rewrite bind_run, check_command_run. cbn [res st log].
    fold (with_PATH (path_str h d +:+ pathsep h +:+ old) s).
    destruct (on_PATH h (with_PATH (path_str h d +:+ pathsep h +:+ old) s) "clang-cl");
      reflexivity.
  - destruct (Configure.try_clang_dirs h rest s); reflexivity.
Qed.

Lemma searched_nothing h s l : searched h s (mkOut (Ok false) s l).
Proof.
  unfold searched. cbn [res st].
  destruct (environ s !! "PATH") as [old |] eqn:E.
  - exists false, "". split; [reflexivity | split; [reflexivity | discriminate]].
  - auto.
Qed.

Lemma try_clang_dirs_searched h dirs : forall s, searched h s (Configure.try_clang_dirs h dirs s).
Proof.
  induction dirs as [| d rest IH]; intros s.
  - apply searched_nothing.
  - rewrite try_clang_dirs_step. cbv zeta.
    destruct (files s (d // "clang-cl.exe")); [| apply IH].
    unfold searched.
    destruct (environ s !! "PATH") as [old |] eqn:E; [| cbn [res st]; auto].
    set (new := path_str h d +:+ pathsep h +:+ old).
    destruct (on_PATH h (with_PATH new s) "clang-cl") eqn:W.
    + exists true, (path_str h d +:+ pathsep h). cbn [res st].
      repeat split; [| intros _; exact W].
      unfold with_PATH. cbn [environ]. rewrite lookup_insert_eq.
      unfold new. rewrite append_assoc. reflexivity.
    + pose proof (IH (with_PATH new s)) as H. unfold searched in H.
      assert (En : environ (with_PATH new s) !! "PATH" = Some new)
        by (unfold with_PATH; cbn [environ]; apply lookup_insert_eq).
      rewrite En in H. destruct H as (b & pre & Hr & Hp & Hb).
      exists b, (pre +:+ path_str h d +:+ pathsep h). cbn [res st].
      repeat split; [exact Hr | | exact Hb].
      rewrite Hp. unfold new. rewrite !append_assoc. reflexivity.
Qed.

Lemma searched_bind h (m k : M bool) s :
  searched h s (m s) ->
  (forall s', searched h s' (k s')) ->
  searched h s (bind m (fun found => if found then ret true else k) s).
Proof.
  intros Hm Hk. rewrite bind_run. unfold searched in *.
  destruct (environ s !! "PATH") as [old |] eqn:E.
  - destruct Hm as (b & pre & Hr & Hp & Hb). rewrite Hr.
    destruct b.
    + exists true, pre. cbn [ret res st]. auto.
    + pose proof (Hk (st (m s))) as H. rewrite Hp in H.
      destruct H as (b' & pre' & Hr' & Hp' & Hb').
      exists b', (pre' +:+ pre). cbn [res st].
      repeat split; [exact Hr' | | exact Hb'].
      rewrite Hp', append_assoc. reflexivity.
  - destruct Hm as ([Hr | Hr] & Hp); rewrite Hr.
    + pose proof (Hk (st (m s))) as H. rewrite Hp in H. cbn [res st]. exact H.
    + cbn [res st]. auto.
Qed.

Lemma scan_vs_paths_searched h paths : forall s, searched h s (Configure.scan_vs_paths h paths s).
Proof.
  induction paths as [| p rest IH]; intros s.
  - apply searched_nothing.
  - cbn [Configure.scan_vs_paths]. rewrite bind_run. cbn [exists_ res st log].
    destruct (files s p).
    + pose proof (searched_bind h
                    (Configure.try_clang_dirs h
                       [p // "VC" // "Tools" // "Llvm" // "x64" // "bin";
                        p // "VC" // "Tools" // "Llvm" // "bin"])
                    (Configure.scan_vs_paths h rest) s
                    (try_clang_dirs_searched h _ s) IH) as H.
      unfold searched in *. destruct (environ s !! "PATH"); exact H.
    + pose proof (IH s) as H.
      unfold searched in *. destruct (environ s !! "PATH"); exact H.
Qed.

(** The search of [_setup_clang_cl_path], after the two early returns. *)
Lemma search_searched h s :
  searched h s
    ((say Info "clang-cl not in PATH, searching common locations..." ;;
      found <- Configure.scan_vs_paths h Configure.vs_paths ;;
      if found then ret true
      else
        found <- Configure.try_clang_dirs h Configure.llvm_paths ;;
        if found then ret true
        else say Warning "clang-cl not found in common locations" ;; ret false) s).
Proof.
  assert (H : searched h s
                (bind (Configure.scan_vs_paths h Configure.vs_paths)
                   (fun found => if found then ret true
                                 else bind (Configure.try_clang_dirs h Configure.llvm_paths)
                                        (fun found => if found then ret true
                                           else say Warning "clang-cl not found in common locations" ;;
                                                ret false)) s)).
  { apply searched_bind; [apply scan_vs_paths_searched |].
    intros s'. apply searched_bind; [apply try_clang_dirs_searched |].
    intros s''. apply searched_nothing. }
  rewrite bind_run. cbn [say emit res st log].
  unfold searched in *. destruct (environ s !! "PATH"); exact H.
Qed.

Lemma setup_clang_cl_path_run h s :
  is_windows h = true ->
  Configure._setup_clang_cl_path h s =
  if on_PATH h s "clang-cl" then mkOut (Ok true) s []
  else
    (say Info "clang-cl not in PATH, searching common locations..." ;;
     found <- Configure.scan_vs_paths h Configure.vs_paths ;;
     if found then ret true
     else
       found <- Configure.try_clang_dirs h Configure.llvm_paths ;;
       if found then ret true
       else say Warning "clang-cl not found in common locations" ;; ret false) s.
Proof.
  intros W. unfold Configure._setup_clang_cl_path. rewrite W. cbn [negb].
  rewrite bind_run, check_command_run. cbn [res st log].
  destruct (on_PATH h s "clang-cl"); [reflexivity |].
  match goal with |- mkOut (res ?o) (st ?o) ([] ++ log ?o) = _ => destruct o end.
  reflexivity.
Qed.

(** ** C6: no compiler, no configure command *)

Lemma select_build_type_returns :
  returns (fun t => In t build_types) Configure.select_build_type_interactive.
Proof.
  unfold Configure.select_build_type_interactive, build_types.
  do 4 (apply returns_then; [apply returns_say; exact Logic.I | intros _]).
  apply returns_prompt_loop; [simpl; tauto |].
  intros line. cbv zeta.
  destruct (String.eqb (Text.strip line) "" || String.eqb (Text.strip line) "3");
    [apply returns_ret; simpl; tauto |].
  destruct (String.eqb (Text.strip line) "1"); [apply returns_ret; simpl; tauto |].
  destruct (String.eqb (Text.strip line) "2"); [apply returns_ret; simpl; tauto |].
  apply returns_then; [apply returns_say; exact Logic.I | intros _].
  apply returns_ret. exact Logic.I.
Qed.


Lemma resolve_build_type_returns args config s :
  exists t, res (Configure.resolve_build_type args config s) = Ok t /\
            environ (st (Configure.resolve_build_type args config s)) = environ s.
Proof.
  assert (He : obeys same_environ anything anything (Configure.resolve_build_type args config))
    by obey.
  destruct (He s) as (Hs & _ & _).
  unfold Configure.resolve_build_type in *.
  destruct (Configure.arg_type args) as [t |]; [eexists; split; [reflexivity | exact Hs] |].
  destruct (Configure.interactive config); [| eexists; split; [reflexivity | exact Hs]].
  destruct (select_build_type_returns s) as (t & Ht & _). eauto.
Qed.

Lemma detect_clang_returns h s :
  is_Some (environ s !! "PATH") ->
  exists b, res (Configure.detect_clang h s) = Ok b /\
            is_Some (environ (st (Configure.detect_clang h s)) !! "PATH").
Proof.
  intros [old E]. unfold Configure.detect_clang. destruct (is_windows h) eqn:W.
  - rewrite bind_run, check_command_run. cbn [res st log].
    destruct (on_PATH h s "clang-cl") eqn:C.
    + exists true. cbn [ret res st]. split; [reflexivity | eauto].
    + cbn [res st]. rewrite (setup_clang_cl_path_run h s W), C.
      pose proof (search_searched h s) as H. unfold searched in H. rewrite E in H.
      destruct H as (b & pre & Hr & Hp & _). exists b.
      split; [exact Hr | rewrite Hp; eauto].
  - rewrite check_command_run. eexists. split; [reflexivity | cbn [st]; eauto].
Qed.

Lemma detect_msvc_returns h s :
  locator_starts h ->
  exists m, res (Configure.detect_msvc h s) = Ok m.
Proof.
  intros Hs. destruct (is_windows h) eqn:W.
  - rewrite (detect_msvc_run h s W).
    destruct (files s (primary_vswhere h s)); [| eexists; reflexivity].
    destruct (spawn h _ (files s)) as [[c fs] |] eqn:R; [eexists; reflexivity |].
    exfalso. exact (Hs _ _ _ _ R).
  - rewrite (detect_msvc_off_windows h s W). eexists. reflexivity.
Qed.

Lemma detect_msvc_keeps_environ h :
  obeys same_environ anything anything (Configure.detect_msvc h).
Proof. obey. Qed.

Section Diagnostic.
Context (h : Host) (Hnone : no_compiler_available h) (Hstarts : locator_starts h).

Lemma candidates_return_nothing s :
  is_Some (environ s !! "PATH") ->
  res (Configure.compiler_candidates h s) = Ok [].
Proof.
  intros HP. destruct (detect_msvc_returns h s Hstarts) as (m & Hm).
  destruct (detect_msvc_keeps_environ h s) as (Em & _ & _). unfold same_environ in Em.
  destruct (detect_clang_returns h (st (Configure.detect_msvc h s))) as (c & Hc & _).
  { rewrite Em. exact HP. }
  pose proof (compiler_candidates_run h s m c Hm Hc) as Hr.
  destruct (candidates_nothing h Hnone s) as (_ & _ & Hq).
  rewrite Hr in Hq. rewrite Hr, Hq. reflexivity.
Qed.

Lemma auto_detect_returns s :
  is_Some (environ s !! "PATH") ->
  exists c, res (Configure.auto_detect_compiler h s) = Ok c.
Proof.
  intros HP. unfold Configure.auto_detect_compiler, Configure.detect_gcc.
  rewrite bind_run, check_command_run. cbn [res st log].
  destruct (on_PATH h s "g++"); [eexists; reflexivity |].
  rewrite bind_run.
  destruct (detect_clang_returns h s HP) as (c & Hc & _). rewrite Hc. cbn [res st log].
  destruct c; [eexists; reflexivity |].
  rewrite bind_run.
  assert (Hm : exists m, res ((if is_windows h then Configure.detect_msvc h else ret None)
                                (st (Configure.detect_clang h s))) = Ok m).
  { destruct (is_windows h); [apply detect_msvc_returns, Hstarts | eexists; reflexivity]. }
  destruct Hm as (m & Hm). rewrite Hm. cbn [res st log].
  destruct m; eexists; reflexivity.
Qed.

Lemma resolve_compiler_returns_nothing args config s :
  Configure.arg_compiler args = None ->
  is_Some (environ s !! "PATH") ->
  res (Configure.resolve_compiler h args config s) = Ok None.
Proof.
  intros Hc HP. unfold Configure.resolve_compiler. rewrite Hc.
  destruct (Configure.interactive config).
  - unfold Configure.select_compiler_interactive.
    rewrite bind_run, (candidates_return_nothing s HP). reflexivity.
  - destruct (auto_detect_returns s HP) as (c & Hr).
    destruct (auto_detect_nothing h Hnone s) as (_ & Hq). cbv zeta in Hq.
    rewrite Hr in Hq. destruct Hq as (-> & _). exact Hr.
Qed.

Lemma main_returns_one args s :
  Configure.arg_compiler args = None ->
  is_Some (environ s !! "PATH") ->
  res (Configure.main h args s) = Ok 1.
Proof.
  intros Hc HP. unfold Configure.main. cbv zeta.
  rewrite bind_run. cbn [say emit res st log]. rewrite bind_run.
  destruct (resolve_build_type_returns args (Configure.initial_config h args) s)
    as (t & Ht & Et).
  rewrite Ht. cbn [res st log]. rewrite bind_run.
  rewrite resolve_compiler_returns_nothing; [reflexivity | exact Hc |].
  rewrite Et. exact HP.
Qed.

End Diagnostic.


Lemma bare_box_has_no_compiler : no_compiler_available bare_box.
Proof.
  repeat split; try (intros path; reflexivity).
  intros vswhere_path cwd env fs c fs' H. right.
  simpl in H. inversion H. reflexivity.
Qed.

Lemma bare_box_locator_starts : locator_starts bare_box.
Proof. intros p cwd env fs. discriminate. Qed.


Lemma stuck_box_has_no_compiler : no_compiler_available stuck_box.
Proof.
  repeat split; try (intros path; reflexivity).
  intros vswhere_path cwd env fs c fs' H. discriminate H.
Qed.


(** * Further properties of the scripts *)

(** ** The dump of [set] *)

(** Writing the same dump of [NAME=VALUE] lines into an environment a
    second time changes nothing: the merge of [setup_msvc_environment]
    is idempotent. *)
Theorem store_lines_idempotent (lines : list string) (env : gmap string string) :
  Configure.store_lines lines (Configure.store_lines lines env)
  = Configure.store_lines lines env.
Proof.
  apply map_eq. intros name. rewrite !store_lines_lookup.
  destruct (dump_value lines name); reflexivity.
Qed.

(** ** vswhere, asked twice *)

(** [detect_msbuild] runs the probe of [detect_msvc]: on every machine it
    spawns the same command, leaves the same machine, raises the same
    exception, and reports MSBuild exactly when [detect_msvc] reports
    MSVC. *)
Theorem msbuild_agrees_with_msvc (h : Host) (s : Machine) :
  Configure.detect_msbuild h s =
  let o := Configure.detect_msvc h s in
  mkOut (match res o with Ok m => Ok (given m) | Raise e => Raise e end) (st o) (log o).
Proof.
  unfold Configure.detect_msbuild, Configure.detect_msvc.
  destruct (negb (is_windows h)); [reflexivity |].
  rewrite !bind_run. cbn [environ_get get_environ bind ret res st log].
  rewrite !bind_run. cbn [exists_ res st log].
  match goal with |- context [files s ?p] => destruct (files s p) end; [| reflexivity].
  unfold try_except. rewrite !bind_run.
  match goal with
  | |- context [subprocess_run h ?c None None true s] =>
      destruct (subprocess_run h c None None true s) as [[result | e] s' l]
  end; cbn [res st log].
  - destruct (String.eqb (Text.strip (stdout result)) ""); reflexivity.
  - destruct (Configure.is_called_process_error e); reflexivity.
Qed.

(** ** Build directories *)

Lemma lower_type_name_inj (t1 t2 : Configure.type_choice) :
  Text.lower (Configure.type_name t1) = Text.lower (Configure.type_name t2) -> t1 = t2.
Proof. destruct t1, t2; simpl; intros H; first [reflexivity | discriminate H]. Qed.

(** For the configurations that [main] makes on one machine: two of them
    have the same build directory only if they have the same build type
    and the same platform.  So [--type Debug], [Release] and
    [RelWithDebInfo] never share a build directory, nor do two
    platforms. *)
Theorem build_dir_injective (h : Host) (args1 args2 : Configure.Args)
    (t1 t2 : Configure.type_choice) :
  Configure.get_build_dir
    (Configure.set_build_type (Configure.type_name t1) (Configure.initial_config h args1))
  = Configure.get_build_dir
      (Configure.set_build_type (Configure.type_name t2) (Configure.initial_config h args2)) ->
  t1 = t2 /\
  Configure.platform (Configure.initial_config h args1)
  = Configure.platform (Configure.initial_config h args2).
Proof.
  unfold Configure.get_build_dir, subpath.
  cbn [Configure.set_build_type Configure.project_root Configure.build_type Configure.platform].
  intros H. apply app_inj_tail in H as (H & Hp). apply app_inj_tail in H as (_ & Ht).
  split; [apply lower_type_name_inj; exact Ht | exact Hp].
Qed.

Lemma build_dir_injective_witness :
  Configure.get_build_dir
    (Configure.set_build_type (Configure.type_name Configure.Debug)
       (Configure.initial_config linux_box no_args))
  = Configure.get_build_dir
      (Configure.set_build_type (Configure.type_name Configure.Debug)
         (Configure.initial_config linux_box batch_args)) /\
  Configure.Debug = Configure.Debug /\
  Configure.platform (Configure.initial_config linux_box no_args)
  = Configure.platform (Configure.initial_config linux_box batch_args).
Proof.
  split; [reflexivity |].
  apply (build_dir_injective linux_box no_args batch_args Configure.Debug Configure.Debug).
  reflexivity.
Defined.

(** ** Extra arguments for CMake *)

Lemma has_space_append (a : string) (c : ascii) :
  has_space (a +:+ String c "") = has_space a || Text.is_space c.
Proof.
  induction a as [| d a IH]; simpl; [apply orb_false_r |].
  rewrite IH. apply orb_assoc.
Qed.

Lemma append_not_empty (a : string) (c : ascii) : a +:+ String c "" <> "".
Proof. destruct a; discriminate. Qed.

Lemma split_ws_from_words (s cur : string) :
  has_space cur = false -> Forall is_word (Text.split_ws_from cur s).
Proof.
  revert cur. induction s as [| c r IH]; intros cur Hcur; simpl.
  - destruct cur; constructor; [| constructor]. split; [discriminate | exact Hcur].
  - destruct (Text.is_space c) eqn:E.
    + destruct cur.
      * apply IH. reflexivity.
      * constructor; [split; [discriminate | exact Hcur] | apply IH; reflexivity].
    + apply IH. rewrite has_space_append, Hcur, E. reflexivity.
Qed.

(** Whatever is given to [--cmake-args]: every argument that [main]
    hands on to CMake from it is a word, not empty and free of white
    space.  Quotes do not group: the text is split at white space only. *)
Theorem cmake_args_are_words (h : Host) (args : Configure.Args) :
  Forall is_word (Configure.cmake_args (Configure.initial_config h args)).
Proof.
  unfold Configure.initial_config. cbn [Configure.cmake_args].
  destruct (String.eqb (Configure.arg_cmake_args args) "").
  - constructor.
  - apply split_ws_from_words. reflexivity.
Qed.

(** ** The package manager *)

Lemma first_manager_find h items s :
  InstallDeps.first_manager h items s =
  mkOut (Ok (fst <$> List.find (fun m => on_PATH h s (snd m)) items)) s [].
Proof.
  induction items as [| [name cmd] rest IH]; cbn [InstallDeps.first_manager List.find].
  - reflexivity.
  - rewrite bind_run, check_command_run. cbn [res st log snd].
    destruct (on_PATH h s cmd); [reflexivity |].
    rewrite IH. reflexivity.
Qed.

(** [_detect_package_manager] returns the first manager of the list apt,
    dnf, yum, pacman, zypper, brew, choco, scoop whose command is on
    PATH ([apt-get] for apt), and None when none of them is; it prints
    nothing and changes nothing. *)
Theorem first_package_manager_wins (h : Host) (s : Machine) :
  InstallDeps._detect_package_manager h s =
  mkOut (Ok (fst <$> List.find (fun m => on_PATH h s (snd m)) InstallDeps.managers)) s [].
Proof. apply first_manager_find. Qed.

(** ** The build type *)

(** Resolving the build type: with [--type] it is the given choice,
    without a prompt; without [--type] in batch mode it is Release;
    and whatever is typed at the menu, a value that comes back is one of
    Debug, Release and RelWithDebInfo. *)
Theorem build_type_always_valid (args : Configure.Args) (config : Configure.BuildConfig)
    (s : Machine) :
  (forall t, Configure.arg_type args = Some t ->
             Configure.resolve_build_type args config s
             = mkOut (Ok (Configure.type_name t)) s []) /\
  (Configure.arg_type args = None -> Configure.interactive config = false ->
   Configure.resolve_build_type args config s = mkOut (Ok "Release") s []) /\
  (forall r, res (Configure.resolve_build_type args config s) = Ok r -> In r build_types).
Proof.
  unfold Configure.resolve_build_type.
  split; [intros t ->; reflexivity |].
  split; [intros -> ->; reflexivity |].
  intros r.
  destruct (Configure.arg_type args) as [t |].
  - intros [= <-]. destruct t; simpl; tauto.
  - destruct (Configure.interactive config).
    + destruct (select_build_type_returns s) as (t & Ht & Hin).
      rewrite Ht. intros [= <-]. exact Hin.
    + intros [= <-]. simpl. tauto.
Qed.

Lemma build_type_always_valid_witness :
  res (Configure.resolve_build_type no_args (Configure.initial_config linux_box no_args)
         (desk [Typed "7"; Typed "2"])) = Ok "RelWithDebInfo" /\
  In "RelWithDebInfo" build_types.
Proof.
  split; [reflexivity |].
  apply (build_type_always_valid no_args (Configure.initial_config linux_box no_args)
           (desk [Typed "7"; Typed "2"])).
  reflexivity.
Defined.

(** ** The compiler that is resolved *)

Lemma menu_choice_member entries line :
  obeys any_move anything
    (fun r => match r with
              | Some (Some id) => In id (fst <$> entries)
              | _ => True
              end)
    (Configure.menu_choice entries line).
Proof.
  unfold Configure.menu_choice.
  destruct (String.eqb (Text.strip line) "").
  - apply (obeys_ret any_move anything).
    destruct entries as [| e rest]; simpl; [exact Logic.I | tauto].
  - destruct (Text.int (Text.strip line)) as [n |]; [| obey].
    destruct ((0 <=? n - 1) && (n - 1 <? Z.of_nat (length entries))); [| obey].
    apply (obeys_ret any_move anything).
    destruct (entries !! Z.to_nat (n - 1)) as [e |] eqn:E; simpl; [| exact Logic.I].
    apply list_elem_of_In, list_elem_of_fmap_2, list_elem_of_lookup. eauto.
Qed.

Lemma select_compiler_in_priority h :
  obeys any_move anything (in_priority h) (Configure.select_compiler_interactive h).
Proof.
  unfold Configure.select_compiler_interactive.
  eapply (obeys_bind any_move anything); [apply candidates_in_priority |].
  intros compilers Hsub. cbv beta in Hsub.
  destruct compilers as [| c rest]; [obey |].
  apply (obeys_then any_move anything); [obey | intros _].
  apply (obeys_then any_move anything); [obey | intros _].
  apply (obeys_prompt_loop any_move anything); try exact Logic.I.
  intros line.
  eapply (obeys_weaken any_move anything); [apply menu_choice_member |].
  intros [[id |] |] H; try exact Logic.I.
  simpl. apply list_elem_of_In. apply list_elem_of_In in H.
  exact (elem_of_sublist _ _ _ H Hsub).
Qed.

Lemma auto_detect_in_priority h :
  obeys any_move anything (in_priority h) (Configure.auto_detect_compiler h).
Proof.
  unfold Configure.auto_detect_compiler.
  apply (obeys_then any_move anything); [obey | intros gcc].
  destruct gcc.
  { apply (obeys_ret any_move anything). unfold in_priority, compiler_priority.
    destruct (is_windows h); simpl; tauto. }
  apply (obeys_then any_move anything); [obey | intros clang].
  destruct clang.
  { apply (obeys_ret any_move anything). unfold in_priority, compiler_priority.
    destruct (is_windows h); simpl; tauto. }
  destruct (is_windows h) eqn:W.
  - apply (obeys_then any_move anything); [obey | intros msvc].
    destruct msvc; [| obey].
    apply (obeys_ret any_move anything). unfold in_priority, compiler_priority.
    rewrite W. simpl. tauto.
  - apply (obeys_bind any_move anything (fun m : option string => m = None));
      [apply (obeys_ret any_move anything); reflexivity | intros msvc ->].
    obey.
Qed.

(** Without [--compiler], the compiler that [main] settles on, from the
    menu or by detection, is one of the ids of the platform: msvc,
    clang-cl or gcc on Windows, clang or gcc elsewhere. *)
Theorem resolved_compiler_in_priority (h : Host) (args : Configure.Args)
    (config : Configure.BuildConfig) (s : Machine) (c : string) :
  Configure.arg_compiler args = None ->
  res (Configure.resolve_compiler h args config s) = Ok (Some c) ->
  In c (compiler_priority h).
Proof.
  intros Hn Hr. unfold Configure.resolve_compiler in Hr. rewrite Hn in Hr.
  destruct (Configure.interactive config).
  - destruct (select_compiler_in_priority h s) as (_ & _ & H). rewrite Hr in H. exact H.
  - destruct (auto_detect_in_priority h s) as (_ & _ & H). rewrite Hr in H. exact H.
Qed.

Lemma resolved_compiler_in_priority_witness :
  Configure.arg_compiler batch_args = None /\
  res (Configure.resolve_compiler linux_box batch_args
         (Configure.initial_config linux_box batch_args) (desk [])) = Ok (Some "gcc") /\
  In "gcc" (compiler_priority linux_box).
Proof.
  split; [reflexivity |]. split; [reflexivity |].
  apply (resolved_compiler_in_priority linux_box batch_args
           (Configure.initial_config linux_box batch_args) (desk []) "gcc");
    reflexivity.
Defined.

(** ** The search for clang-cl *)

(** On Windows, when [_setup_clang_cl_path] returns True, [clang-cl] is
    found on the PATH that it leaves behind. *)
Theorem clang_cl_found_is_on_PATH (h : Host) (s : Machine) :
  is_windows h = true ->
  res (Configure._setup_clang_cl_path h s) = Ok true ->
  on_PATH h (st (Configure._setup_clang_cl_path h s)) "clang-cl" = true.
Proof.
  intros W. rewrite (setup_clang_cl_path_run h s W).
  destruct (on_PATH h s "clang-cl") eqn:E; [intros _; exact E |].
  pose proof (search_searched h s) as H. unfold searched in H.
  destruct (environ s !! "PATH").
  - destruct H as (b & pre & Hr & _ & Hb). rewrite Hr. intros [= ->]. apply Hb. reflexivity.
  - destruct H as ([Hr | Hr] & _); rewrite Hr; discriminate.
Qed.

Lemma clang_cl_found_is_on_PATH_witness :
  is_windows windows_box = true /\
  res (Configure._setup_clang_cl_path windows_box office) = Ok true /\
  on_PATH windows_box office "clang-cl" = false /\
  on_PATH windows_box (st (Configure._setup_clang_cl_path windows_box office)) "clang-cl" = true.
Proof.
  split; [reflexivity |]. split; [reflexivity |]. split; [reflexivity |].
  apply (clang_cl_found_is_on_PATH windows_box office); reflexivity.
Defined.

(** With PATH set, [_setup_clang_cl_path] returns, on every platform,
    and what it has done to PATH is to put directories in front: the old
    value is the tail of the new one. *)
Theorem clang_cl_search_prepends (h : Host) (s : Machine) (old : string) :
  environ s !! "PATH" = Some old ->
  exists b pre,
    res (Configure._setup_clang_cl_path h s) = Ok b /\
    environ (st (Configure._setup_clang_cl_path h s)) !! "PATH" = Some (pre +:+ old).
Proof.
  intros E. destruct (is_windows h) eqn:W.
  - rewrite (setup_clang_cl_path_run h s W).
    destruct (on_PATH h s "clang-cl").
    + exists true, "". split; [reflexivity | exact E].
    + pose proof (search_searched h s) as H. unfold searched in H. rewrite E in H.
      destruct H as (b & pre & Hr & Hp & _). eauto.
  - unfold Configure._setup_clang_cl_path. rewrite W.
    exists true, "". split; [reflexivity | exact E].
Qed.

Lemma clang_cl_search_prepends_witness :
  environ office !! "PATH" = Some "C:\Windows" /\
  exists b pre,
    res (Configure._setup_clang_cl_path windows_box office) = Ok b /\
    environ (st (Configure._setup_clang_cl_path windows_box office)) !! "PATH"
    = Some (pre +:+ "C:\Windows").
Proof.
  split; [reflexivity |].
  apply (clang_cl_search_prepends windows_box office "C:\Windows"). reflexivity.
Defined.

(** The one exception that [_setup_clang_cl_path] can raise is the
    [KeyError] of [os.environ["PATH"]], and it raises it only on a
    machine whose PATH is not set. *)
Theorem clang_cl_search_raises_only_KeyError (h : Host) (s : Machine) (e : exn) :
  res (Configure._setup_clang_cl_path h s) = Raise e ->
  e = KeyError "PATH" /\ environ s !! "PATH" = None.
Proof.
  destruct (is_windows h) eqn:W.
  - rewrite (setup_clang_cl_path_run h s W).
    destruct (on_PATH h s "clang-cl"); [discriminate |].
    pose proof (search_searched h s) as H. unfold searched in H.
    destruct (environ s !! "PATH").
    + destruct H as (b & pre & Hr & _). rewrite Hr. discriminate.
    + destruct H as ([Hr | Hr] & _); rewrite Hr; [discriminate |].
      intros [= <-]. auto.
  - unfold Configure._setup_clang_cl_path. rewrite W. discriminate.
Qed.

Lemma clang_cl_search_raises_only_KeyError_witness :
  res (Configure._setup_clang_cl_path windows_box office_without_PATH)
  = Raise (KeyError "PATH") /\
  KeyError "PATH" = KeyError "PATH" /\ environ office_without_PATH !! "PATH" = None.
Proof.
  split; [reflexivity |].
  apply (clang_cl_search_raises_only_KeyError windows_box office_without_PATH (KeyError "PATH")).
  reflexivity.
Defined.

(** ** Off Windows *)

Lemma main_off_windows h args :
  is_windows h = false ->
  obeys same_environ not_shell anything (Configure.main h args).
Proof.
  intros W.
  assert (Hc : obeys same_environ not_shell anything (Configure._setup_clang_cl_path h)).
  { unfold Configure._setup_clang_cl_path. rewrite W. cbn [negb]. obey. }
  assert (Hm : obeys same_environ not_shell anything (Configure.setup_msvc_environment h)).
  { unfold Configure.setup_msvc_environment. rewrite W. cbn [negb]. obey. }
  assert (Hd : obeys same_environ not_shell anything (Configure.detect_msvc h)).
  { unfold Configure.detect_msvc. rewrite W. cbn [negb]. obey. }
  assert (Hb : obeys same_environ not_shell anything (Configure.detect_msbuild h)).
  { unfold Configure.detect_msbuild. rewrite W. cbn [negb]. obey. }
  obey.
Qed.

(** On a platform other than Windows, a run of [main] leaves
    [os.environ] as it found it, PATH included, and spawns no shell
    command: the search for clang-cl and the MSVC environment are
    Windows only. *)
Theorem off_windows_environment_untouched (h : Host) (args : Configure.Args) (s : Machine) :
  is_windows h = false ->
  environ (st (Configure.main h args s)) = environ s /\
  Forall not_shell (log (Configure.main h args s)).
Proof.
  intros W. destruct (main_off_windows h args W s) as (He & Hl & _). auto.
Qed.

Lemma off_windows_environment_untouched_witness :
  is_windows linux_box = false /\
  environ (st (Configure.main linux_box no_args (desk []))) = environ (desk []) /\
  Forall not_shell (log (Configure.main linux_box no_args (desk []))).
Proof.
  split; [reflexivity |].
  apply (off_windows_environment_untouched linux_box no_args (desk [])). reflexivity.
Defined.

(** ** Batch mode *)

Section Batch.
Context (h : Host) (args : Configure.Args) (config : Configure.BuildConfig).
Context (batch : Configure.interactive config = false).

Lemma resolve_build_type_batch :
  obeys any_move not_ask anything (Configure.resolve_build_type args config).
Proof. unfold Configure.resolve_build_type. rewrite batch. obey. Qed.

Lemma resolve_compiler_batch :
  obeys any_move not_ask anything (Configure.resolve_compiler h args config).
Proof. unfold Configure.resolve_compiler. rewrite batch. obey. Qed.

Lemma resolve_build_system_batch :
  obeys any_move not_ask anything (Configure.resolve_build_system h args config).
Proof. unfold Configure.resolve_build_system. rewrite batch. obey. Qed.

Lemma resolve_build_tests_batch :
  obeys any_move not_ask anything (Configure.resolve_build_tests args config).
Proof. unfold Configure.resolve_build_tests. rewrite batch. obey. Qed.

Lemma resolve_use_conan_batch :
  obeys any_move not_ask anything (Configure.resolve_use_conan h args config).
Proof. unfold Configure.resolve_use_conan. rewrite batch. obey. Qed.

End Batch.

Lemma build_never_asks h config :
  obeys any_move not_ask anything (Configure.build h config).
Proof. obey. Qed.

Lemma main_batch h args :
  Configure.arg_no_interactive args = true ->
  obeys any_move not_ask anything (Configure.main h args).
Proof.
  intros B. unfold Configure.main. cbv zeta.
  apply (obeys_then any_move not_ask); [obey | intros _].
  apply (obeys_then any_move not_ask);
    [apply resolve_build_type_batch; simpl; rewrite B; reflexivity | intros build_type].
  apply (obeys_then any_move not_ask);
    [apply resolve_compiler_batch; simpl; rewrite B; reflexivity | intros compiler].
  destruct compiler as [c |]; [| obey].
  apply (obeys_then any_move not_ask);
    [apply resolve_build_system_batch; simpl; rewrite B; reflexivity | intros build_system].
  apply (obeys_then any_move not_ask);
    [apply resolve_build_tests_batch; simpl; rewrite B; reflexivity | intros build_tests].
  apply (obeys_then any_move not_ask);
    [apply resolve_use_conan_batch; simpl; rewrite B; reflexivity | intros use_conan].
  apply (obeys_then any_move not_ask); [obey | intros _].
  apply build_never_asks.
Qed.

(** With [--no-interactive], a run of [main] shows no prompt, whichever
    options are missing. *)
Theorem batch_mode_never_prompts (h : Host) (args : Configure.Args) (s : Machine) :
  Configure.arg_no_interactive args = true ->
  Forall not_ask (log (Configure.main h args s)).
Proof.
  intros B. destruct (main_batch h args B s) as (_ & Hl & _). exact Hl.
Qed.

Lemma batch_mode_never_prompts_witness :
  Configure.arg_no_interactive batch_args = true /\
  Forall not_ask (log (Configure.main linux_box batch_args (desk [Typed "1"]))).
Proof.
  split; [reflexivity |].
  apply (batch_mode_never_prompts linux_box batch_args (desk [Typed "1"])). reflexivity.
Defined.

(** ** The exit status *)

Ltac code_leaf :=
  first [ exact Logic.I
        | solve [ left; reflexivity ]
        | solve [ right; reflexivity ]
        | obey_leaf ].

Lemma main_zero_or_one h args :
  obeys any_move anything zero_or_one (Configure.main h args).
Proof. obey_with code_leaf. Qed.

Lemma build_zero_configures h config s :
  res (Configure.build h config s) = Ok 0 ->
  Exists (fun e => is_configure_command e = true) (log (Configure.build h config s)).
Proof.
  intros H. unfold Configure.build in *.
  apply bind_returns in H as (a & Ha & H).
  apply bind_returns in H as (installed & Hi & H).
  destruct installed; cbn [negb] in H; [| discriminate H].
  apply bind_returns in H as (configured & Hc & H).
  apply (bind_occurs_later _ _ _ _ a Ha).
  apply (bind_occurs_later _ _ _ _ true Hi). cbn [negb].
  apply bind_occurs_first. apply (configure_spawns _ _ _ configured). exact Hc.
Qed.

Lemma main_zero_configures h args s :
  res (Configure.main h args s) = Ok 0 ->
  Exists (fun e => is_configure_command e = true) (log (Configure.main h args s)).
Proof.
  intros H. unfold Configure.main in *. cbv zeta in *.
  step_over H. step_over H. step_over H.
  destruct a1 as [c |]; [| discriminate H].
  step_over H. step_over H. step_over H. step_over H.
  apply build_zero_configures. exact H.
Qed.

(** Once the command line is parsed, [main] returns only 0 or 1, and it
    returns 0 only after it has spawned a configure command. *)
Theorem exit_status_meaning (h : Host) (args : Configure.Args) (s : Machine) (code : Z) :
  res (Configure.main h args s) = Ok code ->
  zero_or_one code /\
  (code = 0 ->
   Exists (fun e => is_configure_command e = true) (log (Configure.main h args s))).
Proof.
  intros Hr.
  destruct (main_zero_or_one h args s) as (_ & _ & Hq). rewrite Hr in Hq.
  split; [exact Hq |].
  intros ->. apply main_zero_configures. exact Hr.
Qed.

Lemma exit_status_meaning_witness :
  res (Configure.main linux_box gcc_args (desk [])) = Ok 0 /\
  zero_or_one 0 /\
  (0 = 0 ->
   Exists (fun e => is_configure_command e = true)
     (log (Configure.main linux_box gcc_args (desk [])))).
Proof.
  split; [vm_compute; reflexivity |].
  apply (exit_status_meaning linux_box gcc_args (desk []) 0).
  vm_compute. reflexivity.
Defined.

(** ** Conan *)

Lemma setup_conan_missing h config s :
  on_PATH h s "conan" = false ->
  Configure.setup_conan h config s =
  mkOut (Ok false) s
    [Say Header "Installing Conan Dependencies";
     Say Error "Conan not found. Please install Conan first:";
     Say Info "  pip install conan"].
Proof.
  intros H. unfold Configure.setup_conan.
  rewrite bind_run. cbn [say emit res st log].
  rewrite bind_run, check_command_run. cbn [res st log]. rewrite H. reflexivity.
Qed.

(** When Conan is asked for and [conan] is not on PATH, the build step
    ends with status 1 and has spawned no process at all: neither Conan
    nor CMake. *)
Theorem conan_missing_is_fatal (h : Host) (config : Configure.BuildConfig) (s : Machine) :
  Configure.use_conan config = true ->
  on_PATH h s "conan" = false ->
  res (Configure.build h config s) = Ok 1 /\
  Forall not_spawn (log (Configure.build h config s)).
Proof.
  intros Hu Hc. unfold Configure.build. rewrite Hu.
  rewrite bind_run.
  destruct (Configure.clean config).
  - rewrite bind_run. cbn [exists_ res st log].
    destruct (files s (Configure.get_build_dir config)).
    + rewrite bind_run. cbn [say emit rmtree res st log].
      rewrite bind_run, setup_conan_missing by exact Hc.
      cbn [res st log negb ret]. split; [reflexivity |].
      repeat constructor.
    + cbn [ret res st log].
      rewrite bind_run, setup_conan_missing by exact Hc.
      cbn [res st log negb ret]. split; [reflexivity |].
      repeat constructor.
  - cbn [ret res st log].
    rewrite bind_run, setup_conan_missing by exact Hc.
    cbn [res st log negb ret]. split; [reflexivity |].
    repeat constructor.
Qed.

Lemma conan_missing_is_fatal_witness :
  Configure.use_conan conan_config = true /\
  on_PATH bare_box (desk []) "conan" = false /\
  res (Configure.build bare_box conan_config (desk [])) = Ok 1 /\
  Forall not_spawn (log (Configure.build bare_box conan_config (desk []))).
Proof.
  split; [reflexivity |]. split; [reflexivity |].
  apply (conan_missing_is_fatal bare_box conan_config (desk [])); reflexivity.
Defined.

Ltac profile_leaf :=
  first [ exact Logic.I
        | solve [ intros ?; discriminate ]
        | solve [ intros _; split; [ reflexivity | simpl; tauto ] ]
        | obey_leaf ].

Lemma setup_conan_default_profile h config :
  Configure.among_or_none (Configure.compiler config) ["gcc"; "g++"] = false ->
  obeys any_move default_profile_only anything (Configure.setup_conan h config).
Proof.
  intros Hc. unfold Configure.setup_conan.
  apply (obeys_then any_move default_profile_only); [obey_with profile_leaf | intros _].
  apply (obeys_then any_move default_profile_only); [obey_with profile_leaf | intros conan].
  destruct (negb conan); [obey_with profile_leaf |]. cbv zeta.
  apply (obeys_then any_move default_profile_only); [obey_with profile_leaf | intros _].
  apply (obeys_then any_move default_profile_only); [obey_with profile_leaf | intros e].
  rewrite Hc, andb_false_r.
  apply (obeys_bind any_move default_profile_only (fun p => p = "default"));
    [apply (obeys_ret any_move default_profile_only); reflexivity | intros profile ->].
  obey_with profile_leaf.
Qed.

(** For a compiler other than gcc and g++, the one process that
    [setup_conan] spawns is a Conan install with [--profile=default]:
    the GCC version is not asked for and the custom profile is not
    used, whether its file is there or not. *)
Theorem other_compilers_take_default_profile (h : Host) (config : Configure.BuildConfig)
    (s : Machine) :
  Configure.among_or_none (Configure.compiler config) ["gcc"; "g++"] = false ->
  Forall default_profile_only (log (Configure.setup_conan h config s)).
Proof.
  intros Hc. destruct (setup_conan_default_profile h config Hc s) as (_ & Hl & _). exact Hl.
Qed.

Lemma other_compilers_take_default_profile_witness :
  Configure.among_or_none (Configure.compiler (Configure.set_use_conan true msvc_config))
    ["gcc"; "g++"] = false /\
  Forall default_profile_only
    (log (Configure.setup_conan linux_box (Configure.set_use_conan true msvc_config)
            {| environ := {[ "PATH" := "/usr/bin" ]}; stdin := [];
               files := fun _ => true |})).
Proof.
  split; [reflexivity |].
  apply (other_compilers_take_default_profile linux_box
           (Configure.set_use_conan true msvc_config)).
  reflexivity.
Defined.

(** ** The CMake cache *)

Lemma cache_entries_app (l1 l2 : list string) (cache : gmap string string) :
  Configure.cache_entries (l1 ++ l2) cache
  = Configure.cache_entries l2 (Configure.cache_entries l1 cache).
Proof.
  revert cache. induction l1 as [| raw rest IH]; intros cache; [reflexivity |].
  cbn [app Configure.cache_entries]. cbv zeta.
  destruct (String.eqb (Text.strip raw) "" || String.prefix "#" (Text.strip raw)
            || String.prefix "//" (Text.strip raw)); [apply IH |].
  destruct (Text.contains_char "=" (Text.strip raw) && Text.contains_char ":" (Text.strip raw));
    [| apply IH].
  destruct (Text.partition "=" (Text.strip raw)) as [key_type value]. apply IH.
Qed.

Lemma contains_char_append c (a b : string) :
  Text.contains_char c (a +:+ b) = Text.contains_char c a || Text.contains_char c b.
Proof.
  induction a as [| d a IH]; [reflexivity |].
  change (String d a +:+ b) with (String d (a +:+ b)). cbn [Text.contains_char].
  destruct (Ascii.eqb c d); [reflexivity | exact IH].
Qed.

Lemma partition_append c (a b : string) :
  Text.contains_char c a = false ->
  Text.partition c (a +:+ String c b) = (a, b).
Proof.
  induction a as [| d a IH]; intros H.
  - change ("" +:+ String c b) with (String c b). cbn [Text.partition].
    rewrite Ascii.eqb_refl. reflexivity.
  - change (String d a +:+ String c b) with (String d (a +:+ String c b)).
    cbn [Text.partition Text.contains_char] in *.
    destruct (Ascii.eqb c d); [discriminate H |].
    rewrite (IH H). reflexivity.
Qed.

Lemma partition_key_clean c (s : string) :
  Text.contains_char c (fst (Text.partition c s)) = false.
Proof.
  induction s as [| d s IH]; [reflexivity |].
  cbn [Text.partition]. destruct (Ascii.eqb c d) eqn:E; [reflexivity |].
  destruct (Text.partition c s) as [k v]. cbn [fst Text.contains_char] in *.
  rewrite E. exact IH.
Qed.

Lemma partition_key_within c d (s : string) :
  Text.contains_char d s = false ->
  Text.contains_char d (fst (Text.partition c s)) = false.
Proof.
  induction s as [| x s IH]; intros H; [reflexivity |].
  cbn [Text.partition Text.contains_char] in *.
  destruct (Ascii.eqb c x); [reflexivity |].
  destruct (Text.partition c s) as [k v]. cbn [fst Text.contains_char] in *.
  destruct (Ascii.eqb d x); [discriminate H | exact (IH H)].
Qed.

(** What one well-formed line does to the cache. *)
Lemma cache_entries_line raw name type value (cache : gmap string string) :
  Text.strip raw = cache_line name type value ->
  is_cache_name name = true ->
  Text.contains_char "=" type = false ->
  Configure.cache_entries [raw] cache = <[name := value]> cache.
Proof.
  intros Hs Hn Ht. cbn [Configure.cache_entries]. cbv zeta. rewrite Hs.
  unfold cache_line.
  destruct name as [| c name]; [discriminate Hn |].
  unfold is_cache_name in Hn.
  apply andb_prop in Hn as (Hn & Hcolon). apply andb_prop in Hn as (Hn & Heq).
  apply andb_prop in Hn as (Hn & Hslash). apply andb_prop in Hn as (_ & Hhash).
  apply negb_true_iff in Hcolon, Heq, Hslash, Hhash.
  assert (E1 : String.eqb (String c name +:+ ":" +:+ type +:+ "=" +:+ value) "" = false)
    by reflexivity.
  assert (E2 : String.prefix "#" (String c name +:+ ":" +:+ type +:+ "=" +:+ value) = false).
  { change (String c name +:+ ":" +:+ type +:+ "=" +:+ value)
      with (String c (name +:+ ":" +:+ type +:+ "=" +:+ value)).
    cbn [String.prefix] in *. destruct (ascii_dec "#" c); [| reflexivity].
    exfalso. destruct name; cbn in Hhash; discriminate Hhash. }
  assert (E3 : String.prefix "//" (String c name +:+ ":" +:+ type +:+ "=" +:+ value) = false).
  { change (String c name +:+ ":" +:+ type +:+ "=" +:+ value)
      with (String c (name +:+ ":" +:+ type +:+ "=" +:+ value)).
    cbn [String.prefix] in *. destruct (ascii_dec "/" c); [| reflexivity].
    destruct name as [| d name].
    - change ("" +:+ ":" +:+ type +:+ "=" +:+ value)
        with (String ":" (type +:+ "=" +:+ value)).
      cbn [String.prefix].
      destruct (ascii_dec "/" ":") as [F |]; [discriminate F | reflexivity].
    - change (String d name +:+ ":" +:+ type +:+ "=" +:+ value)
        with (String d (name +:+ ":" +:+ type +:+ "=" +:+ value)).
      cbn [String.prefix] in *.
      destruct (ascii_dec "/" d); [| reflexivity].
      exfalso. destruct name; cbn in Hslash; discriminate Hslash. }
  rewrite E1, E2, E3. cbn [orb].
  assert (E4 : Text.contains_char "=" (String c name +:+ ":" +:+ type +:+ "=" +:+ value) = true).
  { rewrite !contains_char_append. cbn [Text.contains_char].
    rewrite Ascii.eqb_refl, !orb_true_r. reflexivity. }
  assert (E5 : Text.contains_char ":" (String c name +:+ ":" +:+ type +:+ "=" +:+ value) = true).
  { rewrite contains_char_append, (contains_char_append _ ":").
    change (Text.contains_char ":" ":") with true. rewrite orb_true_r. reflexivity. }
  rewrite E4, E5. cbn [andb].
  assert (E6 : Text.partition "=" (String c name +:+ ":" +:+ type +:+ "=" +:+ value)
               = (String c name +:+ ":" +:+ type, value)).
  { rewrite <- (append_assoc (String c name) ":" (type +:+ "=" +:+ value)).
    rewrite <- (append_assoc (String c name +:+ ":") type ("=" +:+ value)).
    change ("=" +:+ value) with (String "=" value).
    rewrite partition_append.
    - rewrite append_assoc. reflexivity.
    - rewrite !contains_char_append, Heq, Ht. reflexivity. }
  rewrite E6.
  change (String c name +:+ ":" +:+ type) with (String c name +:+ String ":" type).
  rewrite (partition_append ":" (String c name) type Hcolon). reflexivity.
Qed.

(** A line that reads [NAME:TYPE=VALUE] once the white space around it
    is stripped is read back: if it is the last line of an existing
    [CMakeCache.txt], [read_cmake_cache] returns a cache that maps NAME
    to VALUE, whatever the lines before it say about NAME. *)
Theorem cache_round_trip (read_lines : Path -> list string + string)
    (build_dir : Path) (s : Machine) (lines : list string) (raw name type value : string) :
  files s (build_dir // "CMakeCache.txt") = true ->
  read_lines (build_dir // "CMakeCache.txt") = inl (lines ++ [raw]) ->
  Text.strip raw = cache_line name type value ->
  is_cache_name name = true ->
  Text.contains_char "=" type = false ->
  exists cache,
    res (Configure.read_cmake_cache read_lines build_dir s) = Ok cache /\
    cache !! name = Some value.
Proof.
  intros Hf Hr Hs Hn Ht. unfold Configure.read_cmake_cache. cbv zeta.
  rewrite bind_run. cbn [exists_ res st log]. rewrite Hf, Hr. cbn [negb ret res].
  eexists. split; [reflexivity |].
  rewrite cache_entries_app, (cache_entries_line raw name type value _ Hs Hn Ht).
  apply lookup_insert_eq.
Qed.

Lemma cache_round_trip_witness :
  exists cache,
    res (Configure.read_cmake_cache cache_reader ["build"] with_cache) = Ok cache /\
    cache !! "CMAKE_BUILD_TYPE" = Some "Release".
Proof.
  apply (cache_round_trip cache_reader ["build"] with_cache
           ["# This is the CMakeCache file." +:+ nl; "CMAKE_BUILD_TYPE:STRING=Debug" +:+ nl]
           ("  CMAKE_BUILD_TYPE:STRING=Release  " +:+ nl)
           "CMAKE_BUILD_TYPE" "STRING" "Release");
    reflexivity.
Defined.

Lemma cache_entries_keys (lines : list string) (cache : gmap string string) :
  map_Forall (fun key _ => is_cache_key key) cache ->
  map_Forall (fun key _ => is_cache_key key) (Configure.cache_entries lines cache).
Proof.
  revert cache. induction lines as [| raw rest IH]; intros cache H; [exact H |].
  cbn [Configure.cache_entries]. cbv zeta.
  destruct (String.eqb (Text.strip raw) "" || String.prefix "#" (Text.strip raw)
            || String.prefix "//" (Text.strip raw)); [apply IH, H |].
  destruct (Text.contains_char "=" (Text.strip raw) && Text.contains_char ":" (Text.strip raw));
    [| apply IH, H].
  pose proof (partition_key_clean "=" (Text.strip raw)) as Hk.
  destruct (Text.partition "=" (Text.strip raw)) as [key_type value]. cbn [fst] in Hk.
  apply IH. apply map_Forall_insert_2; [| exact H].
  split; [apply partition_key_clean | apply partition_key_within, Hk].
Qed.

(** No key of a cache that [read_cmake_cache] returns contains a [:] or
    an [=]: a key is the text in front of both. *)
Theorem cache_keys_are_names (read_lines : Path -> list string + string)
    (build_dir : Path) (s : Machine) (cache : gmap string string) :
  res (Configure.read_cmake_cache read_lines build_dir s) = Ok cache ->
  map_Forall (fun key _ => is_cache_key key) cache.
Proof.
  unfold Configure.read_cmake_cache. cbv zeta.
  rewrite bind_run. cbn [exists_ res st log].
  destruct (files s (build_dir // "CMakeCache.txt")); cbn [negb].
  - destruct (read_lines (build_dir // "CMakeCache.txt")) as [lines | e].
    + intros [= <-]. apply cache_entries_keys, map_Forall_empty.
    + intros [= <-]. apply map_Forall_empty.
  - intros [= <-]. apply map_Forall_empty.
Qed.

Lemma cache_keys_are_names_witness :
  res (Configure.read_cmake_cache cache_reader ["build"] with_cache)
  = Ok (Configure.cache_entries cache_text ∅) /\
  Configure.cache_entries cache_text ∅ !! "CMAKE_BUILD_TYPE" = Some "Release" /\
  map_Forall (fun key _ => is_cache_key key) (Configure.cache_entries cache_text ∅).
Proof.
  split; [reflexivity |]. split; [reflexivity |].
  apply (cache_keys_are_names cache_reader ["build"] with_cache). reflexivity.
Defined.

(** ** The checks of the installer *)

Lemma run_command_run h cmd cwd check live_output s :
  exists code out fs,
    InstallDeps.run_command h cmd cwd check live_output s
    = mkOut (Ok (code, out)) (with_files fs s) [Run (Argv cmd) cwd None].
Proof.
  unfold InstallDeps.run_command.
  destruct (spawn h _ (files s)) as [[c fs] |].
  - eexists _, _, fs. reflexivity.
  - exists 127, "", (files s). destruct s. reflexivity.
Qed.

Lemma returns_run_command h cmd cwd check live_output :
  returns anything (InstallDeps.run_command h cmd cwd check live_output).
Proof.
  intros s. destruct (run_command_run h cmd cwd check live_output s) as (code & out & fs & ->).
  eexists. split; [reflexivity | exact Logic.I].
Qed.

Lemma print_all_run messages s :
  InstallDeps.print_all messages s = mkOut (Ok tt) s (Say Success <$> messages).
Proof.
  induction messages as [| m rest IH]; [reflexivity |].
  cbn [InstallDeps.print_all]. rewrite bind_run. cbn [say emit res st log].
  rewrite IH. reflexivity.
Qed.

(** The two version probes of [check_compiler], as they run from [s]:
    each returns, leaves [os.environ] alone, and only adds to the list. *)
Lemma gxx_block_run h (found : bool) (compilers : list string) s :
  exists more s' l,
    (if found then
       r <- InstallDeps.run_command h ["g++"; "--version"] None false false ;;
       let '(returncode, stdout) := r in
       if returncode =? 0 then
         ret (compilers ++ ["g++: " +:+ (if (2 <? length (Text.split stdout))%nat
                                         then default "" (Text.split stdout !! 2%nat)
                                         else "found")])
       else ret compilers
     else ret compilers) s
    = mkOut (Ok (compilers ++ more)) s' l /\
    environ s' = environ s /\
    (found = false -> more = [] /\ l = []) /\
    ((forall c fs, spawn h {| rq_cmd := Argv ["g++"; "--version"]; rq_cwd := None;
                              rq_env := environ s |} (files s) = Some (c, fs) ->
                   returncode c <> 0) ->
     more = [] /\ Forall (fun e => e = Run (Argv ["g++"; "--version"]) None None) l).
Proof.
  destruct found.
  - rewrite bind_run. unfold InstallDeps.run_command.
    destruct (spawn h _ (files s)) as [[c fs] |] eqn:R; cbn [res st log].
    + destruct (returncode c =? 0) eqn:Z0.
      * eexists [_], _, _. split; [cbn [ret res st log app]; reflexivity |]. split; [reflexivity |].
        split; [discriminate |]. intros Hbad. exfalso.
        apply (Hbad c fs eq_refl). apply Z.eqb_eq. exact Z0.
      * exists [], (with_files fs s), [Run (Argv ["g++"; "--version"]) None None].
        split; [cbn [ret res st log app]; rewrite ?app_nil_r; reflexivity |]. split; [reflexivity |].
        split; [discriminate |]. intros _. split; [reflexivity | repeat constructor].
    + exists [], s, [Run (Argv ["g++"; "--version"]) None None].
      split; [cbn [ret res st log app]; rewrite ?app_nil_r; reflexivity |]. split; [reflexivity |].
      split; [discriminate |]. intros _. split; [reflexivity | repeat constructor].
  - exists [], s, []. rewrite app_nil_r. repeat split. constructor.
Qed.

Lemma clangxx_block_run h (found : bool) (compilers : list string) s :
  exists more s' l,
    (if found then
       r <- InstallDeps.run_command h ["clang++"; "--version"] None false false ;;
       let '(returncode, stdout) := r in
       if returncode =? 0 then
         ret (compilers ++ ["clang++: " +:+ fst (Text.partition (Text.chr 10) stdout)])
       else ret compilers
     else ret compilers) s
    = mkOut (Ok (compilers ++ more)) s' l /\
    environ s' = environ s /\
    (found = false -> more = [] /\ l = []).
Proof.
  destruct found.
  - rewrite bind_run. unfold InstallDeps.run_command.
    destruct (spawn h _ (files s)) as [[c fs] |]; cbn [res st log].
    + destruct (returncode c =? 0).
      * eexists [_], _, _. split; [cbn [ret res st log app]; reflexivity |]. split; [reflexivity | discriminate].
      * exists [], (with_files fs s), [Run (Argv ["clang++"; "--version"]) None None].
        split; [cbn [ret res st log app]; rewrite ?app_nil_r; reflexivity |]. split; [reflexivity | discriminate].
    + exists [], s, [Run (Argv ["clang++"; "--version"]) None None].
      split; [cbn [ret res st log app]; rewrite ?app_nil_r; reflexivity |]. split; [reflexivity | discriminate].
  - exists [], s, []. rewrite app_nil_r. repeat split.
Qed.

Lemma on_PATH_environ h s s' cmd :
  environ s' = environ s -> on_PATH h s' cmd = on_PATH h s cmd.
Proof. unfold on_PATH. intros ->. reflexivity. Qed.

(** [check_compiler], run from [s]: the list that the two probes have
    gathered, the machine they leave, and what the function makes of
    them. *)
Lemma check_compiler_run h s :
  exists (compilers : list string) s' l l',
    environ s' = environ s /\
    res (InstallDeps.check_compiler h s) =
      Ok (negb (bool_decide
                  (compilers
                   ++ (if on_PATH h s "clang-cl" then ["Clang-CL (clang-cl)"] else [])
                   ++ (if on_PATH h s "cl" || on_PATH h s "cl.exe"
                       then ["MSVC (cl.exe)"] else []) = []))) /\
    log (InstallDeps.check_compiler h s) = l ++ l' /\
    Forall not_spawn l' /\
    (compilers
     ++ (if on_PATH h s "clang-cl" then ["Clang-CL (clang-cl)"] else [])
     ++ (if on_PATH h s "cl" || on_PATH h s "cl.exe" then ["MSVC (cl.exe)"] else []) = [] ->
     In (Say Error "No C++ compiler found") l') /\
    (on_PATH h s "g++" = false -> on_PATH h s "clang++" = false ->
     compilers = [] /\ l = []) /\
    (on_PATH h s "clang++" = false ->
     (forall c fs, spawn h {| rq_cmd := Argv ["g++"; "--version"]; rq_cwd := None;
                              rq_env := environ s |} (files s) = Some (c, fs) ->
                   returncode c <> 0) ->
     compilers = []).
Proof.
  unfold InstallDeps.check_compiler. cbv zeta.
  rewrite bind_run, check_command_run. cbn [res st log].
  rewrite bind_run.
  destruct (gxx_block_run h (on_PATH h s "g++") [] s)
    as (more1 & s1 & l1 & -> & E1 & Hno1 & Hbad1).
  cbn [res st log].
  rewrite bind_run, check_command_run. cbn [res st log].
  rewrite (on_PATH_environ h s s1 "clang++" E1).
  rewrite bind_run.
  destruct (clangxx_block_run h (on_PATH h s "clang++") ([] ++ more1) s1)
    as (more2 & s2 & l2 & -> & E2 & Hno2).
  cbn [res st log].
  assert (E : environ s2 = environ s) by congruence.
  rewrite bind_run, check_command_run. cbn [res st log].
  rewrite (on_PATH_environ h s s2 "clang-cl" E).
  rewrite bind_run, check_command_run. cbn [res st log].
  rewrite (on_PATH_environ h s s2 "cl" E).
  rewrite bind_run.
  set (compilers := ([] ++ more1) ++ more2).
  assert (Hcl : (if on_PATH h s "cl" then ret true else check_command h "cl.exe") s2
                = mkOut (Ok (on_PATH h s "cl" || on_PATH h s "cl.exe")) s2 []).
  { destruct (on_PATH h s "cl"); [reflexivity |].
    rewrite check_command_run, (on_PATH_environ h s s2 "cl.exe" E). reflexivity. }
  rewrite Hcl. cbn [res st log].
  set (all := (if on_PATH h s "cl" || on_PATH h s "cl.exe"
               then (if on_PATH h s "clang-cl"
                     then compilers ++ ["Clang-CL (clang-cl)"] else compilers)
                    ++ ["MSVC (cl.exe)"]
               else if on_PATH h s "clang-cl"
                    then compilers ++ ["Clang-CL (clang-cl)"] else compilers)).
  assert (Hall : all = compilers
                       ++ (if on_PATH h s "clang-cl" then ["Clang-CL (clang-cl)"] else [])
                       ++ (if on_PATH h s "cl" || on_PATH h s "cl.exe"
                           then ["MSVC (cl.exe)"] else [])).
  { unfold all. destruct (on_PATH h s "clang-cl"), (on_PATH h s "cl" || on_PATH h s "cl.exe");
      cbn [app]; rewrite ?app_nil_r, <- ?app_assoc; reflexivity. }
  exists compilers, s2, (l1 ++ l2).
  rewrite <- Hall.
  destruct all as [| first others] eqn:Eall.
  - assert (Hq : forall l0,
               In (Say Error "No C++ compiler found")
                 (Say Error "No C++ compiler found" :: l0)) by (intros l0; left; reflexivity).
    destruct (String.eqb (system h) "Linux"), (String.eqb (system h) "Darwin"),
      (String.eqb (system h) "Windows");
      cbn [bind say emit ret res st log app];
      (eexists; split; [exact E |]; split; [reflexivity |];
       split; [rewrite <- app_assoc; reflexivity |];
       split; [repeat constructor |];
       split; [intros _; apply Hq |];
       split;
       [ intros G C; destruct (Hno1 G) as (-> & ->); destruct (Hno2 C) as (-> & ->);
         split; reflexivity
       | intros C Hbad; destruct (Hno2 C) as (-> & _); destruct (Hbad1 Hbad) as (-> & _);
         reflexivity ]).
  - rewrite !bind_run, print_all_run. cbn [res st log ret app]. rewrite app_nil_r.
    exists (Say Success <$> first :: others).
    split; [exact E |].
    split; [reflexivity |].
    split; [rewrite <- app_assoc; reflexivity |].
    split.
    { apply Forall_fmap. apply Forall_true. intros m. reflexivity. }
    split; [discriminate |].
    split.
    { intros G C. destruct (Hno1 G) as (-> & ->). destruct (Hno2 C) as (-> & ->).
      split; reflexivity. }
    intros C Hbad. destruct (Hno2 C) as (-> & _). destruct (Hbad1 Hbad) as (-> & _).
    reflexivity.
Qed.

(** When none of [g++], [clang++], [clang-cl], [cl] and [cl.exe] is on
    PATH, [check_compiler] returns False, reports "No C++ compiler found"
    and has spawned no process. *)
Theorem no_compiler_on_PATH (h : Host) (s : Machine) :
  on_PATH h s "g++" = false ->
  on_PATH h s "clang++" = false ->
  on_PATH h s "clang-cl" = false ->
  on_PATH h s "cl" = false ->
  on_PATH h s "cl.exe" = false ->
  res (InstallDeps.check_compiler h s) = Ok false /\
  Forall not_spawn (log (InstallDeps.check_compiler h s)) /\
  In (Say Error "No C++ compiler found") (log (InstallDeps.check_compiler h s)).
Proof.
  intros G C CL M1 M2.
  destruct (check_compiler_run h s)
    as (compilers & s' & l & l' & _ & Hr & Hl & Hq & Hn & Hnone & _).
  destruct (Hnone G C) as (-> & ->).
  rewrite CL, M1, M2 in *. cbn [orb app] in *.
  rewrite Hr, Hl. cbn [app].
  split; [reflexivity |]. split; [exact Hq | apply Hn; reflexivity].
Qed.

Lemma no_compiler_on_PATH_witness :
  res (InstallDeps.check_compiler bare_box (desk [])) = Ok false /\
  Forall not_spawn (log (InstallDeps.check_compiler bare_box (desk []))) /\
  In (Say Error "No C++ compiler found") (log (InstallDeps.check_compiler bare_box (desk []))).
Proof. apply (no_compiler_on_PATH bare_box (desk [])); reflexivity. Defined.

(** [clang-cl], [cl] and [cl.exe] count as found without being run:
    when one of them is on PATH, [check_compiler] does not return False,
    whatever exit codes the version probes of [g++] and [clang++] give. *)
Theorem windows_compilers_need_no_probe (h : Host) (s : Machine) (found : bool) :
  on_PATH h s "clang-cl" || on_PATH h s "cl" || on_PATH h s "cl.exe" = true ->
  res (InstallDeps.check_compiler h s) = Ok found ->
  found = true.
Proof.
  intros H.
  destruct (check_compiler_run h s) as (compilers & s' & l & l' & _ & Hr & _).
  rewrite Hr. intros [= <-]. apply negb_true_iff, bool_decide_eq_false_2.
  intros Hnil. apply app_eq_nil in Hnil as (_ & Hnil).
  apply app_eq_nil in Hnil as (H1 & H2).
  destruct (on_PATH h s "clang-cl"); [discriminate H1 |].
  cbn [orb] in H. rewrite H in H2. discriminate H2.
Qed.

Lemma windows_compilers_need_no_probe_witness :
  on_PATH mixed_box office "g++" = true /\
  existsb is_spawn (log (InstallDeps.check_compiler mixed_box office)) = true /\
  on_PATH mixed_box office "clang-cl" || on_PATH mixed_box office "cl"
  || on_PATH mixed_box office "cl.exe" = true /\
  res (InstallDeps.check_compiler mixed_box office) = Ok true /\
  true = true.
Proof.
  split; [reflexivity |]. split; [reflexivity |]. split; [reflexivity |].
  split; [reflexivity |].
  apply (windows_compilers_need_no_probe mixed_box office true); reflexivity.
Defined.

(** A [g++] that is on PATH does not count when [g++ --version] runs and
    does not exit with 0, or is not found when it is started: with no
    other compiler on PATH, a [check_compiler] that returns returns
    False, and it has reported "No C++ compiler found". *)
Theorem broken_gxx_does_not_count (h : Host) (s : Machine) (found : bool) :
  (forall c fs, spawn h {| rq_cmd := Argv ["g++"; "--version"]; rq_cwd := None;
                           rq_env := environ s |} (files s) = Some (c, fs) ->
                returncode c <> 0) ->
  on_PATH h s "clang++" = false ->
  on_PATH h s "clang-cl" = false ->
  on_PATH h s "cl" = false ->
  on_PATH h s "cl.exe" = false ->
  res (InstallDeps.check_compiler h s) = Ok found ->
  found = false /\
  In (Say Error "No C++ compiler found") (log (InstallDeps.check_compiler h s)).
Proof.
  intros Hbad C CL M1 M2.
  destruct (check_compiler_run h s)
    as (compilers & s' & l & l' & _ & Hr & Hl & _ & Hn & _ & Hbroken).
  rewrite (Hbroken C Hbad) in *.
  rewrite CL, M1, M2 in *. cbn [orb app] in *.
  rewrite Hr, Hl. intros [= <-]. split; [reflexivity |].
  apply in_or_app. right. apply Hn. reflexivity.
Qed.

Lemma broken_gxx_does_not_count_witness :
  on_PATH broken_gxx_box (desk []) "g++" = true /\
  res (InstallDeps.check_compiler broken_gxx_box (desk [])) = Ok false /\
  false = false /\
  In (Say Error "No C++ compiler found")
    (log (InstallDeps.check_compiler broken_gxx_box (desk []))).
Proof.
  split; [reflexivity |]. split; [reflexivity |].
  apply (broken_gxx_does_not_count broken_gxx_box (desk []) false); try reflexivity.
  intros c fs [= <- _]. discriminate.
Defined.

Lemma check_cmake_run h s :
  on_PATH h s "cmake" = true ->
  res (InstallDeps.check_cmake h s) = Ok true.
Proof.
  intros H. unfold InstallDeps.check_cmake.
  rewrite bind_run, check_command_run. cbn [res st log]. rewrite H. cbn [negb].
  destruct (run_command_run h ["cmake"; "--version"] None false false s)
    as (code & out & fs & E).
  rewrite bind_run, E. cbn [res st log]. rewrite bind_run.
  destruct (code =? 0); reflexivity.
Qed.

Lemma check_git_run h s :
  on_PATH h s "git" = true ->
  res (InstallDeps.check_git h s) = Ok true.
Proof.
  intros H. unfold InstallDeps.check_git.
  rewrite bind_run, check_command_run. cbn [res st log]. rewrite H. cbn [negb].
  destruct (run_command_run h ["git"; "--version"] None false false s)
    as (code & out & fs & E).
  rewrite bind_run, E. cbn [res st log]. rewrite bind_run.
  destruct (code =? 0); reflexivity.
Qed.

(** [check_cmake] and [check_git] answer for PATH alone.  A tool that
    is not on PATH gives False, an error line and no probe; for a tool
    on PATH the exit code of the version probe only decides whether the
    version is printed: a check that returns returns True. *)
Theorem tool_checks_follow_PATH (h : Host) (s : Machine) :
  (on_PATH h s "cmake" = false ->
   InstallDeps.check_cmake h s
   = mkOut (Ok false) s [Say Error "CMake not found. Please install CMake 3.25 or higher"]) /\
  (on_PATH h s "git" = false ->
   InstallDeps.check_git h s
   = mkOut (Ok false) s [Say Error "Git not found. Please install Git"]) /\
  (forall found, res (InstallDeps.check_cmake h s) = Ok found -> found = on_PATH h s "cmake") /\
  (forall found, res (InstallDeps.check_git h s) = Ok found -> found = on_PATH h s "git").
Proof.
  split; [| split; [| split]].
  - intros H. unfold InstallDeps.check_cmake.
    rewrite bind_run, check_command_run. cbn [res st log]. rewrite H. reflexivity.
  - intros H. unfold InstallDeps.check_git.
    rewrite bind_run, check_command_run. cbn [res st log]. rewrite H. reflexivity.
  - intros found. destruct (on_PATH h s "cmake") eqn:H.
    + rewrite (check_cmake_run h s H). intros [= <-]. reflexivity.
    + unfold InstallDeps.check_cmake.
      rewrite bind_run, check_command_run. cbn [res st log]. rewrite H.
      intros [= <-]. reflexivity.
  - intros found. destruct (on_PATH h s "git") eqn:H.
    + rewrite (check_git_run h s H). intros [= <-]. reflexivity.
    + unfold InstallDeps.check_git.
      rewrite bind_run, check_command_run. cbn [res st log]. rewrite H.
      intros [= <-]. reflexivity.
Qed.

Lemma tool_checks_follow_PATH_witness :
  res (InstallDeps.check_cmake broken_gxx_box (desk [])) = Ok false /\
  res (InstallDeps.check_cmake bare_box (desk [])) = Ok true /\
  true = on_PATH bare_box (desk []) "cmake".
Proof.
  split.
  { rewrite (proj1 (tool_checks_follow_PATH broken_gxx_box (desk [])) eq_refl). reflexivity. }
  split; [reflexivity |].
  apply (tool_checks_follow_PATH bare_box (desk [])). reflexivity.
Defined.

Lemma probe_version_returns h cmd args label :
  returns (fun r => r = Some true \/ r = None) (InstallDeps.probe_version h cmd args label).
Proof.
  unfold InstallDeps.probe_version.
  apply returns_then; [apply returns_run_command | intros [code out]].
  destruct (code =? 0).
  - apply returns_then; [apply returns_say; exact Logic.I | intros _].
    apply returns_ret. left. reflexivity.
  - apply returns_ret. right. reflexivity.
Qed.

Lemma check_qt_returns h : returns (fun b => b = true) (InstallDeps.check_qt h).
Proof.
  unfold InstallDeps.check_qt.
  apply returns_then; [apply returns_check_command | intros qmake].
  apply (returns_bind (fun r => r = Some true \/ r = None)).
  { destruct qmake; [apply probe_version_returns | apply returns_ret; right; reflexivity]. }
  intros r [-> | ->]; [apply returns_ret; reflexivity |].
  apply returns_then; [apply returns_check_command | intros qmake6].
  apply (returns_bind (fun r => r = Some true \/ r = None)).
  { destruct qmake6; [apply probe_version_returns | apply returns_ret; right; reflexivity]. }
  intros r [-> | ->]; [apply returns_ret; reflexivity |].
  apply returns_then; [apply returns_say; exact Logic.I | intros _].
  apply returns_ret. reflexivity.
Qed.

Lemma check_opencv_returns h : returns (fun b => b = true) (InstallDeps.check_opencv h).
Proof.
  unfold InstallDeps.check_opencv.
  apply returns_then; [apply returns_check_command | intros pkg_config].
  apply (returns_bind (fun r => r = Some true \/ r = None)).
  { destruct pkg_config; [| apply returns_ret; right; reflexivity].
    apply (returns_bind (fun r => r = Some true \/ r = None));
      [apply probe_version_returns |].
    intros r [-> | ->]; [apply returns_ret; left; reflexivity | apply probe_version_returns]. }
  intros r [-> | ->]; [apply returns_ret; reflexivity |].
  apply returns_then; [apply returns_say; exact Logic.I | intros _].
  apply returns_ret. reflexivity.
Qed.

Lemma setup_conan_profile_returns h :
  returns (fun b => b = true) (InstallDeps.setup_conan_profile h).
Proof.
  unfold InstallDeps.setup_conan_profile.
  apply returns_then; [apply returns_say; exact Logic.I | intros _].
  apply returns_then; [apply returns_run_command | intros [code out]].
  apply returns_then.
  { destruct (negb (code =? 0)); [apply returns_say | apply returns_ret]; exact Logic.I. }
  intros _.
  apply returns_then; [apply returns_say; exact Logic.I | intros _].
  apply returns_ret. reflexivity.
Qed.

(** The checks for Qt and OpenCV and the set-up of the Conan profile
    never answer False: whatever is installed and whatever exit codes
    the probes give, a value that one of them returns is True. *)
Theorem optional_checks_never_fail (h : Host) (s : Machine) (answer : bool) :
  res (InstallDeps.check_qt h s) = Ok answer \/
  res (InstallDeps.check_opencv h s) = Ok answer \/
  res (InstallDeps.setup_conan_profile h s) = Ok answer ->
  answer = true.
Proof.
  destruct (check_qt_returns h s) as (b1 & H1 & ->).
  destruct (check_opencv_returns h s) as (b2 & H2 & ->).
  destruct (setup_conan_profile_returns h s) as (b3 & H3 & ->).
  rewrite H1, H2, H3. intros [[= <-] | [[= <-] | [= <-]]]; reflexivity.
Qed.

Lemma optional_checks_never_fail_witness :
  res (InstallDeps.setup_conan_profile mixed_box office) = Ok true /\
  In (Say Warning "Failed to detect Conan profile, using default")
    (log (InstallDeps.setup_conan_profile mixed_box office)) /\
  true = true.
Proof.
  split; [reflexivity |]. split; [vm_compute; tauto |].
  apply (optional_checks_never_fail mixed_box office true).
  right. right. reflexivity.
Defined.

(** ** From the installer to the configure script *)

(** What install_deps.py installs, configure.py finds: after an
    [install_conan_dependencies] that returned True, with a Conan that
    leaves its toolchain file in the output folder, a configuration for
    the same project root, platform and build type gets the define of
    that toolchain file and [-DCLIENT_USE_CONAN=ON], without a warning. *)
Theorem installer_feeds_configure (h : Host) (build_type : string)
    (cache cache' : option (gmap string string)) (s : Machine)
    (config : Configure.BuildConfig) :
  installer_writes_toolchain h build_type ->
  res (InstallDeps.install_conan_dependencies h build_type cache s) = Ok (true, cache') ->
  Configure.project_root config = script_root h ->
  Configure.platform config = InstallDeps.get_platform_name h ->
  Configure.build_type config = build_type ->
  Configure.use_conan config = true ->
  let s' := st (InstallDeps.install_conan_dependencies h build_type cache s) in
  Configure.conan_defines h config s'
  = mkOut (Ok ["-DCMAKE_TOOLCHAIN_FILE=" +:+
               path_str h (InstallDeps.get_conan_dir h build_type // "conan_toolchain.cmake");
               "-DCLIENT_USE_CONAN=ON"]) s' [].
Proof.
  intros Hw Hr Hroot Hplatform Htype Hu s'.
  pose proof (installer_leaves_toolchain h build_type cache cache' s Hw Hr) as Hf.
  fold s' in Hf.
  assert (Hsame : toolchain_file config
                  = InstallDeps.get_conan_dir h build_type // "conan_toolchain.cmake").
  { unfold toolchain_file, InstallDeps.get_conan_dir, InstallDeps.get_build_dir,
      Configure.get_build_dir.
    rewrite Hroot, Hplatform, Htype. reflexivity. }
  rewrite conan_defines_spec. unfold conan_part, toolchain_define.
  rewrite Hu, Hsame, Hf. reflexivity.
Qed.

Lemma installer_feeds_configure_witness :
  res (InstallDeps.install_conan_dependencies conan_box "RelWithDebInfo" None (desk []))
  = Ok (true, None) /\
  Configure.conan_defines conan_box conan_config
    (st (InstallDeps.install_conan_dependencies conan_box "RelWithDebInfo" None (desk [])))
  = mkOut (Ok ["-DCMAKE_TOOLCHAIN_FILE=" +:+
               path_str conan_box
                 (InstallDeps.get_conan_dir conan_box "RelWithDebInfo"
                  // "conan_toolchain.cmake");
               "-DCLIENT_USE_CONAN=ON"])
      (st (InstallDeps.install_conan_dependencies conan_box "RelWithDebInfo" None (desk [])))
      [].
Proof.
  split; [reflexivity |].
  apply (installer_feeds_configure conan_box "RelWithDebInfo" None None (desk []) conan_config);
    try reflexivity.
  exact conan_box_installer_writes_toolchain.
Defined.
